(** * Digital Wardrobe: retry wrappers, AI adapters, item store handlers and
    the outfit-suggestion engine, embedded from the TypeScript sources.

    Strings are byte strings holding ASCII text; JavaScript numbers that the
    handlers touch (HTTP status codes, delays, usage counters, clock values)
    are unbounded integers.  Every definition names the source function it
    follows. *)

From Stdlib Require Import ZArith Lia Ascii.
From stdpp Require Import base tactics option list sorting gmap strings pretty.

#[local] Set Warnings "-register-all".
Local Open Scope Z_scope.

(* ===================================================================== *)
(** ** JavaScript strings *)
(* ===================================================================== *)

Module JsStr.

(** The ASCII part of the class that [\s] and [String.prototype.trim] use. *)
Definition isSpace (c : ascii) : bool := Ascii.is_space c.

Definition inRange (lo hi : N) (c : ascii) : bool :=
  let n := Ascii.N_of_ascii c in ((lo <=? n) && (n <=? hi))%N.

Definition upperChar (c : ascii) : ascii :=
  if inRange 97 122 c then Ascii.ascii_of_N (Ascii.N_of_ascii c - 32) else c.

Definition lowerChar (c : ascii) : ascii :=
  if inRange 65 90 c then Ascii.ascii_of_N (Ascii.N_of_ascii c + 32) else c.

(** [\w]: letters, digits and underscore. *)
Definition isWordChar (c : ascii) : bool :=
  inRange 97 122 c || inRange 65 90 c || inRange 48 57 c || inRange 95 95 c.

Fixpoint mapStr (f : ascii → ascii) (s : string) : string :=
  match s with
  | EmptyString => EmptyString
  | String c s' => String (f c) (mapStr f s')
  end.

Definition toUpperCase : string → string := mapStr upperChar.
Definition toLowerCase : string → string := mapStr lowerChar.

Fixpoint dropWhile (p : ascii → bool) (s : string) : string :=
  match s with
  | EmptyString => EmptyString
  | String c s' => if p c then dropWhile p s' else s
  end.

Fixpoint takeWhile (p : ascii → bool) (s : string) : string :=
  match s with
  | EmptyString => EmptyString
  | String c s' => if p c then String c (takeWhile p s') else EmptyString
  end.

Definition trimStart (s : string) : string := dropWhile isSpace s.
Definition trimEnd (s : string) : string :=
  String.rev (dropWhile isSpace (String.rev s)).
Definition trim (s : string) : string := trimEnd (trimStart s).

Definition isEmpty (s : string) : bool :=
  match s with EmptyString => true | _ => false end.

(** [s.length > 0], which is also the truthiness of a string. *)
Definition nonEmpty (s : string) : bool := negb (isEmpty s).

Fixpoint startsWith (s p : string) : bool :=
  match p, s with
  | EmptyString, _ => true
  | String _ _, EmptyString => false
  | String a p', String b s' => if decide (a = b) then startsWith s' p' else false
  end.

(** [s.includes(sub)] *)
Fixpoint includes (s sub : string) : bool :=
  startsWith s sub ||
  match s with
  | EmptyString => false
  | String _ s' => includes s' sub
  end.

Definition charIn (cs : list ascii) (c : ascii) : bool := bool_decide (c ∈ cs).

(** [s.replace(/[cs]/g, '')] for a character class [cs]. *)
Fixpoint removeChars (cs : list ascii) (s : string) : string :=
  match s with
  | EmptyString => EmptyString
  | String c s' =>
      if charIn cs c then removeChars cs s' else String c (removeChars cs s')
  end.

(** [s.split(/[cs]+/)] followed by dropping the empty pieces, which is all
    the callers keep ([filter(Boolean)] after a [trim], or a length test). *)
Fixpoint splitOn_go (p : ascii → bool) (cur : string) (s : string) : list string :=
  match s with
  | EmptyString => [String.rev cur]
  | String c s' =>
      if p c then String.rev cur :: splitOn_go p EmptyString s'
      else splitOn_go p (String c cur) s'
  end.

(** Pieces between separator characters; the separator is a single
    character here, runs of separators give empty pieces. *)
Definition splitOn (p : ascii → bool) (s : string) : list string :=
  splitOn_go p EmptyString s.

Definition lf : ascii := "010"%char.
Definition cr : ascii := "013"%char.
Definition dquote : ascii := "034"%char.
Definition squote : ascii := "039"%char.

(** [s.split(/\r?\n/)]: split at line feeds, a carriage return right before
    the line feed belongs to the separator. *)
Definition stripTrailingCr (s : string) : string :=
  match String.rev s with
  | String c r => if decide (c = cr) then String.rev r else s
  | EmptyString => s
  end.

Definition splitLines (s : string) : list string :=
  match reverse (splitOn (λ c, bool_decide (c = lf)) s) with
  | [] => []
  | last :: front => reverse (last :: (stripTrailingCr <$> front))
  end.

(** [s.split(/\s+/)[0]]: the characters before the first white space. *)
Definition firstWord (s : string) : string := takeWhile (λ c, negb (isSpace c)) s.

Definition isQuote (c : ascii) : bool := bool_decide (c = dquote ∨ c = squote).

(** [s.replace(re, '')] with [re] matching a single or double quote at the
    start or at the end: one quote off the front, one off the end. *)
Definition stripQuotes (s : string) : string :=
  let s1 := match s with
            | String c s' => if isQuote c then s' else s
            | EmptyString => s
            end in
  match String.rev s1 with
  | String c r => if isQuote c then String.rev r else s1
  | EmptyString => s1
  end.

(** Case-insensitive prefix test used by the [/i] patterns. *)
Definition startsWithCI (s p : string) : bool :=
  startsWith (toLowerCase s) (toLowerCase p).

Fixpoint dropN (n : nat) (s : string) : string :=
  match n, s with
  | O, _ => s
  | S n', String _ s' => dropN n' s'
  | S _, EmptyString => EmptyString
  end.

(** [s.replace(/^(p1|p2|...)\s+/i, '')]: the first alternative that is a
    prefix and is followed by white space is removed together with that
    white space. *)
Fixpoint stripLeadIn (alts : list string) (s : string) : string :=
  match alts with
  | [] => s
  | p :: alts' =>
      let rest := dropN (String.length p) s in
      if startsWithCI s p && nonEmpty rest && negb (String.eqb rest (trimStart rest))
      then trimStart rest
      else stripLeadIn alts' s
  end.

(** [name.charAt(0).toUpperCase() + name.slice(1)] *)
Definition capitalize (s : string) : string :=
  match s with
  | EmptyString => EmptyString
  | String c s' => String (upperChar c) s'
  end.

End JsStr.

(* ===================================================================== *)
(** ** Exceptions and results of awaited calls *)
(* ===================================================================== *)

(** What a rejected promise carries.  One constructor per [throw new Error]
    site of the clients (the message text is not modelled). *)
Inductive Exn : Type :=
| TransportError (msg : string)   (* [fetch] itself rejected *)
| HttpError (status : Z)          (* a non-2xx answer turned into an Error *)
| BodyError                       (* [response.json()] rejected *)
| ApiError                        (* the body carries an [error] member *)
| NoContent                       (* no text in the answer *)
| MissingApiKey
| TypeError                       (* a member read on [null], a loop over a
                                     value that is not iterable, a string
                                     method on a value that is no string *)
| SyntaxError                     (* [request.json()] on a body that is no JSON *)
| CastError                       (* the store cannot cast a value to its path *)
| ValidationError                 (* the schema refuses the document *)
| DuplicateKey.                   (* an insert under an id already stored *)

Inductive Result (A : Type) : Type :=
| Ok (a : A)
| Throw (e : Exn).
Arguments Ok {A} a.
Arguments Throw {A} e.

Definition bind {A B : Type} (m : Result A) (k : A → Result B) : Result B :=
  match m with
  | Ok a => k a
  | Throw e => Throw e
  end.

Notation "'let*' x ':=' m 'in' k" := (bind m (λ x, k))
  (at level 10, x name, m at level 100, k at level 200, only parsing).

(** [try { body } catch { fallback }] around a computation that yields a
    value. *)
Definition tryCatch {A : Type} (body : Result A) (fallback : A) : A :=
  match body with
  | Ok a => a
  | Throw _ => fallback
  end.

(* ===================================================================== *)
(** ** Network calls with retry *)
(* ===================================================================== *)

Module Net.

Section WithBody.
(** [B] is what [response.json()] resolves to. *)
Context {B : Type}.

Record Response : Type := mkResponse {
  status : Z;
  json : option B      (* [None]: the body is not JSON, [json()] rejects *)
}.

(** [response.ok] *)
Definition ok (r : Response) : bool := (200 <=? status r) && (status r <=? 299).

(** One call of [fetch]: it rejects or resolves to a response. *)
Inductive FetchOutcome : Type :=
| Rejects (msg : string)
| Resolves (r : Response).

(** What the wrappers do to the outside world, in order. *)
Inductive Event : Type :=
| EvFetch
| EvSleep (ms : Z).

(** The network as an oracle: the outcome of the [n]-th [fetch] of one
    wrapper call. *)
Definition Network : Type := nat → FetchOutcome.

(** [response.status >= 500 || response.status === 429] *)
Definition retryStatus (r : Response) : bool := (500 <=? status r) || (status r =? 429).

(** [fetchWithBackoff], gemini.ts 50-79 (both copies).  [attempt] counts the
    fetches already made.  The recursive call is returned without [await],
    so its rejection is not caught by this frame. *)
Fixpoint fetchWithBackoff (net : Network) (attempt : nat) (retries : nat) (delay : Z)
  : Result Response * list Event :=
  match net attempt with
  | Resolves response =>
      if negb (ok response) then
        if retryStatus response then
          match retries with
          | S retries' =>
              let '(res, evs) := fetchWithBackoff net (S attempt) retries' (delay * 2) in
              (res, EvFetch :: EvSleep delay :: evs)
          | O =>
              (* thrown inside [try], caught, [retries > 0] is false: rethrown *)
              (Throw (HttpError (status response)), [EvFetch])
          end
        else (Ok response, [EvFetch])
      else (Ok response, [EvFetch])
  | Rejects msg =>
      match retries with
      | S retries' =>
          let '(res, evs) := fetchWithBackoff net (S attempt) retries' (delay * 2) in
          (res, EvFetch :: EvSleep delay :: evs)
      | O => (Throw (TransportError msg), [EvFetch])
      end
  end.

(** [fetchWithRetry], openai client (backend/src/lib/db.ts 78-102) and the
    HuggingFace client (same text). *)
Fixpoint fetchWithRetry (net : Network) (attempt : nat) (retries : nat) (delay : Z)
  : Result Response * list Event :=
  match net attempt with
  | Resolves response =>
      if negb (ok response) && retryStatus response then
        match retries with
        | S retries' =>
            let '(res, evs) := fetchWithRetry net (S attempt) retries' (delay * 2) in
            (res, EvFetch :: EvSleep delay :: evs)
        | O => (Ok response, [EvFetch])
        end
      else (Ok response, [EvFetch])
  | Rejects msg =>
      match retries with
      | S retries' =>
          let '(res, evs) := fetchWithRetry net (S attempt) retries' (delay * 2) in
          (res, EvFetch :: EvSleep delay :: evs)
      | O => (Throw (TransportError msg), [EvFetch])
      end
  end.

(** The default arguments, which every call site uses. *)
Definition geminiFetch (net : Network) := fetchWithBackoff net 0 5 1000.
Definition openaiFetch (net : Network) := fetchWithRetry net 0 3 1000.

(** *** Reading a trace *)

Fixpoint fetches (evs : list Event) : nat :=
  match evs with
  | [] => O
  | EvFetch :: evs' => S (fetches evs')
  | EvSleep _ :: evs' => fetches evs'
  end.

Fixpoint sleeps (evs : list Event) : list Z :=
  match evs with
  | [] => []
  | EvSleep d :: evs' => d :: sleeps evs'
  | EvFetch :: evs' => sleeps evs'
  end.

(** An outcome after which both wrappers try again while budget is left. *)
Definition retriable (o : FetchOutcome) : bool :=
  match o with
  | Rejects _ => true
  | Resolves r => negb (ok r) && retryStatus r
  end.

(** The number of retries spent: the leading retriable outcomes, capped by
    the budget. *)
Fixpoint retriesUsed (net : Network) (attempt budget : nat) : nat :=
  match budget with
  | O => O
  | S b => if retriable (net attempt) then S (retriesUsed net (S attempt) b) else O
  end.

(** [k] retries with a delay that doubles each time, then the last fetch. *)
Fixpoint backoffTrace (delay : Z) (k : nat) : list Event :=
  match k with
  | O => [EvFetch]
  | S k' => EvFetch :: EvSleep delay :: backoffTrace (delay * 2) k'
  end.

Fixpoint doubling (delay : Z) (k : nat) : list Z :=
  match k with
  | O => []
  | S k' => delay :: doubling (delay * 2) k'
  end.

(** An outcome that is no 2xx answer: a rejected fetch or [!response.ok]. *)
Definition failing (o : FetchOutcome) : bool :=
  match o with
  | Rejects _ => true
  | Resolves r => negb (ok r)
  end.

(** What the last fetch of a wrapper call decides: [fetchWithBackoff] turns
    a last 5xx or 429 into an error, [fetchWithRetry] hands it over. *)
Definition lastOfBackoff (o : FetchOutcome) : Result Response :=
  match o with
  | Resolves r => if retriable o then Throw (HttpError (status r)) else Ok r
  | Rejects msg => Throw (TransportError msg)
  end.

Definition lastOfRetry (o : FetchOutcome) : Result Response :=
  match o with
  | Resolves r => Ok r
  | Rejects msg => Throw (TransportError msg)
  end.

(** Two networks to run the wrappers on: one that never connects and one
    that answers every request with the same status and no JSON body. *)
Definition unreachable : Network := λ _, Rejects "connect ECONNREFUSED".
Definition answering (code : Z) : Network := λ _, Resolves (mkResponse code None).

End WithBody.
Arguments Response : clear implicits.
Arguments FetchOutcome : clear implicits.
Arguments Network : clear implicits.

End Net.

(* ===================================================================== *)
(** ** JavaScript values as they come out of [JSON.parse] *)
(* ===================================================================== *)

Module Js.

(** Numbers are integers here; the object members are kept in order and
    have distinct keys. *)
Inductive JValue : Type :=
| JNull
| JBool (b : bool)
| JNum (n : Z)
| JStr (s : string)
| JArr (items : list JValue)
| JObj (members : list (string * JValue)).

(** Truthiness, as [!v], [v || d] and [if (v)] read it. *)
Definition truthy (v : JValue) : bool :=
  match v with
  | JNull => false
  | JBool b => b
  | JNum n => negb (n =? 0)
  | JStr s => JsStr.nonEmpty s
  | JArr _ | JObj _ => true
  end.

(** Truthiness of a value that may be [undefined]. *)
Definition truthyOpt (v : option JValue) : bool :=
  match v with Some v => truthy v | None => false end.

Fixpoint assoc (k : string) (ms : list (string * JValue)) : option JValue :=
  match ms with
  | [] => None
  | (k', v) :: ms' => if decide (k = k') then Some v else assoc k ms'
  end.

(** [v?.k]: [undefined] on [null] and on values without that member.  None
    of the member names the sources read is a built-in property of a string,
    number, boolean or array. *)
Definition member (v : JValue) (k : string) : option JValue :=
  match v with
  | JObj ms => assoc k ms
  | _ => None
  end.

Definition memberOpt (v : option JValue) (k : string) : option JValue :=
  match v with Some v => member v k | None => None end.

(** [String(v)] *)
Fixpoint toString (v : JValue) : string :=
  match v with
  | JNull => "null"
  | JBool b => if b then "true" else "false"
  | JNum n => pretty n
  | JStr s => s
  | JArr l =>
      String.concat ","
        (List.map (λ x, match x with JNull => "" | _ => toString x end) l)
  | JObj _ => "[object Object]"
  end.

Definition hexDigit (n : N) : ascii :=
  if (n <? 10)%N then Ascii.ascii_of_N (48 + n) else Ascii.ascii_of_N (87 + n).

Definition backslash : string := String "092"%char EmptyString.
Definition quoteMark : string := String JsStr.dquote EmptyString.

(** The escapes of [JSON.stringify] for one character. *)
Definition escapeChar (c : ascii) : string :=
  let n := Ascii.N_of_ascii c in
  if decide (c = JsStr.dquote) then backslash +:+ quoteMark
  else if decide (c = "092"%char) then backslash +:+ backslash
  else if decide (c = "008"%char) then backslash +:+ "b"
  else if decide (c = "009"%char) then backslash +:+ "t"
  else if decide (c = "010"%char) then backslash +:+ "n"
  else if decide (c = "012"%char) then backslash +:+ "f"
  else if decide (c = "013"%char) then backslash +:+ "r"
  else if (n <? 32)%N then
    backslash +:+ "u00" +:+
    String (hexDigit (n / 16)) (String (hexDigit (n mod 16)) EmptyString)
  else String c EmptyString.

Fixpoint escape (s : string) : string :=
  match s with
  | EmptyString => EmptyString
  | String c s' => escapeChar c +:+ escape s'
  end.

Definition quoted (s : string) : string := quoteMark +:+ escape s +:+ quoteMark.

(** [JSON.stringify(v)] of a value that came out of [JSON.parse]. *)
Fixpoint stringify (v : JValue) : string :=
  match v with
  | JNull => "null"
  | JBool b => if b then "true" else "false"
  | JNum n => pretty n
  | JStr s => quoted s
  | JArr l => "[" +:+ String.concat "," (List.map stringify l) +:+ "]"
  | JObj ms =>
      "{" +:+
      String.concat "," (List.map (λ kv, quoted kv.1 +:+ ":" +:+ stringify kv.2) ms)
      +:+ "}"
  end.

End Js.

(* ===================================================================== *)
(** ** The Gemini client (frontend/src/lib/gemini.ts and its backend copy) *)
(* ===================================================================== *)

Module Gemini.
Import Js.

(** [for (const p of parts)] with [parts = candidate?.content?.parts ?? []]:
    what the loop visits.  A string is visited character by character. *)
Fixpoint chars (s : string) : list JValue :=
  match s with
  | EmptyString => []
  | String c s' => JStr (String c EmptyString) :: chars s'
  end.

Definition iterate (parts : option JValue) : Result (list JValue) :=
  match parts with
  | None | Some JNull => Ok []
  | Some (JArr l) => Ok l
  | Some (JStr s) => Ok (chars s)
  | Some _ => Throw TypeError
  end.

(** [p.k] where [p] may be [null]. *)
Definition read (p : JValue) (k : string) : Result (option JValue) :=
  match p with
  | JNull => Throw TypeError
  | _ => Ok (member p k)
  end.

(** First loop of [parseResponseText]: the first part with a truthy
    [structuredJson]. *)
Fixpoint firstStructured (parts : list JValue) : Result (option string) :=
  match parts with
  | [] => Ok None
  | p :: parts' =>
      let* sj := read p "structuredJson" in
      match sj with
      | Some v =>
          if truthy v
          then Ok (Some (match v with JStr s => s | _ => stringify v end))
          else firstStructured parts'
      | None => firstStructured parts'
      end
  end.

(** [(p.inlineData.data as string).length] inside a template: the length
    of a string or of an array, the [length] member of an object, and
    [undefined] on a number or a boolean. *)
Definition lengthText (data : JValue) : string :=
  match data with
  | JStr s => pretty (Z.of_nat (String.length s))
  | JArr l => pretty (Z.of_nat (length l))
  | JObj ms =>
      match assoc "length" ms with
      | Some v => toString v
      | None => "undefined"
      end
  | _ => "undefined"
  end.

Definition inlineNote (inlineData : JValue) (data : JValue) : string :=
  "[inlineData: mime=" +:+
  (match member inlineData "mimeType" with
   | None | Some JNull => "unknown"
   | Some m => toString m
   end) +:+ " length=" +:+ lengthText data +:+ "]".

(** The [else if] branch of the second loop: a part with inline data. *)
Definition inlinePart (p : JValue) : option string :=
  match member p "inlineData" with
  | Some d =>
      match member d "data" with
      | Some data => if truthy d && truthy data then Some (inlineNote d data) else None
      | None => None
      end
  | None => None
  end.

(** One round of the second loop: what the part adds to [textParts]. *)
Definition partText (p : JValue) : option string :=
  match member p "text" with
  | Some (JStr t) =>
      if JsStr.nonEmpty (JsStr.trim t) then Some t else inlinePart p
  | _ => inlinePart p
  end.

(** Second loop: the text parts.  It runs only after the first loop went
    through every part, so no part is [null] here. *)
Definition textParts (parts : list JValue) : list string := omap partText parts.

(** The loop over [resp.candidates]; [whole] is [JSON.stringify(resp)]. *)
Fixpoint scanCandidates (cands : list JValue) (whole : string) : Result string :=
  match cands with
  | [] => Ok whole
  | cand :: cands' =>
      let* parts := iterate (memberOpt (member cand "content") "parts") in
      let* sj := firstStructured parts in
      match sj with
      | Some s => Ok s
      | None =>
          match textParts parts with
          | [] => scanCandidates cands' whole
          | tp => Ok (JsStr.trim (String.concat (String JsStr.lf EmptyString) tp))
          end
      end
  end.

(** [Array.isArray(resp.candidates)] *)
Definition hasCandidates (resp : JValue) : bool :=
  match member resp "candidates" with
  | Some (JArr _) => true
  | _ => false
  end.

(** [GeminiAPI.parseResponseText], gemini.ts 114-150. *)
Definition parseResponseText (resp : JValue) : Result string :=
  if negb (truthy resp) then Ok EmptyString
  else
    match member resp "candidates" with
    | Some (JArr cands) => scanCandidates cands (stringify resp)
    | _ => Ok EmptyString
    end.

(** [GeminiAPI.analyzeImage], gemini.ts 251-316: the request, the status
    test, the body and the text test. *)
Definition analyzeImage (net : Net.Network JValue) : Result string :=
  let* response := (Net.geminiFetch net).1 in
  if negb (Net.ok response) then Throw (HttpError (Net.status response))
  else
    match Net.json response with
    | None => Throw BodyError
    | Some data =>
        let* text := parseResponseText data in
        if JsStr.isEmpty text then Throw NoContent else Ok text
    end.

End Gemini.

(* ===================================================================== *)
(** ** Parsing helpers shared by the classification functions *)
(* ===================================================================== *)

Module Classify.
Import Js.

Definition validTypes : list string :=
  ["TOP"; "BOTTOM"; "DRESS"; "OUTERWEAR"; "SHOES"; "ACCESSORY"; "UNDERWEAR";
   "SWIMWEAR"; "SPORTSWEAR"].
Definition validOccasions : list string :=
  ["CASUAL"; "WORK"; "FORMAL"; "PARTY"; "SPORTS"; "BEACH"; "DATE_NIGHT"; "TRAVEL"].
Definition validSeasons : list string :=
  ["SPRING"; "SUMMER"; "FALL"; "WINTER"; "ALL_SEASON"].

(** [valid.includes(x)] *)
Definition oneOf (valid : list string) (x : string) : bool := bool_decide (x ∈ valid).

(** [for (const t of valid) if (text.includes(t)) return t] *)
Definition firstIncluded (valid : list string) (text : string) : option string :=
  List.find (λ t, JsStr.includes text t) valid.

(** [for (const [key, value] of Object.entries(typeMap))
      if (cleaned.includes(key)) return value] *)
Definition firstMapped (typeMap : list (string * string)) (text : string) : option string :=
  snd <$> List.find (λ kv, JsStr.includes text kv.1) typeMap.

(** [resp.trim().toUpperCase()] without its quotes and full stops. *)
Definition cleanWord (resp : string) : string :=
  JsStr.removeChars [JsStr.dquote; JsStr.squote; "."%char]
    (JsStr.toUpperCase (JsStr.trim resp)).

(** [resp.trim().toUpperCase()] without its quotes and the punctuation
    marks . , ; : ! ? *)
Definition cleanSentence (resp : string) : string :=
  JsStr.removeChars
    [JsStr.dquote; JsStr.squote; "."%char; ","%char; ";"%char; ":"%char; "!"%char; "?"%char]
    (JsStr.toUpperCase (JsStr.trim resp)).

(** The body of [suggestOccasion], [suggestSeason] and of the frontend
    [identifyClothingType] after the model answered with [resp]. *)
Definition pickEnum (valid : list string) (fallback : string) (resp : string) : string :=
  let cleaned := cleanWord resp in
  if oneOf valid cleaned then cleaned
  else
    match firstIncluded valid (JsStr.toUpperCase resp) with
    | Some t => t
    | None => fallback
    end.

(** The body of the backend and OpenAI [identifyClothingType]. *)
Definition pickType (typeMap : list (string * string)) (resp : string) : string :=
  let cleaned := cleanSentence resp in
  let firstWord := JsStr.firstWord cleaned in
  if oneOf validTypes firstWord then firstWord
  else
    match firstIncluded validTypes cleaned with
    | Some t => t
    | None =>
        match firstMapped typeMap cleaned with
        | Some t => t
        | None => "TOP"
        end
    end.

(** The answer names no value of the enum: neither as a whole nor as a
    part. *)
Definition namesNone (valid : list string) (resp : string) : bool :=
  negb (oneOf valid (cleanWord resp))
  && negb (bool_decide (is_Some (firstIncluded valid (JsStr.toUpperCase resp)))).

(** The answer names no garment type and no keyword of the map. *)
Definition namesNoType (typeMap : list (string * string)) (resp : string) : bool :=
  negb (oneOf validTypes (JsStr.firstWord (cleanSentence resp)))
  && negb (bool_decide (is_Some (firstIncluded validTypes (cleanSentence resp))))
  && negb (bool_decide (is_Some (firstMapped typeMap (cleanSentence resp)))).

(** [responseText.match(/\[[\s\S]*?\]/)]: from the first opening bracket
    through the next closing one. *)
Fixpoint upToClose (s : string) : option string :=
  match s with
  | EmptyString => None
  | String c s' =>
      if decide (c = "]"%char) then Some (String c EmptyString)
      else String c <$> upToClose s'
  end.

Fixpoint matchBracketed (s : string) : option string :=
  match s with
  | EmptyString => None
  | String c s' =>
      if decide (c = "["%char) then String c <$> upToClose s'
      else matchBracketed s'
  end.

(** [responseText] without brackets and quotes, trimmed, and then
    [.split(/[\r\n,]+/).map(s => s.trim()).filter(Boolean)] *)
Definition colorWords (responseText : string) : list string :=
  let cleaned :=
    JsStr.trim
      (JsStr.removeChars ["["%char; "]"%char; JsStr.dquote; JsStr.squote] responseText) in
  filter (λ s, JsStr.nonEmpty s = true)
    (JsStr.trim <$>
       JsStr.splitOn (λ c, JsStr.charIn [JsStr.cr; JsStr.lf; ","%char] c) cleaned).

(** [parsed.map((c) => String(c).trim()).filter(Boolean)] *)
Definition cleanColors (parsed : list JValue) : list string :=
  filter (λ s, JsStr.nonEmpty s = true) ((λ c, JsStr.trim (toString c)) <$> parsed).

(** [resp.split(/\r?\n/).filter(line => line.trim().length > 0)] and then
    [lines[0] || resp] *)
Definition firstNonBlankLine (resp : string) : string :=
  match filter (λ line, JsStr.nonEmpty (JsStr.trim line) = true) (JsStr.splitLines resp) with
  | line :: _ => line
  | [] => resp
  end.

(** [name.replace(/```[\w]*\n?/g, '')]: [skip] counts the backticks of an
    opened fence still to drop, [inTag] says that the word after a fence is
    being dropped. *)
Fixpoint removeFences_go (skip : nat) (inTag : bool) (s : string) : string :=
  match s with
  | EmptyString => EmptyString
  | String c s' =>
      match skip with
      | S n => removeFences_go n inTag s'
      | O =>
          if inTag && JsStr.isWordChar c then removeFences_go O true s'
          else if inTag && bool_decide (c = JsStr.lf) then removeFences_go O false s'
          else if JsStr.startsWith s "```" then removeFences_go 2 true s'
          else String c (removeFences_go O false s')
      end
  end.

Definition removeFences (s : string) : string := removeFences_go O false s.

End Classify.

(* ===================================================================== *)
(** ** The classification functions of the frontend Gemini adapter
       (frontend/src/lib/gemini.ts 403-530) *)
(* ===================================================================== *)

Module GeminiFrontend.
Import Js Classify.

Section Ops.
(** [JSON.parse]; [None] stands for its [SyntaxError]. *)
Variable JSON_parse : string → option JValue.

Definition extractColorsFromImage (net : Net.Network JValue) : list string :=
  match Gemini.analyzeImage net with
  | Throw _ => ["Unknown"]
  | Ok responseText =>
      match JSON_parse responseText with
      | Some (JArr parsed) => toString <$> parsed
      | Some _ => ["Unknown"]
      | None =>
          match colorWords responseText with
          | [] => ["Unknown"]
          | possible => possible
          end
      end
  end.

Definition identifyClothingType (net : Net.Network JValue) : string :=
  match Gemini.analyzeImage net with
  | Throw _ => "TOP"
  | Ok resp => pickEnum validTypes "TOP" resp
  end.

Definition suggestOccasion (net : Net.Network JValue) : string :=
  match Gemini.analyzeImage net with
  | Throw _ => "CASUAL"
  | Ok resp => pickEnum validOccasions "CASUAL" resp
  end.

Definition suggestSeason (net : Net.Network JValue) : string :=
  match Gemini.analyzeImage net with
  | Throw _ => "ALL_SEASON"
  | Ok resp => pickEnum validSeasons "ALL_SEASON" resp
  end.

Definition generateItemName (net : Net.Network JValue) : string :=
  match Gemini.analyzeImage net with
  | Throw _ => "Unknown Item"
  | Ok resp =>
      let line := JsStr.trim (default EmptyString (head (JsStr.splitLines resp))) in
      let name := JsStr.trim (JsStr.stripQuotes line) in
      if JsStr.nonEmpty name then name else "Unknown Item"
  end.

End Ops.
End GeminiFrontend.

(* ===================================================================== *)
(** ** The classification functions of the backend Gemini adapter
       (the later copy of gemini.ts, 405-703) *)
(* ===================================================================== *)

Module GeminiBackend.
Import Js Classify.

Definition typeMap : list (string * string) :=
  [("SHIRT", "TOP"); ("T-SHIRT", "TOP"); ("TSHIRT", "TOP"); ("BLOUSE", "TOP");
   ("SWEATER", "TOP"); ("HOODIE", "TOP");
   ("PANT", "BOTTOM"); ("JEAN", "BOTTOM"); ("TROUSER", "BOTTOM"); ("SHORT", "BOTTOM");
   ("SKIRT", "BOTTOM");
   ("JACKET", "OUTERWEAR"); ("COAT", "OUTERWEAR"); ("BLAZER", "OUTERWEAR");
   ("SNEAKER", "SHOES"); ("BOOT", "SHOES"); ("SANDAL", "SHOES"); ("HEEL", "SHOES");
   ("BAG", "ACCESSORY"); ("HAT", "ACCESSORY"); ("BELT", "ACCESSORY");
   ("SWIMSUIT", "SWIMWEAR"); ("BIKINI", "SWIMWEAR");
   ("ATHLETIC", "SPORTSWEAR"); ("SPORT", "SPORTSWEAR"); ("GYM", "SPORTSWEAR")].

Definition leadIns : list string :=
  ["this is a"; "the item is"; "it is"; "it's"; "this is"].

Section Ops.
Variable JSON_parse : string → option JValue.

(** The [catch] block of [extractColorsFromImage] and the [return] after
    it. *)
Definition colorsFromText (responseText : string) : list string :=
  match filter (λ s, (String.length s < 20)%nat) (colorWords responseText) with
  | [] => ["Unknown"]
  | possible => take 4 possible
  end.

(** The second [JSON.parse], of the whole answer. *)
Definition colorsFromWhole (responseText : string) : list string :=
  match JSON_parse responseText with
  | None => colorsFromText responseText
  | Some (JArr (c :: parsed)) => cleanColors (c :: parsed)
  | Some _ => ["Unknown"]
  end.

Definition extractColorsFromImage (net : Net.Network JValue) : list string :=
  match Gemini.analyzeImage net with
  | Throw _ => ["Unknown"]
  | Ok responseText =>
      match matchBracketed responseText with
      | Some jsonMatch =>
          match JSON_parse jsonMatch with
          | None => colorsFromText responseText
          | Some (JArr (c :: parsed)) => cleanColors (c :: parsed)
          | Some _ => colorsFromWhole responseText
          end
      | None => colorsFromWhole responseText
      end
  end.

Definition identifyClothingType (net : Net.Network JValue) : string :=
  match Gemini.analyzeImage net with
  | Throw _ => "TOP"
  | Ok resp => pickType typeMap resp
  end.

Definition suggestOccasion (net : Net.Network JValue) : string :=
  match Gemini.analyzeImage net with
  | Throw _ => "CASUAL"
  | Ok resp => pickEnum validOccasions "CASUAL" resp
  end.

Definition suggestSeason (net : Net.Network JValue) : string :=
  match Gemini.analyzeImage net with
  | Throw _ => "ALL_SEASON"
  | Ok resp => pickEnum validSeasons "ALL_SEASON" resp
  end.

Definition generateItemName (net : Net.Network JValue) : string :=
  match Gemini.analyzeImage net with
  | Throw _ => "Clothing Item"
  | Ok resp =>
      let name := firstNonBlankLine resp in
      let name := JsStr.trim (JsStr.stripQuotes name) in
      let name := JsStr.trim (JsStr.stripLeadIn leadIns name) in
      let name := JsStr.capitalize name in
      if JsStr.nonEmpty name then name else "Clothing Item"
  end.

End Ops.
End GeminiBackend.

(* ===================================================================== *)
(** ** The OpenAI adapter (backend/src/lib/db.ts, second file: the OpenAI
       client and its classification functions) *)
(* ===================================================================== *)

Module OpenAI.
Import Js Classify.

(** [x?.[0]] *)
Definition first (v : option JValue) : option JValue :=
  match v with
  | Some (JArr (x :: _)) => Some x
  | Some (JStr (String c _)) => Some (JStr (String c EmptyString))
  | Some (JObj ms) => assoc "0" ms
  | _ => None
  end.

(** [data.choices?.[0]?.message?.content] *)
Definition contentOf (data : JValue) : option JValue :=
  memberOpt (memberOpt (first (member data "choices")) "message") "content".

(** [OpenAIClient.analyzeImage], 129-203: the content of the first
    message, whatever its JSON type, when it is truthy. *)
Definition analyzeImageContent (apiKey : string) (net : Net.Network JValue) : Result JValue :=
  if JsStr.isEmpty apiKey then Throw MissingApiKey
  else
    let* response := (Net.openaiFetch net).1 in
    if negb (Net.ok response) then Throw (HttpError (Net.status response))
    else
      match Net.json response with
      | None => Throw BodyError
      | Some JNull => Throw TypeError
      | Some data =>
          if truthyOpt (member data "error") then Throw ApiError
          else
            match contentOf data with
            | Some content => if truthy content then Ok content else Throw NoContent
            | None => Throw NoContent
            end
      end.

(** The same call as the five classification functions below see it.  Each
    of them goes on with a string method on the answer inside its own
    [try]: a content that is no string makes that method throw there, which
    is reported here as that [TypeError].  The upload handler of the
    backend reads members of the answer instead and uses
    [analyzeImageContent]. *)
Definition analyzeImage (apiKey : string) (net : Net.Network JValue) : Result string :=
  let* content := analyzeImageContent apiKey net in
  match content with
  | JStr text => Ok text
  | _ => Throw TypeError
  end.

(** [OpenAIClient.generateText], 284-327: the same steps around a text-only
    request. *)
Definition generateText (apiKey : string) (net : Net.Network JValue) : Result string :=
  if JsStr.isEmpty apiKey then Throw MissingApiKey
  else
    let* response := (Net.openaiFetch net).1 in
    if negb (Net.ok response) then Throw (HttpError (Net.status response))
    else
      match Net.json response with
      | None => Throw BodyError
      | Some JNull => Throw TypeError
      | Some data =>
          if truthyOpt (member data "error") then Throw ApiError
          else
            match contentOf data with
            | Some (JStr content) =>
                if JsStr.isEmpty content then Throw NoContent else Ok content
            | Some content => if truthy content then Throw TypeError else Throw NoContent
            | None => Throw NoContent
            end
      end.

Definition typeMap : list (string * string) :=
  [("SHIRT", "TOP"); ("T-SHIRT", "TOP"); ("TSHIRT", "TOP"); ("BLOUSE", "TOP");
   ("SWEATER", "TOP"); ("HOODIE", "TOP");
   ("PANT", "BOTTOM"); ("JEAN", "BOTTOM"); ("TROUSER", "BOTTOM"); ("SHORT", "BOTTOM");
   ("SKIRT", "BOTTOM");
   ("JACKET", "OUTERWEAR"); ("COAT", "OUTERWEAR"); ("BLAZER", "OUTERWEAR");
   ("SNEAKER", "SHOES"); ("BOOT", "SHOES"); ("SANDAL", "SHOES"); ("HEEL", "SHOES");
   ("BAG", "ACCESSORY"); ("HAT", "ACCESSORY"); ("BELT", "ACCESSORY");
   ("JEWELRY", "ACCESSORY"); ("NECKLACE", "ACCESSORY"); ("EARRING", "ACCESSORY");
   ("BRACELET", "ACCESSORY"); ("RING", "ACCESSORY");
   ("SWIMSUIT", "SWIMWEAR"); ("BIKINI", "SWIMWEAR");
   ("ATHLETIC", "SPORTSWEAR"); ("SPORT", "SPORTSWEAR"); ("GYM", "SPORTSWEAR")].

Definition leadIns : list string :=
  ["this is a"; "the item is"; "it is"; "it's"; "this is"; "name:"; "item:"].

Section Ops.
Variable JSON_parse : string → option JValue.
(** The configured key ([OPENAI_API_KEY], trimmed by the constructor). *)
Variable apiKey : string.

Definition colorsFromText (responseText : string) : list string :=
  match filter (λ s, (String.length s < 20)%nat ∧ (2 < String.length s)%nat)
          (colorWords responseText) with
  | [] => ["Unknown"]
  | possible => take 4 possible
  end.

Definition colorsFromWhole (responseText : string) : list string :=
  match JSON_parse responseText with
  | None => colorsFromText responseText
  | Some (JArr (c :: parsed)) => cleanColors (c :: parsed)
  | Some _ => ["Unknown"]
  end.

Definition extractColorsFromImage (net : Net.Network JValue) : list string :=
  match analyzeImage apiKey net with
  | Throw _ => ["Unknown"]
  | Ok responseText =>
      match matchBracketed responseText with
      | Some jsonMatch =>
          match JSON_parse jsonMatch with
          | None => colorsFromText responseText
          | Some (JArr (c :: parsed)) => cleanColors (c :: parsed)
          | Some _ => colorsFromWhole responseText
          end
      | None => colorsFromWhole responseText
      end
  end.

Definition identifyClothingType (net : Net.Network JValue) : string :=
  match analyzeImage apiKey net with
  | Throw _ => "TOP"
  | Ok resp => pickType typeMap resp
  end.

Definition suggestOccasion (net : Net.Network JValue) : string :=
  match analyzeImage apiKey net with
  | Throw _ => "CASUAL"
  | Ok resp => pickEnum validOccasions "CASUAL" resp
  end.

Definition suggestSeason (net : Net.Network JValue) : string :=
  match analyzeImage apiKey net with
  | Throw _ => "ALL_SEASON"
  | Ok resp => pickEnum validSeasons "ALL_SEASON" resp
  end.

Definition generateItemName (net : Net.Network JValue) : string :=
  match analyzeImage apiKey net with
  | Throw _ => "Clothing Item"
  | Ok resp =>
      let name := firstNonBlankLine resp in
      let name := JsStr.trim (JsStr.stripQuotes name) in
      let name := JsStr.trim (JsStr.stripLeadIn leadIns name) in
      let name := JsStr.trim (removeFences name) in
      let name := JsStr.capitalize name in
      if JsStr.nonEmpty name then name else "Clothing Item"
  end.

End Ops.
End OpenAI.

(* ===================================================================== *)
(** ** The HuggingFace adapter (src/unnamed/part_017): one model captions
       the image, a text model is asked the question about the caption *)
(* ===================================================================== *)

Module HuggingFace.
Import Js Classify.

(** [simpleTextExtraction], 251-277: the answer the client makes up from
    the words of the prompt when the models cannot be asked. *)
Definition simpleTextExtraction (prompt : string) : string :=
  let lowerPrompt := JsStr.toLowerCase prompt in
  if JsStr.includes lowerPrompt "accessory" || JsStr.includes lowerPrompt "jewelry"
     || JsStr.includes lowerPrompt "necklace" || JsStr.includes lowerPrompt "ring"
  then "ACCESSORY"
  else if JsStr.includes lowerPrompt "top" || JsStr.includes lowerPrompt "shirt"
          || JsStr.includes lowerPrompt "blouse"
  then "TOP"
  else if JsStr.includes lowerPrompt "bottom" || JsStr.includes lowerPrompt "pant"
          || JsStr.includes lowerPrompt "jean"
  then "BOTTOM"
  else if JsStr.includes lowerPrompt "dress" then "DRESS"
  else if JsStr.includes lowerPrompt "shoe" || JsStr.includes lowerPrompt "boot"
  then "SHOES"
  else "TOP".

(** *** The prompts of the five functions, line by line *)

(** [l.join(sep)] *)
Fixpoint join (sep : string) (l : list string) : string :=
  match l with
  | [] => EmptyString
  | [x] => x
  | x :: l' => x +:+ sep +:+ join sep l'
  end.

Definition text (lines : list string) : string := join (String JsStr.lf EmptyString) lines.

Definition colorsPrompt : string :=
  text
    ["Based on this image description, identify the main colors present in the clothing item. ";
     "Return ONLY a JSON array of color names. Use simple color names like: Red, Blue, Green, "
       +:+ "Yellow, Black, White, Gray, Brown, Pink, Purple, Orange, Navy, Beige.";
     "Example: [" +:+ quoted "Blue" +:+ ", " +:+ quoted "White" +:+ "]";
     "Return ONLY the JSON array, no other text."].

Definition typePrompt : string :=
  text
    ["Based on this image description, classify the clothing item into ONE category.";
     "";
     "VALID CATEGORIES: TOP, BOTTOM, DRESS, OUTERWEAR, SHOES, ACCESSORY, UNDERWEAR, "
       +:+ "SWIMWEAR, SPORTSWEAR";
     "";
     "CLASSIFICATION RULES:";
     "- TOP = Upper body garments (shirts, t-shirts, blouses, sweaters, hoodies)";
     "- BOTTOM = Lower body garments (pants, jeans, shorts, skirts)";
     "- DRESS = One-piece garments (dresses, jumpsuits)";
     "- OUTERWEAR = Outer layers (jackets, coats, blazers)";
     "- SHOES = Footwear (all types of shoes, boots, sandals)";
     "- ACCESSORY = Non-garment items including ALL jewelry (necklaces, earrings, "
       +:+ "bracelets, rings, bags, hats, belts)";
     "- UNDERWEAR = Under garments";
     "- SWIMWEAR = Swimming attire";
     "- SPORTSWEAR = Athletic clothing";
     "";
     "CRITICAL: If it's jewelry (necklace, earring, bracelet, ring), return ACCESSORY.";
     "Return ONLY the exact word from the list above. No explanations."].

Definition occasionPrompt : string :=
  text
    ["Based on this image description, suggest the most appropriate occasion.";
     "Return ONLY one of these exact values: " +:+ join ", " validOccasions +:+ ".";
     "Your response must be only the single word, with no other text."].

Definition seasonPrompt : string :=
  text
    ["Based on this image description, suggest the most appropriate season.";
     "Return ONLY one of these exact values: " +:+ join ", " validSeasons +:+ ".";
     "Your response must be only the single word, with no other text."].

Definition namePrompt : string :=
  text
    ["Based on this image description, create a descriptive name for the clothing item.";
     "";
     "Format: [Color] [Material/Style] [Item Type]";
     "Examples: " +:+ quoted "Blue Denim Jeans" +:+ ", " +:+ quoted "White Cotton T-Shirt"
       +:+ ", " +:+ quoted "Black Leather Jacket" +:+ ", " +:+ quoted "Silver Chain Necklace";
     "";
     "Return ONLY the name. No quotes, no explanations. Just the descriptive name."].

Section Client.
(** [this.apiKey] *)
Variable apiKey : string.
(** [await response.text().catch(() => 'Unknown error')] *)
Variable errorText : Net.Response JValue → string.
(** The network, one outcome per [fetch] the client makes, in order. *)
Variable net : Net.Network JValue.

(** [Array.isArray(data) ? data[0] : data] and then what [analyzeImage]
    reads of it. *)
Definition captionOf (data : JValue) : Result JValue :=
  let result := match data with JArr l => head l | _ => Some data end in
  match result with
  | None | Some JNull => Throw TypeError
  | Some result =>
      if truthyOpt (member result "error") then Throw ApiError
      else
        match member result "generated_text" with
        | Some caption => if truthy caption then Ok caption else Throw NoContent
        | None => Throw NoContent
        end
  end.

(** [HuggingFaceClient.analyzeImage], 70-141.  [trace] is what the client
    has done so far; the next [fetch] is the one numbered by the fetches in
    it.  After a final 503 or 429 the method waits and calls itself:
    [fuel] bounds the number of these calls, and the answer is [None] when
    the method has not settled within them. *)
Fixpoint analyzeImage (fuel : nat) (trace : list Net.Event)
  : option (Result JValue) * list Net.Event :=
  if JsStr.isEmpty apiKey then (Some (Throw MissingApiKey), trace)
  else
    match fuel with
    | O => (None, trace)
    | S fuel' =>
        let '(fetched, evs) := Net.fetchWithRetry net (Net.fetches trace) 3 1000 in
        let trace := trace ++ evs in
        match fetched with
        | Throw e => (Some (Throw e), trace)
        | Ok response =>
            if negb (Net.ok response) then
              if (Net.status response =? 410)
                 || JsStr.includes (errorText response) "no longer supported"
              then (Some (Ok (JStr "A clothing item")), trace)
              else if Net.status response =? 503
              then analyzeImage fuel' (trace ++ [Net.EvSleep 5000])
              else if Net.status response =? 429
              then analyzeImage fuel' (trace ++ [Net.EvSleep 10000])
              else (Some (Throw (HttpError (Net.status response))), trace)
            else
              match Net.json response with
              | None => (Some (Throw BodyError), trace)
              | Some data => (Some (captionOf data), trace)
              end
        end
    end.

(** The [text] that [extractStructuredInfo] reads out of the answer of the
    text model; a [Throw] is caught by the method's own [catch]. *)
Definition structuredText (data : JValue) : Result JValue :=
  match data with
  | JNull => Throw TypeError
  | JArr l =>
      if truthyOpt (memberOpt (head l) "generated_text")
      then Ok (default (JStr EmptyString) (memberOpt (head l) "generated_text"))
      else Ok (JStr EmptyString)
  | JStr s => Ok (JStr s)
  | _ =>
      if truthyOpt (member data "generated_text")
      then Ok (default (JStr EmptyString) (member data "generated_text"))
      else Ok (JStr EmptyString)
  end.

(** [extractStructuredInfo], 146-207: whatever goes wrong inside its [try],
    the caption is the answer. *)
Definition extractStructuredInfo (imageDescription : string) (trace : list Net.Event)
  : Result string * list Net.Event :=
  if JsStr.isEmpty apiKey then (Throw MissingApiKey, trace)
  else
    let '(fetched, evs) := Net.fetchWithRetry net (Net.fetches trace) 3 1000 in
    let trace := trace ++ evs in
    match fetched with
    | Throw _ => (Ok imageDescription, trace)
    | Ok response =>
        if negb (Net.ok response) then (Ok imageDescription, trace)
        else
          match structuredText <$> Net.json response with
          | Some (Ok (JStr text)) =>
              if JsStr.nonEmpty text then (Ok (JsStr.trim text), trace)
              else (Ok imageDescription, trace)
          | Some (Ok _) =>
              (* a falsy text, or [text.trim] is not a function *)
              (Ok imageDescription, trace)
          | Some (Throw _) | None => (Ok imageDescription, trace)
          end
    end.

(** [analyzeImageWithPrompt], 212-246.  The method does not throw: what its
    [try] block throws ends in a second [analyzeImage], and what that one
    throws in [simpleTextExtraction]. *)
Definition analyzeImageWithPrompt (fuel : nat) (prompt : string)
  : option JValue * list Net.Event :=
  let again (trace : list Net.Event) :=
    match analyzeImage fuel trace with
    | (None, trace) => (None, trace)
    | (Some (Ok imageDescription), trace) => (Some imageDescription, trace)
    | (Some (Throw _), trace) => (Some (JStr (simpleTextExtraction prompt)), trace)
    end in
  match analyzeImage fuel [] with
  | (None, trace) => (None, trace)
  | (Some (Ok (JStr imageDescription)), trace) =>
      if bool_decide (imageDescription = "A clothing item")
      then (Some (JStr (simpleTextExtraction prompt)), trace)
      else
        match extractStructuredInfo imageDescription trace with
        | (Ok structuredInfo, trace) => (Some (JStr structuredInfo), trace)
        | (Throw _, trace) => again trace
        end
  | (Some (Ok _), trace) =>
      (* [imageDescription.substring] is not a function *)
      again trace
  | (Some (Throw _), trace) => again trace
  end.

(** *** The five functions, 295-495

    Their text is that of the OpenAI adapter, the prompt and the call of
    the client apart.  An answer that is no string makes the first string
    method throw inside the [try]. *)

Variable JSON_parse : string → option JValue.

Definition extractColorsFromImage (fuel : nat) : option (list string) :=
  match (analyzeImageWithPrompt fuel colorsPrompt).1 with
  | None => None
  | Some (JStr responseText) =>
      Some match matchBracketed responseText with
           | Some jsonMatch =>
               match JSON_parse jsonMatch with
               | None => OpenAI.colorsFromText responseText
               | Some (JArr (c :: parsed)) => cleanColors (c :: parsed)
               | Some _ => OpenAI.colorsFromWhole JSON_parse responseText
               end
           | None => OpenAI.colorsFromWhole JSON_parse responseText
           end
  | Some _ => Some ["Unknown"]
  end.

Definition identifyClothingType (fuel : nat) : option string :=
  match (analyzeImageWithPrompt fuel typePrompt).1 with
  | None => None
  | Some (JStr resp) => Some (pickType OpenAI.typeMap resp)
  | Some _ => Some "TOP"
  end.

Definition suggestOccasion (fuel : nat) : option string :=
  match (analyzeImageWithPrompt fuel occasionPrompt).1 with
  | None => None
  | Some (JStr resp) => Some (pickEnum validOccasions "CASUAL" resp)
  | Some _ => Some "CASUAL"
  end.

Definition suggestSeason (fuel : nat) : option string :=
  match (analyzeImageWithPrompt fuel seasonPrompt).1 with
  | None => None
  | Some (JStr resp) => Some (pickEnum validSeasons "ALL_SEASON" resp)
  | Some _ => Some "ALL_SEASON"
  end.

Definition generateItemName (fuel : nat) : option string :=
  match (analyzeImageWithPrompt fuel namePrompt).1 with
  | None => None
  | Some (JStr resp) =>
      let name := firstNonBlankLine resp in
      let name := JsStr.trim (JsStr.stripQuotes name) in
      let name := JsStr.trim (JsStr.stripLeadIn OpenAI.leadIns name) in
      let name := JsStr.trim (removeFences name) in
      let name := JsStr.capitalize name in
      Some (if JsStr.nonEmpty name then name else "Clothing Item")
  | Some _ => Some "Clothing Item"
  end.

End Client.
End HuggingFace.

(* ===================================================================== *)
(** ** The document store: Item, ItemHistory, AuditLog, User
       (models/Item.ts, models/ItemHistory.ts, models/AuditLog.ts) *)
(* ===================================================================== *)

Module Store.
Import Js.

Inductive LaundryStatus : Type := IN_WARDROBE | IN_LAUNDRY | CLEAN | AWAY.

Inductive HistoryAction : Type :=
| CREATED | WORN | MARKED_LAUNDRY | RETURNED | EDITED | FAVORITED | UNFAVORITED | DELETED.

#[global] Instance LaundryStatus_eq_dec : EqDecision LaundryStatus.
Proof. solve_decision. Defined.
#[global] Instance HistoryAction_eq_dec : EqDecision HistoryAction.
Proof. solve_decision. Defined.

Definition statusName (st : LaundryStatus) : string :=
  match st with
  | IN_WARDROBE => "IN_WARDROBE"
  | IN_LAUNDRY => "IN_LAUNDRY"
  | CLEAN => "CLEAN"
  | AWAY => "AWAY"
  end.

Definition parseStatus (s : string) : option LaundryStatus :=
  if decide (s = "IN_WARDROBE") then Some IN_WARDROBE
  else if decide (s = "IN_LAUNDRY") then Some IN_LAUNDRY
  else if decide (s = "CLEAN") then Some CLEAN
  else if decide (s = "AWAY") then Some AWAY
  else None.

(** [IItem]; [createdAt] and [updatedAt] come from [timestamps: true]. *)
Record Item : Type := mkItem {
  userId : string;
  name : string;
  filename : string;
  objectUrl : string;
  thumbnailUrl : string;
  processedUrl : option string;
  colors : list string;
  type : string;
  occasion : string;
  season : string;
  laundryStatus : LaundryStatus;
  usageCount : Z;
  isFavorite : bool;
  moderated : bool;
  moderationNotes : option string;
  createdAt : Z;
  updatedAt : Z
}.

Record User : Type := mkUser {
  email : string;
  displayName : option string
}.

(** [IItemHistory] *)
Record HistoryEntry : Type := mkHistory {
  h_itemId : string;
  h_action : HistoryAction;
  h_performedBy : string;
  h_notes : string;
  h_timestamp : Z
}.

(** [IAuditLog] *)
Record AuditEntry : Type := mkAudit {
  a_userId : string;
  a_action : string;
  a_payload : string;
  a_ipAddress : string;
  a_timestamp : Z
}.

(** The four collections.  The two logs grow at the end. *)
Record Db : Type := mkDb {
  items : gmap string Item;
  users : gmap string User;
  itemHistory : list HistoryEntry;
  auditLog : list AuditEntry
}.

(** The usage counter and the status stored under an id. *)
Definition usageOf (id : string) (db : Db) : option Z := usageCount <$> items db !! id.

Definition statusOf (id : string) (db : Db) : option LaundryStatus :=
  laundryStatus <$> items db !! id.

(** *** Field updates *)

Definition set_userId (v : string) (i : Item) : Item :=
  mkItem v (name i) (filename i) (objectUrl i) (thumbnailUrl i) (processedUrl i)
    (colors i) (type i) (occasion i) (season i) (laundryStatus i) (usageCount i)
    (isFavorite i) (moderated i) (moderationNotes i) (createdAt i) (updatedAt i).
Definition set_name (v : string) (i : Item) : Item :=
  mkItem (userId i) v (filename i) (objectUrl i) (thumbnailUrl i) (processedUrl i)
    (colors i) (type i) (occasion i) (season i) (laundryStatus i) (usageCount i)
    (isFavorite i) (moderated i) (moderationNotes i) (createdAt i) (updatedAt i).
Definition set_filename (v : string) (i : Item) : Item :=
  mkItem (userId i) (name i) v (objectUrl i) (thumbnailUrl i) (processedUrl i)
    (colors i) (type i) (occasion i) (season i) (laundryStatus i) (usageCount i)
    (isFavorite i) (moderated i) (moderationNotes i) (createdAt i) (updatedAt i).
Definition set_objectUrl (v : string) (i : Item) : Item :=
  mkItem (userId i) (name i) (filename i) v (thumbnailUrl i) (processedUrl i)
    (colors i) (type i) (occasion i) (season i) (laundryStatus i) (usageCount i)
    (isFavorite i) (moderated i) (moderationNotes i) (createdAt i) (updatedAt i).
Definition set_thumbnailUrl (v : string) (i : Item) : Item :=
  mkItem (userId i) (name i) (filename i) (objectUrl i) v (processedUrl i)
    (colors i) (type i) (occasion i) (season i) (laundryStatus i) (usageCount i)
    (isFavorite i) (moderated i) (moderationNotes i) (createdAt i) (updatedAt i).
Definition set_processedUrl (v : option string) (i : Item) : Item :=
  mkItem (userId i) (name i) (filename i) (objectUrl i) (thumbnailUrl i) v
    (colors i) (type i) (occasion i) (season i) (laundryStatus i) (usageCount i)
    (isFavorite i) (moderated i) (moderationNotes i) (createdAt i) (updatedAt i).
Definition set_colors (v : list string) (i : Item) : Item :=
  mkItem (userId i) (name i) (filename i) (objectUrl i) (thumbnailUrl i) (processedUrl i)
    v (type i) (occasion i) (season i) (laundryStatus i) (usageCount i)
    (isFavorite i) (moderated i) (moderationNotes i) (createdAt i) (updatedAt i).
Definition set_type (v : string) (i : Item) : Item :=
  mkItem (userId i) (name i) (filename i) (objectUrl i) (thumbnailUrl i) (processedUrl i)
    (colors i) v (occasion i) (season i) (laundryStatus i) (usageCount i)
    (isFavorite i) (moderated i) (moderationNotes i) (createdAt i) (updatedAt i).
Definition set_occasion (v : string) (i : Item) : Item :=
  mkItem (userId i) (name i) (filename i) (objectUrl i) (thumbnailUrl i) (processedUrl i)
    (colors i) (type i) v (season i) (laundryStatus i) (usageCount i)
    (isFavorite i) (moderated i) (moderationNotes i) (createdAt i) (updatedAt i).
Definition set_season (v : string) (i : Item) : Item :=
  mkItem (userId i) (name i) (filename i) (objectUrl i) (thumbnailUrl i) (processedUrl i)
    (colors i) (type i) (occasion i) v (laundryStatus i) (usageCount i)
    (isFavorite i) (moderated i) (moderationNotes i) (createdAt i) (updatedAt i).
Definition set_laundryStatus (v : LaundryStatus) (i : Item) : Item :=
  mkItem (userId i) (name i) (filename i) (objectUrl i) (thumbnailUrl i) (processedUrl i)
    (colors i) (type i) (occasion i) (season i) v (usageCount i)
    (isFavorite i) (moderated i) (moderationNotes i) (createdAt i) (updatedAt i).
Definition set_usageCount (v : Z) (i : Item) : Item :=
  mkItem (userId i) (name i) (filename i) (objectUrl i) (thumbnailUrl i) (processedUrl i)
    (colors i) (type i) (occasion i) (season i) (laundryStatus i) v
    (isFavorite i) (moderated i) (moderationNotes i) (createdAt i) (updatedAt i).
Definition set_isFavorite (v : bool) (i : Item) : Item :=
  mkItem (userId i) (name i) (filename i) (objectUrl i) (thumbnailUrl i) (processedUrl i)
    (colors i) (type i) (occasion i) (season i) (laundryStatus i) (usageCount i)
    v (moderated i) (moderationNotes i) (createdAt i) (updatedAt i).
Definition set_moderated (v : bool) (i : Item) : Item :=
  mkItem (userId i) (name i) (filename i) (objectUrl i) (thumbnailUrl i) (processedUrl i)
    (colors i) (type i) (occasion i) (season i) (laundryStatus i) (usageCount i)
    (isFavorite i) v (moderationNotes i) (createdAt i) (updatedAt i).
Definition set_moderationNotes (v : option string) (i : Item) : Item :=
  mkItem (userId i) (name i) (filename i) (objectUrl i) (thumbnailUrl i) (processedUrl i)
    (colors i) (type i) (occasion i) (season i) (laundryStatus i) (usageCount i)
    (isFavorite i) (moderated i) v (createdAt i) (updatedAt i).
Definition set_updatedAt (v : Z) (i : Item) : Item :=
  mkItem (userId i) (name i) (filename i) (objectUrl i) (thumbnailUrl i) (processedUrl i)
    (colors i) (type i) (occasion i) (season i) (laundryStatus i) (usageCount i)
    (isFavorite i) (moderated i) (moderationNotes i) (createdAt i) v.

Definition set_items (m : gmap string Item) (db : Db) : Db :=
  mkDb m (users db) (itemHistory db) (auditLog db).
Definition set_itemHistory (h : list HistoryEntry) (db : Db) : Db :=
  mkDb (items db) (users db) h (auditLog db).
Definition set_auditLog (a : list AuditEntry) (db : Db) : Db :=
  mkDb (items db) (users db) (itemHistory db) a.

(** *** Schema casting

    What the object-document mapper does to a value whose JavaScript type
    is not the one of the schema path is a parameter.  A value of the right
    type is stored as it is. *)
Class Coercions : Type := {
  coerceString : JValue → option string;
  coerceBoolean : JValue → option bool;
  coerceNumber : JValue → option Z;
  coerceArray : JValue → option (list string)
}.

Section Casting.
Context `{!Coercions}.

Definition castString (v : JValue) : option string :=
  match v with JStr s => Some s | _ => coerceString v end.
Definition castBoolean (v : JValue) : option bool :=
  match v with JBool b => Some b | _ => coerceBoolean v end.
Definition castNumber (v : JValue) : option Z :=
  match v with JNum n => Some n | _ => coerceNumber v end.
Definition castStrings (v : JValue) : option (list string) :=
  match v with
  | JArr l => mapM castString l
  | _ => coerceArray v
  end.

(** One member of [$set] applied to a document.  [name] and the colours are
    [trim: true] paths; the status is stored only when it is one of the four
    enum strings (the handlers write no other); a key that is no schema path
    is dropped (strict mode). *)
Definition setField (k : string) (v : JValue) (i : Item) : option Item :=
  if decide (k = "userId") then (λ s, set_userId s i) <$> castString v
  else if decide (k = "name") then (λ s, set_name (JsStr.trim s) i) <$> castString v
  else if decide (k = "filename") then (λ s, set_filename s i) <$> castString v
  else if decide (k = "objectUrl") then (λ s, set_objectUrl s i) <$> castString v
  else if decide (k = "thumbnailUrl") then (λ s, set_thumbnailUrl s i) <$> castString v
  else if decide (k = "processedUrl") then (λ s, set_processedUrl (Some s) i) <$> castString v
  else if decide (k = "colors") then (λ l, set_colors (JsStr.trim <$> l) i) <$> castStrings v
  else if decide (k = "type") then (λ s, set_type s i) <$> castString v
  else if decide (k = "occasion") then (λ s, set_occasion s i) <$> castString v
  else if decide (k = "season") then (λ s, set_season s i) <$> castString v
  else if decide (k = "laundryStatus")
       then (λ st, set_laundryStatus st i) <$> (castString v ≫= parseStatus)
  else if decide (k = "usageCount") then (λ n, set_usageCount n i) <$> castNumber v
  else if decide (k = "isFavorite") then (λ b, set_isFavorite b i) <$> castBoolean v
  else if decide (k = "moderated") then (λ b, set_moderated b i) <$> castBoolean v
  else if decide (k = "moderationNotes")
       then (λ s, set_moderationNotes (Some s) i) <$> castString v
  else Some i.

(** One member of [$inc]. *)
Definition incField (k : string) (n : Z) (i : Item) : option Item :=
  if decide (k = "usageCount") then Some (set_usageCount (usageCount i + n) i)
  else None.

(** An update document: the plain members (which go to [$set]) and the
    members of [$inc]. *)
Record Update : Type := mkUpdate {
  upd_set : list (string * JValue);
  upd_inc : list (string * Z)
}.

Fixpoint applySets (l : list (string * JValue)) (i : Item) : option Item :=
  match l with
  | [] => Some i
  | (k, v) :: l' => setField k v i ≫= applySets l'
  end.

Fixpoint applyIncs (l : list (string * Z)) (i : Item) : option Item :=
  match l with
  | [] => Some i
  | (k, n) :: l' => incField k n i ≫= applyIncs l'
  end.

Definition applyUpdate (u : Update) (i : Item) : option Item :=
  applySets (upd_set u) i ≫= applyIncs (upd_inc u).

End Casting.

(** *** A state-and-exception monad for the handlers *)

Definition M (A : Type) : Type := Db → Result A * Db.

Definition ret {A : Type} (a : A) : M A := λ db, (Ok a, db).
Definition raise {A : Type} (e : Exn) : M A := λ db, (Throw e, db).
Definition mbind {A B : Type} (m : M A) (k : A → M B) : M B :=
  λ db, match m db with
        | (Ok a, db') => k a db'
        | (Throw e, db') => (Throw e, db')
        end.
Definition lift {A : Type} (r : Result A) : M A := λ db, (r, db).

End Store.

Notation "'let!' x ':=' m 'in' k" := (Store.mbind m (λ x, k))
  (at level 10, x name, m at level 100, k at level 200, only parsing).

(* ===================================================================== *)
(** ** What the route handlers share: requests, responses, store calls *)
(* ===================================================================== *)

Module Http.
Import Js Store.

Record Request : Type := mkRequest {
  x_user_id : option string;          (* header x-user-id *)
  x_forwarded_for : option string;    (* header x-forwarded-for *)
  json_body : option JValue           (* [None]: the body is no JSON *)
}.

(** What [NextResponse.json] is given. *)
Inductive Body : Type :=
| JsonError (error : string)
| JsonMessage (message : string)
| JsonItem (doc : option Item)
| JsonItemWithHistory (doc : Item) (owner : User) (itemHistory : list HistoryEntry).

Record Response : Type := mkResponse {
  status : Z;
  payload : Body
}.

(** [getAuthenticatedUserId(request)] followed by the test
    [if (!authenticatedUserId)]. *)
Definition authenticated (request : Request) : option string :=
  match x_user_id request with
  | Some uid => if JsStr.nonEmpty uid then Some uid else None
  | None => None
  end.

(** [request.headers.get('x-forwarded-for') || 'unknown'] *)
Definition ipAddress (request : Request) : string :=
  match x_forwarded_for request with
  | Some ip => if JsStr.nonEmpty ip then ip else "unknown"
  | None => "unknown"
  end.

(** [await request.json()] *)
Definition requestJson (request : Request) : M JValue :=
  match json_body request with
  | Some v => ret v
  | None => raise SyntaxError
  end.

(** [const { a, b, ... } = body]: the members by name. *)
Definition destructure (body : JValue) : M (string → option JValue) :=
  match body with
  | JNull => raise TypeError
  | _ => ret (member body)
  end.

(** [a || b] on values that may be [undefined]. *)
Definition orElse (a b : option JValue) : option JValue :=
  if truthyOpt a then a else b.

(** The outer [try { ... } catch { return 500 }] of every handler. *)
Definition handle (failure : string) (m : M Response) (db : Db) : Response * Db :=
  match m db with
  | (Ok r, db') => (r, db')
  | (Throw _, db') => (mkResponse 500 (JsonError failure), db')
  end.

Definition respond (code : Z) (b : Body) : M Response := ret (mkResponse code b).

(** *** Store calls *)

(** [Item.findById(id)], for an [id] that is an ObjectId, as the ids of the
    documents are.  A text that is no ObjectId is refused by the mapper's
    cast before the store is asked: the call rejects and the handler answers
    500, the store as it is.  That case is left out here: [id] ranges over
    ObjectIds, and what is stated below for an id without a document is
    stated for these. *)
Definition findById (id : string) : M (option Item) :=
  λ db, (Ok (items db !! id), db).

(** [Item.findByIdAndDelete(id)] *)
Definition findByIdAndDelete (id : string) : M unit :=
  λ db, (Ok (), set_items (delete id (items db)) db).

(** [ItemHistory.create(...)]; [timestamp] defaults to the clock. *)
Definition ItemHistory_create (itemId : string) (action : HistoryAction)
    (performedBy notes : string) (now : Z) : M unit :=
  λ db, (Ok (),
         set_itemHistory (itemHistory db ++ [mkHistory itemId action performedBy (JsStr.trim notes) now]) db).

(** [ItemHistory.deleteMany({ itemId })] *)
Definition ItemHistory_deleteMany (itemId : string) : M unit :=
  λ db, (Ok (),
         set_itemHistory (filter (λ h, h_itemId h ≠ itemId) (itemHistory db)) db).

Definition newerFirst (a b : HistoryEntry) : Prop := h_timestamp b ≤ h_timestamp a.

#[global] Instance newerFirst_dec : RelDecision newerFirst.
Proof. intros a b. unfold newerFirst. apply _. Defined.

(** [ItemHistory.find({ itemId }).sort({ timestamp: -1 })] *)
Definition ItemHistory_find (itemId : string) : M (list HistoryEntry) :=
  λ db, (Ok (merge_sort newerFirst
               (filter (λ h, h_itemId h = itemId) (itemHistory db))), db).

(** [AuditLog.create(...)] *)
Definition AuditLog_create (userId action : string) (payload : JValue)
    (ip : string) (now : Z) : M unit :=
  λ db, (Ok (),
         set_auditLog (auditLog db ++ [mkAudit userId action (stringify payload) ip now]) db).

Section WithCoercions.
Context `{!Coercions}.

(** [Item.findByIdAndUpdate(id, update, { new: true })]: the updated
    document, [null] when there is none under [id].  [updatedAt] follows the
    clock. *)
Definition findByIdAndUpdate (id : string) (u : Update) (now : Z) : M (option Item) :=
  λ db,
    match items db !! id with
    | None => (Ok None, db)
    | Some i =>
        match applyUpdate u i with
        | None => (Throw CastError, db)
        | Some i' =>
            let i'' := set_updatedAt now i' in
            (Ok (Some i''), set_items (<[id := i'']> (items db)) db)
        end
    end.

(** What [new Item({...})] is given.  The three members that every call
    site writes as literals are typed. *)
Record ItemInit : Type := mkInit {
  i_userId : string;
  i_name : option JValue;
  i_filename : option JValue;
  i_objectUrl : option JValue;
  i_thumbnailUrl : option JValue;
  i_processedUrl : option JValue;
  i_colors : option JValue;
  i_type : option JValue;
  i_occasion : option JValue;
  i_season : option JValue;
  i_laundryStatus : LaundryStatus;
  i_usageCount : Z;
  i_isFavorite : bool
}.

(** A [required: true] string path. *)
Definition required (v : option JValue) : option string :=
  match v ≫= castString with
  | Some s => if JsStr.nonEmpty s then Some s else None
  | None => None
  end.

(** A string path with a default and an enum. *)
Definition withDefault (dflt : string) (v : option JValue) : option string :=
  match v with
  | None => Some dflt
  | Some v => castString v
  end.

(** Casting and validation of a new document (the schema of Item.ts). *)
Definition validate (init : ItemInit) (now : Z) : option Item :=
  name ← JsStr.trim <$> (i_name init ≫= castString);
  filename ← required (i_filename init);
  objectUrl ← required (i_objectUrl init);
  thumbnailUrl ← required (i_thumbnailUrl init);
  processedUrl ← match i_processedUrl init with
                 | None => Some None
                 | Some v => Some <$> castString v
                 end;
  colors ← match i_colors init with
           | None => Some []
           | Some v => fmap (M := list) JsStr.trim <$> castStrings v
           end;
  type ← required (i_type init);
  occasion ← withDefault "CASUAL" (i_occasion init);
  season ← withDefault "ALL_SEASON" (i_season init);
  if JsStr.nonEmpty name
     && Classify.oneOf Classify.validTypes type
     && Classify.oneOf Classify.validOccasions occasion
     && Classify.oneOf Classify.validSeasons season
     && (0 <=? i_usageCount init)
  then Some (mkItem (i_userId init) name filename objectUrl thumbnailUrl processedUrl
               colors type occasion season (i_laundryStatus init) (i_usageCount init)
               (i_isFavorite init) false None now now)
  else None.

(** [const item = new Item(init); await item.save()]: [newId] is the id the
    constructor drew. *)
Definition save (newId : string) (init : ItemInit) (now : Z) : M Item :=
  λ db,
    match validate init now with
    | None => (Throw ValidationError, db)
    | Some item =>
        match items db !! newId with
        | Some _ => (Throw DuplicateKey, db)
        | None => (Ok item, set_items (<[newId := item]> (items db)) db)
        end
    end.

End WithCoercions.
End Http.

(* ===================================================================== *)
(** ** Laundry actions *)
(* ===================================================================== *)

Module LaundryAction.
Import Js Store.

Inductive Action : Type := mark_laundry | mark_clean | mark_worn | mark_away.

#[global] Instance Action_eq_dec : EqDecision Action.
Proof. solve_decision. Defined.

Definition actionName (a : Action) : string :=
  match a with
  | mark_laundry => "mark_laundry"
  | mark_clean => "mark_clean"
  | mark_worn => "mark_worn"
  | mark_away => "mark_away"
  end.

(** Which [case] of [switch (action)] is taken; [None] is [default]. *)
Definition whichCase (action : option JValue) : option Action :=
  match action with
  | Some (JStr s) =>
      if decide (s = "mark_laundry") then Some mark_laundry
      else if decide (s = "mark_clean") then Some mark_clean
      else if decide (s = "mark_worn") then Some mark_worn
      else if decide (s = "mark_away") then Some mark_away
      else None
  | _ => None
  end.

(** [newStatus] as the cases assign it. *)
Definition newStatus (a : Action) : LaundryStatus :=
  match a with
  | mark_laundry => IN_LAUNDRY
  | mark_clean => CLEAN
  | mark_worn => IN_WARDROBE
  | mark_away => AWAY
  end.

(** [historyAction] as the cases assign it. *)
Definition historyAction (a : Action) : HistoryAction :=
  match a with
  | mark_laundry => MARKED_LAUNDRY
  | mark_clean => RETURNED
  | mark_worn => WORN
  | mark_away => EDITED
  end.

(** The document an action leaves behind when [counts] says whether it
    counts as a wear: the status of the action, the counter one up when it
    counts, the update time; the handlers below are compared with it. *)
Definition afterAction (counts : bool) (a : Action) (now : Z) (i : Item) : Item :=
  set_updatedAt now
    (if counts
     then set_usageCount (usageCount i + 1) (set_laundryStatus (newStatus a) i)
     else set_laundryStatus (newStatus a) i).

End LaundryAction.

(** The handler with awaited route parameters (src/unnamed/part_015). *)
Module LaundryRoute.
Import Js Store Http LaundryAction.

Section Handler.
Context `{!Coercions}.

(** [action === 'mark_worn' || action === 'mark_laundry'] *)
Definition countsAsWear (a : Action) : bool :=
  bool_decide (a = mark_worn) || bool_decide (a = mark_laundry).

Definition updateData (a : Action) : Update :=
  mkUpdate [("laundryStatus", JStr (statusName (newStatus a)))]
           (if countsAsWear a then [("usageCount", 1)] else []).

Definition POST (request : Request) (id : string) (now : Z) : Db → Response * Db :=
  handle "Failed to update laundry status"
    match authenticated request with
    | None => respond 401 (JsonError "Unauthorized")
    | Some authenticatedUserId =>
        let! body := requestJson request in
        let! fields := destructure body in
        let action := fields "action" in
        let! existingItem := findById id in
        match existingItem with
        | None => respond 404 (JsonError "Item not found")
        | Some existingItem =>
            if negb (bool_decide (userId existingItem = authenticatedUserId))
            then respond 403 (JsonError "Forbidden")
            else
              match whichCase action with
              | None => respond 400 (JsonError "Invalid action")
              | Some a =>
                  let! item := findByIdAndUpdate id (updateData a) now in
                  match item with
                  | None => raise TypeError
                  | Some item =>
                      let! _ := ItemHistory_create id (historyAction a) authenticatedUserId
                                  (if countsAsWear a
                                   then "Item marked as worn / moved to laundry. Usage count: "
                                        +:+ pretty (usageCount item)
                                   else "Status changed to " +:+ statusName (newStatus a))
                                  now in
                      let! _ := AuditLog_create authenticatedUserId
                                  ("LAUNDRY_" +:+ JsStr.toUpperCase (actionName a))
                                  (JObj [("itemId", JStr id);
                                         ("newStatus", JStr (statusName (newStatus a)));
                                         ("usageCount", JNum (usageCount item))])
                                  (ipAddress request) now in
                      respond 200 (JsonItem (Some item))
                  end
              end
        end
    end.

End Handler.
End LaundryRoute.

(** The handler with plain route parameters (src/unnamed/part_003, second
    file). *)
Module LaundryRouteOld.
Import Js Store Http LaundryAction.

Section Handler.
Context `{!Coercions}.

(** The extra store call inside [case 'mark_worn']. *)
Definition caseEffect (a : Action) (id : string) (now : Z) : M unit :=
  match a with
  | mark_worn =>
      let! _ := findByIdAndUpdate id (mkUpdate [] [("usageCount", 1)]) now in
      ret ()
  | _ => ret ()
  end.

Definition POST (request : Request) (id : string) (now : Z) : Db → Response * Db :=
  handle "Failed to update laundry status"
    match authenticated request with
    | None => respond 401 (JsonError "Unauthorized")
    | Some authenticatedUserId =>
        let! body := requestJson request in
        let! fields := destructure body in
        let action := fields "action" in
        let! existingItem := findById id in
        match existingItem with
        | None => respond 404 (JsonError "Item not found")
        | Some existingItem =>
            if negb (bool_decide (userId existingItem = authenticatedUserId))
            then respond 403 (JsonError "Forbidden")
            else
              match whichCase action with
              | None => respond 400 (JsonError "Invalid action")
              | Some a =>
                  let! _ := caseEffect a id now in
                  let! item := findByIdAndUpdate id
                                 (mkUpdate [("laundryStatus", JStr (statusName (newStatus a)))] [])
                                 now in
                  let! _ := ItemHistory_create id (historyAction a) authenticatedUserId
                              ("Status changed to " +:+ statusName (newStatus a)) now in
                  let! _ := AuditLog_create authenticatedUserId
                              ("LAUNDRY_" +:+ JsStr.toUpperCase (actionName a))
                              (JObj [("itemId", JStr id);
                                     ("newStatus", JStr (statusName (newStatus a)))])
                              (ipAddress request) now in
                  respond 200 (JsonItem item)
              end
        end
    end.

End Handler.
End LaundryRouteOld.

(* ===================================================================== *)
(** ** Item update and delete *)
(* ===================================================================== *)

(** frontend/src/app/api/items/[id]/route.ts *)
Module ItemRoute.
Import Js Store Http.

(** [if (k !== undefined) updateData.k = k], for the keys in order. *)
Definition pick (fields : string → option JValue) (keys : list string)
  : list (string * JValue) :=
  omap (λ k, (λ v, (k, v)) <$> fields k) keys.

Definition updateKeys : list string :=
  ["name"; "colors"; "type"; "occasion"; "season"; "isFavorite"].

Definition updateData (fields : string → option JValue) : list (string * JValue) :=
  pick fields updateKeys.

Section Handler.
Context `{!Coercions}.

Definition PUT (request : Request) (id : string) (now : Z) : Db → Response * Db :=
  handle "Failed to update item"
    match authenticated request with
    | None => respond 401 (JsonError "Unauthorized")
    | Some authenticatedUserId =>
        let! body := requestJson request in
        let! fields := destructure body in
        let! existingItem := findById id in
        match existingItem with
        | None => respond 404 (JsonError "Item not found")
        | Some existingItem =>
            if negb (bool_decide (userId existingItem = authenticatedUserId))
            then respond 403 (JsonError "Forbidden")
            else
              let! item := findByIdAndUpdate id (mkUpdate (updateData fields) []) now in
              let! _ := ItemHistory_create id EDITED authenticatedUserId "Item updated" now in
              let! _ := AuditLog_create authenticatedUserId "UPDATE_ITEM"
                          (JObj [("itemId", JStr id); ("changes", JObj (updateData fields))])
                          (ipAddress request) now in
              respond 200 (JsonItem item)
        end
    end.

Definition DELETE (request : Request) (id : string) (now : Z) : Db → Response * Db :=
  handle "Failed to delete item"
    match authenticated request with
    | None => respond 401 (JsonError "Unauthorized")
    | Some authenticatedUserId =>
        let! existingItem := findById id in
        match existingItem with
        | None => respond 404 (JsonError "Item not found")
        | Some existingItem =>
            if negb (bool_decide (userId existingItem = authenticatedUserId))
            then respond 403 (JsonError "Forbidden")
            else
              let! _ := findByIdAndDelete id in
              let! _ := ItemHistory_create id DELETED authenticatedUserId "Item deleted" now in
              let! _ := AuditLog_create authenticatedUserId "DELETE_ITEM"
                          (JObj [("itemId", JStr id)]) (ipAddress request) now in
              respond 200 (JsonMessage "Item deleted successfully")
        end
    end.

End Handler.
End ItemRoute.

(** The later copy of the same route (src/unnamed/part_014, second file):
    awaited parameters, the extra key [occasions], history removed with the
    item. *)
Module ItemRouteNext.
Import Js Store Http.

Definition updateKeys : list string :=
  ["name"; "colors"; "type"; "occasion"; "season"; "isFavorite"; "occasions"].

Definition updateData (fields : string → option JValue) : list (string * JValue) :=
  ItemRoute.pick fields updateKeys.

Section Handler.
Context `{!Coercions}.

(** [item.userId?._id?.toString() || item.userId?.id?.toString()] on the
    populated document: the owner's id when the owner is a stored user. *)
Definition GET (request : Request) (id : string) : Db → Response * Db :=
  handle "Failed to fetch item"
    match authenticated request with
    | None => respond 401 (JsonError "Unauthorized")
    | Some authenticatedUserId =>
        let! item := findById id in
        match item with
        | None => respond 404 (JsonError "Item not found")
        | Some item =>
            λ db,
              match users db !! userId item with
              | Some owner =>
                  if negb (bool_decide (userId item = authenticatedUserId))
                  then respond 403 (JsonError "Forbidden") db
                  else
                    (let! history := ItemHistory_find id in
                     respond 200 (JsonItemWithHistory item owner history)) db
              | None => respond 403 (JsonError "Forbidden") db
              end
        end
    end.

Definition PUT (request : Request) (id : string) (now : Z) : Db → Response * Db :=
  handle "Failed to update item"
    match authenticated request with
    | None => respond 401 (JsonError "Unauthorized")
    | Some authenticatedUserId =>
        let! body := requestJson request in
        let! fields := destructure body in
        let! existingItem := findById id in
        match existingItem with
        | None => respond 404 (JsonError "Item not found")
        | Some existingItem =>
            if negb (bool_decide (userId existingItem = authenticatedUserId))
            then respond 403 (JsonError "Forbidden")
            else
              let! item := findByIdAndUpdate id (mkUpdate (updateData fields) []) now in
              let! _ := ItemHistory_create id EDITED authenticatedUserId "Item updated" now in
              let! _ := AuditLog_create authenticatedUserId "UPDATE_ITEM"
                          (JObj [("itemId", JStr id); ("changes", JObj (updateData fields))])
                          (ipAddress request) now in
              respond 200 (JsonItem item)
        end
    end.

(** The files on disk that the handler unlinks are outside the store. *)
Definition DELETE (request : Request) (id : string) (now : Z) : Db → Response * Db :=
  handle "Failed to delete item"
    match authenticated request with
    | None => respond 401 (JsonError "Unauthorized")
    | Some authenticatedUserId =>
        let! existingItem := findById id in
        match existingItem with
        | None => respond 404 (JsonError "Item not found")
        | Some existingItem =>
            if negb (bool_decide (userId existingItem = authenticatedUserId))
            then respond 403 (JsonError "Forbidden")
            else
              let! _ := findByIdAndDelete id in
              let! _ := ItemHistory_deleteMany id in
              let! _ := AuditLog_create authenticatedUserId "DELETE_ITEM"
                          (JObj [("itemId", JStr id);
                                 ("filename", JStr (filename existingItem))])
                          (ipAddress request) now in
              respond 200 (JsonMessage "Item deleted successfully")
        end
    end.

End Handler.
End ItemRouteNext.

(* ===================================================================== *)
(** ** Item creation *)
(* ===================================================================== *)

(** Direct creation (src/unnamed/part_014, first file, POST). *)
Module ItemsRoute.
Import Js Store Http.

(** [userId !== authenticatedUserId] *)
Definition differsFrom (v : option JValue) (s : string) : bool :=
  match v with
  | Some (JStr s') => negb (bool_decide (s' = s))
  | _ => true
  end.

Section Handler.
Context `{!Coercions}.

Definition POST (request : Request) (newId : string) (now : Z) : Db → Response * Db :=
  handle "Failed to create item"
    match authenticated request with
    | None => respond 401 (JsonError "Unauthorized")
    | Some authenticatedUserId =>
        let! body := requestJson request in
        let! fields := destructure body in
        let userId := fields "userId" in
        let name := fields "name" in
        let filename := fields "filename" in
        let objectUrl := fields "objectUrl" in
        let thumbnailUrl := fields "thumbnailUrl" in
        let processedUrl := fields "processedUrl" in
        let colors := fields "colors" in
        let type := fields "type" in
        let occasion := fields "occasion" in
        let season := fields "season" in
        if truthyOpt userId && differsFrom userId authenticatedUserId
        then respond 403 (JsonError "Forbidden")
        else if negb (truthyOpt userId) || negb (truthyOpt filename)
                || negb (truthyOpt objectUrl) || negb (truthyOpt type)
        then respond 400 (JsonError "Missing required fields")
        else
          let! item := save newId
                         (mkInit authenticatedUserId (orElse name filename) filename
                            objectUrl thumbnailUrl processedUrl
                            (orElse colors (Some (JArr [])))
                            type
                            (orElse occasion (Some (JStr "CASUAL")))
                            (orElse season (Some (JStr "ALL_SEASON")))
                            IN_WARDROBE 0 false)
                         now in
          let! _ := ItemHistory_create newId CREATED authenticatedUserId "Item created" now in
          let! _ := AuditLog_create authenticatedUserId "CREATE_ITEM"
                      (JObj [("itemId", JStr newId)]) (ipAddress request) now in
          respond 201 (JsonItem (Some item))
    end.

End Handler.
End ItemsRoute.

(** What the two upload handlers share. *)
Module Upload.
Import Js Store Http.

Record File : Type := mkFile {
  file_name : string;
  file_type : string
}.

(** The multipart form: [formData.get(k)] for the keys the handlers read. *)
Record FormData : Type := mkForm {
  fd_file : option File;
  fd_userId : option string;
  fd_name : option string;
  fd_type : option string;
  fd_occasion : option string;
  fd_season : option string
}.

(** [request.formData()] rejects on a body that is no form. *)
Record Request : Type := mkRequest {
  form : option FormData;
  x_forwarded_for : option string
}.

(** The JSON answer: an error, or [{ success, item, aiAnalysis }] where
    [item] is [{ id, ...item.toObject(), <overrides> }]. *)
Inductive Body : Type :=
| UploadError (error : string)
| UploadSuccess (id : string) (doc : Item) (overrides : list (string * JValue))
    (aiAnalysis : list (string * JValue)).

Record Response : Type := mkResponse {
  status : Z;
  payload : Body
}.

(** The [name] member of the answer's [item] object: a later member of an
    object literal wins over the spread document. *)
Definition itemName (b : Body) : option JValue :=
  match b with
  | UploadSuccess _ doc overrides _ => Some (default (JStr (name doc)) (assoc "name" overrides))
  | UploadError _ => None
  end.

Definition analysisName (b : Body) : option JValue :=
  match b with
  | UploadSuccess _ _ _ aiAnalysis => assoc "name" aiAnalysis
  | UploadError _ => None
  end.

Definition truthyStr (s : option string) : bool :=
  match s with Some s => JsStr.nonEmpty s | None => false end.

(** [formData.get(k) as string || dflt] *)
Definition orDefault (s : option string) (dflt : string) : string :=
  if truthyStr s then default dflt s else dflt.

Definition ipAddress (request : Request) : string :=
  orDefault (x_forwarded_for request) "unknown".

Definition handle (m : M Response) (db : Db) : Response * Db :=
  match m db with
  | (Ok r, db') => (r, db')
  | (Throw _, db') => (mkResponse 500 (UploadError "Failed to upload file"), db')
  end.

Definition respond (code : Z) (b : Body) : M Response := ret (mkResponse code b).

(** [await request.formData()] *)
Definition requestForm (request : Request) : M FormData :=
  match form request with
  | Some f => ret f
  | None => raise TypeError
  end.

Definition strings (l : list string) : JValue := JArr (JStr <$> l).

End Upload.

(** The upload handler that classifies with the frontend Gemini adapter
    (frontend/src/app/api/items/[id]/route.ts, second file).  Writing the
    files to disk always succeeds here. *)
Module UploadRoute.
Import Js Store Upload.

(** One network per classification call: the five calls run side by side
    and share nothing. *)
Record Networks : Type := mkNetworks {
  colorsNet : Net.Network JValue;
  typeNet : Net.Network JValue;
  occasionNet : Net.Network JValue;
  seasonNet : Net.Network JValue;
  nameNet : Net.Network JValue
}.

Section Handler.
Context `{!Coercions}.
Variable JSON_parse : string → option JValue.

Definition POST (request : Request) (nets : Networks) (newId : string) (now : Z)
  : Db → Response * Db :=
  handle
    (let! formData := requestForm request in
     match fd_file formData with
     | None => respond 400 (UploadError "Missing required fields")
     | Some file =>
         if negb (truthyStr (fd_userId formData)) || negb (truthyStr (fd_type formData))
         then respond 400 (UploadError "Missing required fields")
         else
           let userId := default EmptyString (fd_userId formData) in
           let filename := pretty now +:+ "-" +:+ file_name file in
           (* every classification promise is fulfilled: none of the five
              functions rejects *)
           let colors := GeminiFrontend.extractColorsFromImage JSON_parse (colorsNet nets) in
           let detectedType := GeminiFrontend.identifyClothingType (typeNet nets) in
           let detectedOccasion := GeminiFrontend.suggestOccasion (occasionNet nets) in
           let detectedSeason := GeminiFrontend.suggestSeason (seasonNet nets) in
           let detectedName := GeminiFrontend.generateItemName (nameNet nets) in
           let processedUrl := "/uploads/processed-" +:+ filename in
           let thumbnailUrl := "/uploads/" +:+ filename in
           let! item := Http.save newId
                          (Http.mkInit userId (Some (JStr detectedName)) (Some (JStr filename))
                             (Some (JStr ("/uploads/" +:+ filename)))
                             (Some (JStr thumbnailUrl)) (Some (JStr processedUrl))
                             (Some (strings colors)) (Some (JStr detectedType))
                             (Some (JStr detectedOccasion)) (Some (JStr detectedSeason))
                             IN_WARDROBE 0 false)
                          now in
           let analysis :=
             [("colors", strings colors); ("type", JStr detectedType);
              ("occasion", JStr detectedOccasion); ("season", JStr detectedSeason)] in
           let! _ := Http.ItemHistory_create newId CREATED userId
                       "Item uploaded and processed with AI analysis" now in
           let! _ := Http.AuditLog_create userId "UPLOAD_ITEM"
                       (JObj [("itemId", JStr newId); ("filename", JStr filename);
                              ("aiAnalysis", JObj analysis)])
                       (ipAddress request) now in
           respond 200
             (UploadSuccess newId item [("colors", strings colors)]
                (analysis ++ [("name", JStr detectedName)]))
     end).

End Handler.
End UploadRoute.

(** The backend upload handler (backend/src/app/api/upload/route.ts).  The
    image pipeline and the blob store are seen through their results: the
    URLs under which the two images end up. *)
Module UploadRouteBackend.
Import Js Store Upload.

(** [isS3Configured()] and [uploadImagePair(...)]. *)
Inductive BlobStore : Type :=
| NotConfigured
| UploadFails
| Uploaded (url thumbnailUrl : string).

(** [file.name.replace(/\s+/g, '-')] *)
Fixpoint dashes (inRun : bool) (s : string) : string :=
  match s with
  | EmptyString => EmptyString
  | String c s' =>
      if JsStr.isSpace c
      then (if inRun then dashes true s' else String "-"%char (dashes true s'))
      else String c (dashes false s')
  end.

(** [a.k || b] where [a] is what the analysis returned. *)
Definition orKeep (analysisResult : JValue) (k : string) (kept : option JValue) : option JValue :=
  if truthyOpt (member analysisResult k) then member analysisResult k else kept.

(** [analyzeImageWithOpenAI], 21-40: what the client's [analyzeImage]
    resolves to, as it is, and [null] when it rejects. *)
Definition analyzeImageWithOpenAI (apiKey : string) (net : Net.Network JValue) : option JValue :=
  match OpenAI.analyzeImageContent apiKey net with
  | Ok content => Some content
  | Throw _ => None
  end.

(** [analysisResult] of the handler, 176-186: the analysis is asked for only
    when [process.env.OPENAI_API_KEY] is set; the client holds the key
    trimmed. *)
Definition analysisOf (envKey : option string) (net : Net.Network JValue) : option JValue :=
  if truthyStr envKey
  then analyzeImageWithOpenAI (JsStr.trim (default EmptyString envKey)) net
  else None.

(** One of the five assignments of lines 188-193 under their
    [if (analysisResult)]: the member [k] of the analysis when there is an
    analysis and the member is truthy, and else what the handler had. *)
Definition detected (analysisResult : option JValue) (k : string) (kept : option JValue)
  : option JValue :=
  match analysisResult with
  | Some a => if truthy a then orKeep a k kept else kept
  | None => kept
  end.

(** [name && name.trim().length > 0 ? name : 'Untitled Item'] *)
Definition formName (formData : FormData) : string :=
  match fd_name formData with
  | Some n => if JsStr.nonEmpty n && JsStr.nonEmpty (JsStr.trim n) then n else "Untitled Item"
  | None => "Untitled Item"
  end.

Section Handler.
Context `{!Coercions}.

(** [POST], 41-281.  [envKey] is [process.env.OPENAI_API_KEY]. *)
Definition POST (request : Request) (blobs : BlobStore) (envKey : option string)
    (net : Net.Network JValue) (newId : string) (now : Z) : Db → Response * Db :=
  handle
    (let! formData := requestForm request in
     match fd_file formData with
     | None =>
         respond 400 (UploadError "Missing required fields: file and userId are required")
     | Some file =>
         if negb (truthyStr (fd_userId formData))
         then respond 400 (UploadError "Missing required fields: file and userId are required")
         else
           let userId := default EmptyString (fd_userId formData) in
           let type := fd_type formData in
           let occasion := orDefault (fd_occasion formData) "CASUAL" in
           let season := orDefault (fd_season formData) "ALL_SEASON" in
           let filename := pretty now +:+ "-" +:+ dashes false (file_name file) in
           let local := ("/uploads/" +:+ filename, "/uploads/thumb-" +:+ filename) in
           let '(objectUrl, thumbnailUrl) :=
             match blobs with
             | Uploaded url thumb => (url, thumb)
             | UploadFails | NotConfigured => local
             end in
           let processedUrl := objectUrl in
           let analysisResult := analysisOf envKey net in
           let detectedName := detected analysisResult "name" (Some (JStr (formName formData))) in
           let detectedType := detected analysisResult "type" (JStr <$> type) in
           let colors := detected analysisResult "colors" (Some (strings ["Unknown"])) in
           let detectedOccasion := detected analysisResult "occasion" (Some (JStr occasion)) in
           let detectedSeason := detected analysisResult "season" (Some (JStr season)) in
           let! item := Http.save newId
                          (Http.mkInit userId detectedName (Some (JStr filename))
                             (Some (JStr objectUrl)) (Some (JStr thumbnailUrl))
                             (Some (JStr processedUrl)) colors detectedType
                             detectedOccasion detectedSeason IN_WARDROBE 0 false)
                          now in
           let analysis :=
             [("colors", default JNull colors); ("type", default JNull detectedType);
              ("occasion", default JNull detectedOccasion);
              ("season", default JNull detectedSeason)] in
           let! _ := Http.ItemHistory_create newId CREATED userId
                       "Item uploaded and processed with AI analysis" now in
           let! _ := Http.AuditLog_create userId "UPLOAD_ITEM"
                       (JObj [("itemId", JStr newId); ("filename", JStr filename);
                              ("aiAnalysis", JObj analysis)])
                       (ipAddress request) now in
           (* the name is hidden from the answer *)
           respond 200
             (UploadSuccess newId item
                [("colors", default JNull colors); ("name", JStr EmptyString)]
                (analysis ++ [("name", JStr EmptyString)]))
     end).

End Handler.
End UploadRouteBackend.

(* ===================================================================== *)
(** ** Outfit suggestions (backend/src/app/api/outfits/suggest/route.ts) *)
(* ===================================================================== *)

Module Suggest.
Import Js Store.

(** One proposal, as the handler normalises it. *)
Record Outfit : Type := mkOutfit {
  o_name : JValue;
  o_description : JValue;
  itemIds : list string;
  o_reasoning : JValue
}.

(** A wardrobe document with its id ([.lean()]). *)
Definition Doc : Type := string * Item.

Definition ofType (t : string) (items : list Doc) : list Doc :=
  filter (λ d, type d.2 = t) items.

(** [a || b] on two ids. *)
Definition idOr (a b : string) : string := if JsStr.nonEmpty a then a else b.

(** [generateFallbackOutfits], 251-291. *)
Definition generateFallbackOutfits (items : list Doc) : list Outfit :=
  let tops := ofType "TOP" items in
  let bottoms := ofType "BOTTOM" items in
  let dresses := ofType "DRESS" items in
  let outerwear := ofType "OUTERWEAR" items in
  let first :=
    match tops, bottoms with
    | t :: _, b :: _ =>
        [mkOutfit (JStr "") (JStr "A comfortable and versatile everyday outfit")
           ([t.1; b.1] ++ match outerwear with o :: _ => [o.1] | [] => [] end)
           (JStr "Simple combination that works for most casual occasions")]
    | _, _ => []
    end in
  let second :=
    match dresses with
    | d :: _ =>
        [mkOutfit (JStr "") (JStr "A simple one-piece outfit") [d.1]
           (JStr "Effortless style with minimal coordination needed")]
    | [] => []
    end in
  let third :=
    match tops, bottoms with
    | t0 :: t1 :: _, b0 :: b1 :: _ =>
        [mkOutfit (JStr "") (JStr "A different combination from your wardrobe")
           [idOr t1.1 t0.1; idOr b1.1 b0.1]
           (JStr "Mixing different pieces for variety")]
    | _, _ => []
    end in
  take 3 (first ++ second ++ third).

(** [sIds.length === fIds.length && sIds.every((v, i) => v === fIds[i])] *)
Definition sameIds (sIds fIds : list string) : bool :=
  bool_decide (length sIds = length fIds)
  && forallb (λ iv, bool_decide (fIds !! iv.1 = Some iv.2)) (imap (λ i v, (i, v)) sIds).

(** The [for (const f of fallback)] loop with its [break], 209-220. *)
Fixpoint backfill (validated fallback : list Outfit) : list Outfit :=
  match fallback with
  | [] => validated
  | f :: rest =>
      let exists_ := existsb (λ s, sameIds (itemIds s) (itemIds f)) validated in
      let validated' := if exists_ then validated else validated ++ [f] in
      if bool_decide (3 ≤ length validated')%nat then validated'
      else backfill validated' rest
  end.

(** Keeping the known ids of one proposal, 200-204. *)
Definition keepValid (validItemIds : list string) (o : Outfit) : Outfit :=
  mkOutfit (o_name o) (o_description o)
    (filter (λ itemId, itemId ∈ validItemIds) (itemIds o)) (o_reasoning o).

(** [validatedSuggestions] as lines 199-205 leave it: every proposal cut
    down to the ids of [items], those without an id dropped. *)
Definition validate (items : list Doc) (outfitSuggestions : list Outfit) : list Outfit :=
  let validItemIds := fst <$> items in
  filter (λ o, (0 < length (itemIds o))%nat) (keepValid validItemIds <$> outfitSuggestions).

(** Lines 199-224: validation, backfill and the cut to three. *)
Definition finish (items : list Doc) (outfitSuggestions : list Outfit) : list Outfit :=
  let validated := validate items outfitSuggestions in
  let validated :=
    if bool_decide (length validated < 3)%nat
    then backfill validated (generateFallbackOutfits items)
    else validated in
  take 3 validated.

(** *** Reading the model's answer, 163-197 *)

(** [s.replace(re, '')] for [re] a literal (three characters or more)
    followed by [\s*], globally. *)
Fixpoint removeLit_go (lit : string) (skip : nat) (inWs : bool) (s : string) : string :=
  match s with
  | EmptyString => EmptyString
  | String c s' =>
      match skip with
      | S n => removeLit_go lit n inWs s'
      | O =>
          if inWs && JsStr.isSpace c then removeLit_go lit O true s'
          else if JsStr.startsWith s lit
               then removeLit_go lit (String.length lit - 1) true s'
               else String c (removeLit_go lit O false s')
      end
  end.

Definition removeLit (lit : string) (s : string) : string := removeLit_go lit O false s.

(** [jsonString.match(/\[[\s\S]*\]/)]: from the first opening bracket
    through the last closing one. *)
Definition matchOutermost (s : string) : option string :=
  let from := JsStr.dropWhile (λ c, negb (bool_decide (c = "["%char))) s in
  match from with
  | EmptyString => None
  | String c rest =>
      match JsStr.dropWhile (λ c, negb (bool_decide (c = "]"%char))) (String.rev rest) with
      | EmptyString => None
      | body => Some (String c (String.rev body))
      end
  end.

(** The [map] callback that normalises one parsed proposal. *)
Definition normalise (outfit : JValue) : Result Outfit :=
  match outfit with
  | JNull => Throw TypeError
  | _ =>
      let orEmpty k :=
        match member outfit k with
        | Some v => if truthy v then v else JStr ""
        | None => JStr ""
        end in
      Ok (mkOutfit (orEmpty "name") (orEmpty "description")
            (match member outfit "itemIds" with
             | Some (JArr ids) => toString <$> ids
             | _ => []
             end)
            (orEmpty "reasoning"))
  end.

Fixpoint normaliseAll (l : list JValue) : Result (list Outfit) :=
  match l with
  | [] => Ok []
  | o :: l' =>
      let* o' := normalise o in
      let* l'' := normaliseAll l' in
      Ok (o' :: l'')
  end.

Inductive Body : Type :=
| SuggestError (error : string)
| Suggestions (suggestions : list Outfit) (fallback : bool).

Record Response : Type := mkResponse {
  status : Z;
  payload : Body
}.

Section Handler.
Variable JSON_parse : string → option JValue.

(** The inner [try] block; a [Throw] is its [catch]. *)
Definition parseSuggestions (response : string) : Result (list Outfit) :=
  let jsonString := JsStr.trim response in
  let jsonString := removeLit "```" (removeLit "```json" jsonString) in
  let parsed :=
    match matchOutermost jsonString with
    | Some jsonMatch => JSON_parse jsonMatch
    | None => JSON_parse jsonString
    end in
  match parsed with
  | None => Throw SyntaxError
  | Some (JArr l) => normaliseAll l
  | Some _ => Throw TypeError
  end.

(** [Item.find({ userId, laundryStatus: 'IN_WARDROBE' }).lean()] *)
Definition wardrobe (userId : string) (db : Db) : list Doc :=
  filter (λ d, Store.userId d.2 = userId ∧ laundryStatus d.2 = IN_WARDROBE)
    (map_to_list (items db)).

(** [POST], 52-249.  [envKey] is [process.env.OPENAI_API_KEY]; the prompt
    text is not modelled, the network decides what comes back. *)
Definition POST (request : Http.Request) (envKey : option string)
    (net : Net.Network JValue) (db : Db) : Response :=
  match Http.authenticated request with
  | None => mkResponse 401 (SuggestError "Unauthorized")
  | Some authenticatedUserId =>
      match Http.json_body request with
      | None | Some JNull =>
          mkResponse 500 (SuggestError "Failed to generate outfit suggestions")
      | Some body =>
          if negb (truthyOpt (member body "userId"))
             || ItemsRoute.differsFrom (member body "userId") authenticatedUserId
          then mkResponse 400
                 (SuggestError "User ID is required and must match authenticated user")
          else
            let items := wardrobe authenticatedUserId db in
            if bool_decide (length items < 2)%nat
            then mkResponse 400
                   (SuggestError "Not enough items available in wardrobe for a suggestion.")
            else if negb (Upload.truthyStr envKey)
            then mkResponse 200 (Suggestions (generateFallbackOutfits items) true)
            else
              match OpenAI.generateText (JsStr.trim (default EmptyString envKey)) net with
              | Throw _ => mkResponse 200 (Suggestions (generateFallbackOutfits items) true)
              | Ok response =>
                  let outfitSuggestions :=
                    tryCatch (parseSuggestions response) (generateFallbackOutfits items) in
                  mkResponse 200 (Suggestions (finish items outfitSuggestions) false)
              end
      end
  end.

End Handler.
End Suggest.

(* ===================================================================== *)
(** ** The mutating calls of the API on stored items, as one type *)
(* ===================================================================== *)

Module Api.
Import Js Store Http.

(** A laundry action, an item update (which is also how a favourite is
    toggled) or a delete, through either copy of its route. *)
Inductive Call : Type :=
| Laundry (request : Request) (id : string) (now : Z)
| LaundryOld (request : Request) (id : string) (now : Z)
| Update (request : Request) (id : string) (now : Z)
| UpdateNext (request : Request) (id : string) (now : Z)
| Delete (request : Request) (id : string) (now : Z)
| DeleteNext (request : Request) (id : string) (now : Z).

Section Run.
Context `{!Coercions}.

(** The store after one call. *)
Definition run (c : Call) (db : Db) : Db :=
  match c with
  | Laundry request id now => (LaundryRoute.POST request id now db).2
  | LaundryOld request id now => (LaundryRouteOld.POST request id now db).2
  | Update request id now => (ItemRoute.PUT request id now db).2
  | UpdateNext request id now => (ItemRouteNext.PUT request id now db).2
  | Delete request id now => (ItemRoute.DELETE request id now db).2
  | DeleteNext request id now => (ItemRouteNext.DELETE request id now db).2
  end.

(** The store after a sequence of calls, first call first. *)
Definition runAll (calls : list Call) (db : Db) : Db :=
  fold_left (λ db c, run c db) calls db.

End Run.

(** Every item of [db'] was already in [db], with a usage counter that is
    not larger. *)
Definition countersGrow (db db' : Db) : Prop :=
  ∀ id it', items db' !! id = Some it' →
    ∃ it, items db !! id = Some it ∧ usageCount it ≤ usageCount it'.

(** Every item of [db'] was already in [db] with the same usage counter. *)
Definition countersKept (db db' : Db) : Prop :=
  ∀ id it', items db' !! id = Some it' →
    ∃ it, items db !! id = Some it ∧ usageCount it' = usageCount it.

End Api.

(* ===================================================================== *)
(** ** Reading items: one item, the list, the analytics *)
(* ===================================================================== *)

(** [GET] of the frontend item route
    (frontend/src/app/api/items/[id]/route.ts 11-66). *)
Module ItemRouteRead.
Import Js Store Http.

(** [o.toString()] of a plain object, which is what [populate] with
    [lean] leaves in [item.userId]. *)
Definition objectToString : string := "[object Object]".

(** [Item.findById(id).populate('userId').lean()]: the document and the
    owner's document, [null] when no such user is stored. *)
Definition findPopulated (id : string) : M (option (Item * option User)) :=
  λ db, (Ok ((λ item, (item, users db !! userId item)) <$> items db !! id), db).

Definition GET (request : Request) (id : string) : Db → Response * Db :=
  handle "Failed to fetch item"
    match authenticated request with
    | None => respond 401 (JsonError "Unauthorized")
    | Some authenticatedUserId =>
        let! item := findPopulated id in
        match item with
        | None => respond 404 (JsonError "Item not found")
        | Some (item, None) =>
            (* [item.userId] is [null] and has no [toString] *)
            raise TypeError
        | Some (item, Some owner) =>
            if negb (bool_decide (objectToString = authenticatedUserId))
            then respond 403 (JsonError "Forbidden")
            else
              let! history := ItemHistory_find id in
              respond 200 (JsonItemWithHistory item owner history)
        end
    end.

End ItemRouteRead.

(** [GET] of the items route (src/unnamed/part_014 11-78): the caller's
    items, filtered by the search parameters, newest first. *)
Module ItemsList.
Import Js Store Http.

(** [searchParams.get(k)] for the keys the handler reads. *)
Record Query : Type := mkQuery {
  q_userId : option string;
  q_type : option string;
  q_season : option string;
  q_laundryStatus : option string;
  q_isFavorite : option string;
  q_search : option string
}.

(** [v && v !== 'ALL'] *)
Definition chosen (v : option string) : option string :=
  match v with
  | Some s => if JsStr.nonEmpty s && negb (bool_decide (s = "ALL")) then Some s else None
  | None => None
  end.

(** A document as [populate] and [lean] return it. *)
Definition Doc : Type := string * Item * option User.

Inductive Body : Type :=
| ListError (error : string)
| Items (docs : list Doc).

Record Response : Type := mkResponse {
  status : Z;
  payload : Body
}.

Definition newestFirst (a b : string * Item) : Prop := createdAt b.2 ≤ createdAt a.2.

#[global] Instance newestFirst_dec : RelDecision newestFirst.
Proof. intros a b. unfold newestFirst. apply _. Defined.

(** [it.name === 'Untitled Item' ? '' : it.name] *)
Definition publicName (name : string) : string :=
  if bool_decide (name = "Untitled Item") then EmptyString else name.

Section Handler.
(** [{ $regex: search, $options: 'i' }]: the test a pattern stands for,
    [None] for a text that is no pattern (the query is then refused). *)
Variable regex : string → option (string → bool).

(** The name condition of the query. *)
Definition nameTest (q : Query) : option (string → bool) :=
  match q_search q with
  | Some search => if JsStr.nonEmpty search then regex search else Some (λ _, true)
  | None => Some (λ _, true)
  end.

(** The query object, as a test on a document. *)
Definition selects (caller : string) (q : Query) (test : string → bool) (i : Item) : bool :=
  bool_decide (userId i = caller)
  && match chosen (q_type q) with Some t => bool_decide (type i = t) | None => true end
  && match chosen (q_season q) with Some s => bool_decide (season i = s) | None => true end
  && match chosen (q_laundryStatus q) with
     | Some s => bool_decide (statusName (laundryStatus i) = s)
     | None => true
     end
  && match q_isFavorite q with
     | Some s => if bool_decide (s = "true") then isFavorite i else true
     | None => true
     end
  && test (name i).

(** [Item.find(query).populate(...).sort({ createdAt: -1 }).lean()] *)
Definition find (caller : string) (q : Query) (test : string → bool) (db : Db)
  : list (string * Item) :=
  merge_sort newestFirst (filter (λ d, selects caller q test d.2 = true) (map_to_list (items db))).

Definition GET (request : Request) (q : Query) (db : Db) : Response :=
  match authenticated request with
  | None => mkResponse 401 (ListError "Unauthorized")
  | Some authenticatedUserId =>
      if Upload.truthyStr (q_userId q)
         && negb (bool_decide (q_userId q = Some authenticatedUserId))
      then mkResponse 403 (ListError "Forbidden")
      else
        match nameTest q with
        | None => mkResponse 500 (ListError "Failed to fetch items")
        | Some test =>
            mkResponse 200
              (Items ((λ d, (d.1, set_name (publicName (name d.2)) d.2, users db !! userId d.2))
                      <$> find authenticatedUserId q test db))
        end
  end.

End Handler.
End ItemsList.

(** [GET] of the analytics route (src/unnamed/part_003 5-132).  The average
    usage, a floating-point quotient, is not among the fields below. *)
Module Analytics.
Import Js Store.

Definition Doc : Type := string * Item.

Record Worn : Type := mkWorn {
  w_id : string;
  w_name : string;
  w_type : string;
  w_usageCount : Z
}.

Record Summary : Type := mkSummary {
  totalItems : nat;
  favoritesCount : nat;
  inLaundryCount : nat;
  totalUsage : Z
}.

Record Report : Type := mkReport {
  summary : Summary;
  mostWornItems : list Worn;
  underusedItems : list Worn;
  neverWornItems : list (string * string * string);
  typeDistribution : gmap string nat;
  seasonDistribution : gmap string nat;
  occasionDistribution : gmap string nat;
  laundryDistribution : gmap string nat;
  activitySummary : gmap string nat;
  history : list HistoryEntry
}.

Inductive Body : Type :=
| AnalyticsError (error : string)
| AnalyticsReport (report : Report).

Record Response : Type := mkResponse {
  status : Z;
  payload : Body
}.

(** [(b.usageCount || 0) - (a.usageCount || 0)] as an order: the more worn
    item first. *)
Definition moreWorn (a b : Doc) : Prop := usageCount b.2 ≤ usageCount a.2.

#[global] Instance moreWorn_dec : RelDecision moreWorn.
Proof. intros a b. unfold moreWorn. apply _. Defined.

Definition worn (d : Doc) : Worn := mkWorn d.1 (name d.2) (type d.2) (usageCount d.2).

(** [l.reduce((acc, x) => { acc[key(x)] = (acc[key(x)] || 0) + 1; return acc }, {})]
    for keys that are no member of [Object.prototype]. *)
Definition countBy {A : Type} (key : A → string) (l : list A) : gmap string nat :=
  foldl (λ acc x, <[key x := S (default O (acc !! key x))]> acc) ∅ l.

Definition actionName (a : HistoryAction) : string :=
  match a with
  | CREATED => "CREATED" | WORN => "WORN" | MARKED_LAUNDRY => "MARKED_LAUNDRY"
  | RETURNED => "RETURNED" | EDITED => "EDITED" | FAVORITED => "FAVORITED"
  | UNFAVORITED => "UNFAVORITED" | DELETED => "DELETED"
  end.

(** [Item.find({ userId }).lean()] *)
Definition itemsOf (userId : string) (db : Db) : list Doc :=
  filter (λ d, Store.userId d.2 = userId) (map_to_list (items db)).

(** [ItemHistory.find({ performedBy, timestamp: { $gte } }).sort({ timestamp: -1 })] *)
Definition recentHistory (userId : string) (thirtyDaysAgo : Z) (db : Db) : list HistoryEntry :=
  merge_sort Http.newerFirst
    (filter (λ h, h_performedBy h = userId ∧ thirtyDaysAgo ≤ h_timestamp h) (itemHistory db)).

(** The report.  [items.sort(...)] sorts the array itself, so the two
    filters after it see the sorted array. *)
Definition report (items : list Doc) (recent : list HistoryEntry) : Report :=
  let summary :=
    mkSummary (length items)
      (length (filter (λ d, isFavorite d.2 = true) items))
      (length (filter (λ d, laundryStatus d.2 = IN_LAUNDRY) items))
      (foldl (λ sum d, sum + usageCount d.2) 0 items) in
  let sorted := merge_sort moreWorn items in
  mkReport summary
    (worn <$> take 5 sorted)
    (worn <$> filter (λ d, usageCount d.2 < 3 ∧ 0 < usageCount d.2) sorted)
    ((λ d, (d.1, name d.2, type d.2)) <$> filter (λ d, usageCount d.2 = 0) sorted)
    (countBy (λ d, type d.2) sorted)
    (countBy (λ d, season d.2) sorted)
    (countBy (λ d, occasion d.2) sorted)
    (countBy (λ d, statusName (laundryStatus d.2)) sorted)
    (countBy (λ h, actionName (h_action h)) recent)
    (take 10 recent).

Section Handler.
(** [userId] is an ObjectId path of the schema, and the mapper casts the
    value of a query to it before the store is asked.  Which strings it can
    cast depends on its version (24 hexadecimal digits always are one): the
    test is a parameter. *)
Variable isObjectId : string → bool.

(** [GET], 5-132.  [userId] is [searchParams.get('userId')]; [thirtyDaysAgo]
    is the clock set back thirty days.  [Item.find({ userId })] rejects with
    a cast error on a text that is no ObjectId, which the [catch] answers. *)
Definition GET (userId : option string) (thirtyDaysAgo : Z) (db : Db) : Response :=
  if negb (Upload.truthyStr userId)
  then mkResponse 400 (AnalyticsError "User ID is required")
  else
    let userId := default EmptyString userId in
    if negb (isObjectId userId)
    then mkResponse 500 (AnalyticsError "Failed to fetch analytics")
    else
      mkResponse 200
        (AnalyticsReport (report (itemsOf userId db) (recentHistory userId thirtyDaysAgo db))).

End Handler.

(** What a distribution [m] over [l] is read as: under every key the number
    of elements of [l] with that key, and no entry for a key without
    elements. *)
Definition counts {A} (key : A → string) (l : list A) (m : gmap string nat) : Prop :=
  ∀ k, m !! k = if decide (length (filter (λ x, key x = k) l) = 0)%nat then None
                else Some (length (filter (λ x, key x = k) l)).

End Analytics.

(* ===================================================================== *)
(** ** Sequences of calls and what they answer *)
(* ===================================================================== *)

Module Trail.
Import Js Store Http.

Section Run.
Context `{!Coercions}.

(** One call with its answer; [Api.run] is the store it leaves. *)
Definition call (c : Api.Call) (db : Db) : Response * Db :=
  match c with
  | Api.Laundry request id now => LaundryRoute.POST request id now db
  | Api.LaundryOld request id now => LaundryRouteOld.POST request id now db
  | Api.Update request id now => ItemRoute.PUT request id now db
  | Api.UpdateNext request id now => ItemRouteNext.PUT request id now db
  | Api.Delete request id now => ItemRoute.DELETE request id now db
  | Api.DeleteNext request id now => ItemRouteNext.DELETE request id now db
  end.

(** The calls of a sequence that are answered with 200, in their order;
    each call is made on the store the calls before it have left. *)
Fixpoint served (calls : list Api.Call) (db : Db) : list Api.Call :=
  match calls with
  | [] => []
  | c :: calls' =>
      (if bool_decide (status (call c db).1 = 200) then [c] else [])
      ++ served calls' (call c db).2
  end.

End Run.

Definition requestOf (c : Api.Call) : Request :=
  match c with
  | Api.Laundry request _ _ | Api.LaundryOld request _ _ | Api.Update request _ _
  | Api.UpdateNext request _ _ | Api.Delete request _ _ | Api.DeleteNext request _ _ => request
  end.

Definition timeOf (c : Api.Call) : Z :=
  match c with
  | Api.Laundry _ _ now | Api.LaundryOld _ _ now | Api.Update _ _ now
  | Api.UpdateNext _ _ now | Api.Delete _ _ now | Api.DeleteNext _ _ now => now
  end.

End Trail.

(** Which calls count as a wear of an item. *)
Module Wear.
Import Js Store Http LaundryAction.

(** The id a call is made on. *)
Definition targetOf (c : Api.Call) : string :=
  match c with
  | Api.Laundry _ id _ | Api.LaundryOld _ id _ | Api.Update _ id _
  | Api.UpdateNext _ id _ | Api.Delete _ id _ | Api.DeleteNext _ id _ => id
  end.

(** The [case] a laundry request selects. *)
Definition actionOf (request : Request) : option Action :=
  whichCase (memberOpt (json_body request) "action").

(** Whether a call, once it is answered with 200, has added one to the
    counter: in the handler with awaited route parameters the actions
    mark_worn and mark_laundry, in the older handler mark_worn alone, and no
    update or delete. *)
Definition countsAsWear (c : Api.Call) : bool :=
  match c with
  | Api.Laundry request _ _ =>
      match actionOf request with
      | Some a => bool_decide (a = mark_worn) || bool_decide (a = mark_laundry)
      | None => false
      end
  | Api.LaundryOld request _ _ =>
      match actionOf request with
      | Some a => bool_decide (a = mark_worn)
      | None => false
      end
  | _ => false
  end.

(** The wears of [id] among the calls of a sequence that were answered with
    200. *)
Definition wears `{!Coercions} (id : string) (calls : list Api.Call) (db : Db) : nat :=
  length (filter (λ c, targetOf c = id ∧ countsAsWear c = true) (Trail.served calls db)).

End Wear.

(* ===================================================================== *)
(** ** A small wardrobe to run the handlers on *)
(* ===================================================================== *)

Module Examples.
Import Js Store Http.

(** A mapper that refuses every value whose type is not the one of its
    path. *)
#[global] Instance strictCoercions : Coercions := {|
  coerceString := λ _, None;
  coerceBoolean := λ _, None;
  coerceNumber := λ _, None;
  coerceArray := λ _, None
|}.

(** Alice's shirt: worn three times, now in the laundry. *)
Definition shirt : Item :=
  mkItem "alice" "White Cotton T-Shirt" "1700000000000-shirt.jpg"
    "/uploads/1700000000000-shirt.jpg" "/uploads/thumb-1700000000000-shirt.jpg"
    (Some "/uploads/1700000000000-shirt.jpg") ["White"] "TOP" "CASUAL" "ALL_SEASON"
    IN_LAUNDRY 3 false false None 1700000000000 1700000000500.

(** Alice's jeans: worn seven times, hanging in the wardrobe. *)
Definition jeans : Item :=
  mkItem "alice" "Blue Denim Jeans" "1700000000001-jeans.jpg"
    "/uploads/1700000000001-jeans.jpg" "/uploads/thumb-1700000000001-jeans.jpg"
    (Some "/uploads/1700000000001-jeans.jpg") ["Blue"] "BOTTOM" "CASUAL" "ALL_SEASON"
    IN_WARDROBE 7 true false None 1700000000001 1700000000001.

Definition wardrobe : Db :=
  mkDb {[ "item1" := shirt; "item2" := jeans ]}
       {[ "alice" := mkUser "alice@example.com" (Some "Alice");
          "bob" := mkUser "bob@example.com" None ]}
       [mkHistory "item1" CREATED "alice" "Item created" 1700000000000]
       [].

(** A request of [caller] with a JSON body. *)
Definition requestOf (caller : string) (body : JValue) : Request :=
  mkRequest (Some caller) None (Some body).

Definition laundryRequest (caller action : string) : Request :=
  requestOf caller (JObj [("action", JStr action)]).

(** Carol's closet: a blouse, a skirt and a dress, all hanging in the
    wardrobe, under the ids a, b and c. *)
Definition blouse : Item :=
  mkItem "carol" "Silk Blouse" "1700000000002-blouse.jpg"
    "/uploads/1700000000002-blouse.jpg" "/uploads/thumb-1700000000002-blouse.jpg"
    None ["Cream"] "TOP" "FORMAL" "SPRING"
    IN_WARDROBE 0 false false None 1700000000002 1700000000002.

Definition skirt : Item :=
  mkItem "carol" "Pleated Skirt" "1700000000003-skirt.jpg"
    "/uploads/1700000000003-skirt.jpg" "/uploads/thumb-1700000000003-skirt.jpg"
    None ["Navy"] "BOTTOM" "FORMAL" "SPRING"
    IN_WARDROBE 1 false false None 1700000000003 1700000000003.

Definition sundress : Item :=
  mkItem "carol" "Floral Sundress" "1700000000004-dress.jpg"
    "/uploads/1700000000004-dress.jpg" "/uploads/thumb-1700000000004-dress.jpg"
    None ["Yellow"; "Green"] "DRESS" "CASUAL" "SUMMER"
    IN_WARDROBE 2 true false None 1700000000004 1700000000004.

Definition closetItems : list (string * Item) :=
  [("a", blouse); ("b", skirt); ("c", sundress)].

Definition closet : Db :=
  mkDb (list_to_map closetItems)
       {[ "carol" := mkUser "carol@example.com" (Some "Carol") ]} [] [].

(** What a model could propose for the blouse and the skirt. *)
Definition proposal (ids : list string) : Suggest.Outfit :=
  Suggest.mkOutfit (JStr "Office Day") (JStr "Blouse with skirt") ids
    (JStr "Matching formal pieces").

(** Carol asks for suggestions. *)
Definition suggestRequest : Request :=
  requestOf "carol" (JObj [("userId", JStr "carol"); ("occasion", JStr "FORMAL")]).

(** A chat completion whose only choice has [content] as its message. *)
Definition completion (content : string) : Net.Network JValue :=
  λ _, Net.Resolves
         (Net.mkResponse 200
            (Some (JObj [("choices",
                          JArr [JObj [("message", JObj [("content", JStr content)])]])]))).

(** A chat completion whose first message has the JSON value [content] as
    its content. *)
Definition completionOf (content : JValue) : Net.Network JValue :=
  λ _, Net.Resolves
         (Net.mkResponse 200
            (Some (JObj [("choices",
                          JArr [JObj [("message", JObj [("content", content)])]])]))).

(** A message content that is an object with the five members the backend
    upload reads. *)
Definition partyDress : JValue :=
  JObj [("name", JStr "Red Party Dress"); ("type", JStr "DRESS");
        ("colors", JArr [JStr "Red"]); ("occasion", JStr "PARTY");
        ("season", JStr "SUMMER")].

(** The stores of this section write ids as short names.  These names stand
    for the ObjectIds, every other text for a text that is none. *)
Definition isObjectId (s : string) : bool :=
  bool_decide (s ∈ ["alice"; "bob"; "carol"; "item1"; "item2"; "item3"; "a"; "b"; "c"]).

(** An answer of the model that names the skirt before the blouse, as a
    value and as JSON text; [parseSkirtFirst] reads that text and nothing
    else. *)
Definition skirtFirst : JValue := JArr [JObj [("itemIds", JArr [JStr "b"; JStr "a"])]].

Definition parseSkirtFirst (s : string) : option JValue :=
  if bool_decide (s = stringify skirtFirst) then Some skirtFirst else None.

(** Alice creates an item and asks for a counter and a favourite mark. *)
Definition createRequest : Request :=
  requestOf "alice"
    (JObj [("userId", JStr "alice"); ("name", JStr "Linen Shirt");
           ("filename", JStr "1700000000005-linen.jpg");
           ("objectUrl", JStr "/uploads/1700000000005-linen.jpg");
           ("thumbnailUrl", JStr "/uploads/thumb-1700000000005-linen.jpg");
           ("type", JStr "TOP"); ("usageCount", JNum 42); ("isFavorite", JBool true)]).

(** Alice uploads a picture of the same shirt. *)
Definition uploadRequest : Upload.Request :=
  Upload.mkRequest
    (Some (Upload.mkForm (Some (Upload.mkFile "linen shirt.jpg" "image/jpeg"))
             (Some "alice") (Some "  Linen Shirt ") (Some "TOP") None None))
    None.

(** Every classification call of the frontend upload fails. *)
Definition offline : UploadRoute.Networks :=
  UploadRoute.mkNetworks Net.unreachable Net.unreachable Net.unreachable
    Net.unreachable Net.unreachable.

End Examples.

(* ===================================================================== *)
(** ** Proof automation *)
(* ===================================================================== *)

(** Membership in a list that is written out. *)
Ltac in_list := apply (bool_decide_unpack _); vm_compute; exact I.

(** One step into a handler: a case split on an innermost scrutinee of the
    goal. *)
Ltac branch :=
  match goal with
  | |- context [match ?x with _ => _ end] =>
      lazymatch x with
      | context [match _ with _ => _ end] => fail
      | _ => destruct x eqn:?
      end
  end.

(* ===================================================================== *)
(** * Properties *)
(* ===================================================================== *)

Module NetFacts.
Import Net.

Section Facts.
Context {B : Type}.
Implicit Types (net : Network B) (r : Response B).

Lemma fetchWithBackoff_run net retries :
  ∀ attempt delay,
    fetchWithBackoff net attempt retries delay =
    (lastOfBackoff (net (attempt + retriesUsed net attempt retries)%nat),
     backoffTrace delay (retriesUsed net attempt retries)).
Proof.
  induction retries as [|n IH]; intros attempt delay; cbn [fetchWithBackoff retriesUsed].
  - rewrite Nat.add_0_r. destruct (net attempt) as [msg|r]; [done|].
    cbn. destruct (ok r); cbn; [done|]. by destruct (retryStatus r).
  - destruct (net attempt) as [msg|r] eqn:E; cbn [retriable].
    + rewrite IH, Nat.add_succ_r. done.
    + destruct (ok r) eqn:Hok; cbn [negb andb].
      * rewrite Nat.add_0_r, E. cbn. by rewrite Hok.
      * destruct (retryStatus r) eqn:Hrs.
        -- rewrite IH, Nat.add_succ_r. done.
        -- rewrite Nat.add_0_r, E. cbn. by rewrite Hok, Hrs.
Qed.

Lemma fetchWithRetry_run net retries :
  ∀ attempt delay,
    fetchWithRetry net attempt retries delay =
    (lastOfRetry (net (attempt + retriesUsed net attempt retries)%nat),
     backoffTrace delay (retriesUsed net attempt retries)).
Proof.
  induction retries as [|n IH]; intros attempt delay; cbn [fetchWithRetry retriesUsed].
  - rewrite Nat.add_0_r. destruct (net attempt) as [msg|r]; [done|].
    cbn. by destruct (negb (ok r) && retryStatus r).
  - destruct (net attempt) as [msg|r] eqn:E; cbn [retriable].
    + rewrite IH, Nat.add_succ_r. done.
    + destruct (negb (ok r) && retryStatus r) eqn:Hrs.
      * rewrite IH, Nat.add_succ_r. done.
      * by rewrite Nat.add_0_r, E.
Qed.

Lemma retriesUsed_le net budget : ∀ attempt, (retriesUsed net attempt budget ≤ budget)%nat.
Proof.
  induction budget as [|b IH]; intros attempt; simpl; [lia|].
  destruct (retriable (net attempt)); [|lia]. specialize (IH (S attempt)). lia.
Qed.

Lemma retriesUsed_before net budget :
  ∀ attempt i, (i < retriesUsed net attempt budget)%nat →
    retriable (net (attempt + i)%nat) = true.
Proof.
  induction budget as [|b IH]; intros attempt i Hi; simpl in Hi; [lia|].
  destruct (retriable (net attempt)) eqn:E; [|lia].
  destruct i as [|i]; [by rewrite Nat.add_0_r|].
  rewrite Nat.add_succ_r. apply (IH (S attempt)). lia.
Qed.

Lemma retriesUsed_stop net budget :
  ∀ attempt, (retriesUsed net attempt budget < budget)%nat →
    retriable (net (attempt + retriesUsed net attempt budget)%nat) = false.
Proof.
  induction budget as [|b IH]; intros attempt Hlt; simpl in *; [lia|].
  destruct (retriable (net attempt)) eqn:E.
  - rewrite Nat.add_succ_r. apply (IH (S attempt)). lia.
  - by rewrite Nat.add_0_r.
Qed.

Lemma retriesUsed_all net budget :
  ∀ attempt, (∀ i, (i < budget)%nat → retriable (net (attempt + i)%nat) = true) →
    retriesUsed net attempt budget = budget.
Proof.
  induction budget as [|b IH]; intros attempt Hall; simpl; [done|].
  rewrite <- (Nat.add_0_r attempt) at 1. rewrite Hall by lia.
  f_equal. apply IH. intros i Hi.
  replace (S attempt + i)%nat with (attempt + S i)%nat by lia. apply Hall. lia.
Qed.

(** C8, as the code has it: the two retry wrappers, [fetchWithBackoff]
    of the Gemini client (five retries) and [fetchWithRetry] of the OpenAI
    client (three retries), each with a first delay of one second.  The
    HuggingFace client has the text of [fetchWithRetry] too, but calls it
    again after a last 503 or 429, so its calls are not covered.  For every
    network: the call makes [k] retries, [k] at most the budget, sleeping
    1000, 2000, 4000, ... milliseconds between the fetches; each retried outcome
    was a rejected fetch or a 5xx/429 answer, and the call stops before the
    budget is spent only on an outcome that is neither.  A 4xx answer other
    than 429 is handed to the caller after the one fetch.  When every
    answer is 5xx or 429 the whole budget is spent (then the Gemini wrapper
    throws and the OpenAI wrapper hands the last answer over); when every
    fetch rejects the whole budget is spent and the last rejection is
    rethrown. *)
Theorem C8_retry_policy net :
  (∃ k, (k ≤ 5)%nat
        ∧ (geminiFetch net).2 = backoffTrace 1000 k
        ∧ (∀ i, (i < k)%nat → retriable (net i) = true)
        ∧ ((k < 5)%nat → retriable (net k) = false))
  ∧ (∃ k, (k ≤ 3)%nat
        ∧ (openaiFetch net).2 = backoffTrace 1000 k
        ∧ (∀ i, (i < k)%nat → retriable (net i) = true)
        ∧ ((k < 3)%nat → retriable (net k) = false))
  ∧ (∀ r, net O = Resolves r → 400 ≤ status r < 500 → status r ≠ 429 →
        geminiFetch net = (Ok r, [EvFetch]) ∧ openaiFetch net = (Ok r, [EvFetch]))
  ∧ ((∀ i, (i ≤ 5)%nat → ∃ r, net i = Resolves r ∧ (500 ≤ status r ∨ status r = 429)) →
        sleeps (geminiFetch net).2 = [1000; 2000; 4000; 8000; 16000]
        ∧ fetches (geminiFetch net).2 = 6%nat
        ∧ sleeps (openaiFetch net).2 = [1000; 2000; 4000]
        ∧ fetches (openaiFetch net).2 = 4%nat
        ∧ ∃ r5 r3, net 5%nat = Resolves r5 ∧ net 3%nat = Resolves r3
            ∧ (geminiFetch net).1 = Throw (HttpError (status r5))
            ∧ (openaiFetch net).1 = Ok r3)
  ∧ ((∀ i, (i ≤ 5)%nat → ∃ msg, net i = Rejects msg) →
        ∃ m5 m3, net 5%nat = Rejects m5 ∧ net 3%nat = Rejects m3
          ∧ geminiFetch net = (Throw (TransportError m5), backoffTrace 1000 5)
          ∧ openaiFetch net = (Throw (TransportError m3), backoffTrace 1000 3)).
Proof.
  unfold geminiFetch, openaiFetch.
  rewrite fetchWithBackoff_run, fetchWithRetry_run. cbn [fst snd Nat.add].
  split; [|split; [|split; [|split]]].
  - exists (retriesUsed net 0 5). split; [apply retriesUsed_le|]. split; [done|].
    split; [apply (retriesUsed_before net 5 0)|apply (retriesUsed_stop net 5 0)].
  - exists (retriesUsed net 0 3). split; [apply retriesUsed_le|]. split; [done|].
    split; [apply (retriesUsed_before net 3 0)|apply (retriesUsed_stop net 3 0)].
  - intros r E [Hlo Hhi] Hne.
    assert (retriable (net O) = false) as Hnot.
    { rewrite E. cbn. unfold retryStatus.
      replace (500 <=? status r) with false by (symmetry; apply Z.leb_gt; lia).
      replace (status r =? 429) with false by (symmetry; apply Z.eqb_neq; lia).
      by rewrite andb_false_r. }
    cbn [retriesUsed]. rewrite Hnot. cbn [backoffTrace].
    rewrite E. cbn [lastOfBackoff lastOfRetry]. rewrite <- E, Hnot. done.
  - intros Hall.
    assert (∀ i, (i ≤ 5)%nat → retriable (net i) = true) as Hret.
    { intros i Hi. destruct (Hall i Hi) as (r & -> & Hs). cbn. unfold ok, retryStatus.
      destruct Hs as [Hs| ->]; [|done].
      replace (status r <=? 299) with false by (symmetry; apply Z.leb_gt; lia).
      replace (500 <=? status r) with true by (symmetry; apply Z.leb_le; lia).
      by rewrite andb_false_r. }
    rewrite (retriesUsed_all net 5 0), (retriesUsed_all net 3 0)
      by (intros i Hi; apply Hret; cbn; lia).
    do 4 (split; [reflexivity|]).
    destruct (Hall 5%nat ltac:(lia)) as (r5 & E5 & _).
    destruct (Hall 3%nat ltac:(lia)) as (r3 & E3 & _).
    exists r5, r3. split; [done|]. split; [done|].
    pose proof (Hret 5%nat ltac:(lia)) as H5. rewrite E5 in H5 |- *.
    rewrite E3. cbn [lastOfBackoff lastOfRetry]. by rewrite H5.
  - intros Hall.
    assert (∀ i, (i ≤ 5)%nat → retriable (net i) = true) as Hret.
    { intros i Hi. by destruct (Hall i Hi) as (msg & ->). }
    rewrite (retriesUsed_all net 5 0), (retriesUsed_all net 3 0)
      by (intros i Hi; apply Hret; cbn; lia).
    destruct (Hall 5%nat ltac:(lia)) as (m5 & E5).
    destruct (Hall 3%nat ltac:(lia)) as (m3 & E3).
    exists m5, m3. by rewrite E5, E3.
Qed.

End Facts.

(** The policy at work on a server that is down for maintenance: six
    fetches one to sixteen seconds apart from the Gemini wrapper, four from
    the OpenAI wrapper. *)
Lemma C8_retry_policy_witness :
  sleeps (geminiFetch (B := unit) (answering 503)).2 = [1000; 2000; 4000; 8000; 16000]
  ∧ fetches (geminiFetch (B := unit) (answering 503)).2 = 6%nat
  ∧ sleeps (openaiFetch (B := unit) (answering 503)).2 = [1000; 2000; 4000]
  ∧ fetches (openaiFetch (B := unit) (answering 503)).2 = 4%nat.
Proof.
  destruct (C8_retry_policy (B := unit) (answering 503)) as (_ & _ & _ & H & _).
  destruct H as (H1 & H2 & H3 & H4 & _).
  - intros i _. exists (mkResponse 503 None). split; [reflexivity|]. left. cbn. lia.
  - repeat split; assumption.
Defined.

(** The HuggingFace client on the same server, with three calls of
    [analyzeImage] allowed: each call spends its budget (four fetches, one
    to four seconds apart), waits five seconds and starts over.  Twelve
    fetches are made, where a budget of three to five allows six at most,
    the waits do not keep doubling, and nothing has been handed to the
    caller. *)
Lemma C8_huggingface_starts_over :
  let run := HuggingFace.analyzeImage "hf_test" (λ _, "Service Unavailable")
               (answering 503) 3 [] in
  run.1 = None
  ∧ fetches run.2 = 12%nat
  ∧ sleeps run.2 = [1000; 2000; 4000; 5000; 1000; 2000; 4000; 5000; 1000; 2000; 4000; 5000].
Proof. vm_compute. repeat split. Qed.
End NetFacts.

(* ===================================================================== *)
(** ** The classification functions on failure *)
(* ===================================================================== *)

Module ClassifyFacts.
Import Js Classify.

Lemma oneOf_elem valid x : oneOf valid x = true → x ∈ valid.
Proof. unfold oneOf. intros H. by apply bool_decide_eq_true in H. Qed.

Lemma find_elem {A : Type} (p : A → bool) (l : list A) x :
  List.find p l = Some x → x ∈ l.
Proof.
  induction l as [|a l IH]; cbn; [done|].
  destruct (p a); [intros [= ->]; left|intros H; right; auto].
Qed.

Lemma pickEnum_valid valid fallback resp :
  fallback ∈ valid → pickEnum valid fallback resp ∈ valid.
Proof.
  intros Hd. unfold pickEnum.
  destruct (oneOf valid (cleanWord resp)) eqn:E; [by apply oneOf_elem|].
  unfold firstIncluded.
  destruct (List.find _ valid) eqn:F; [by apply find_elem in F|done].
Qed.

Lemma pickEnum_fallback valid fallback resp :
  namesNone valid resp = true → pickEnum valid fallback resp = fallback.
Proof.
  unfold namesNone, pickEnum. intros [H1 H2]%andb_true_iff.
  apply negb_true_iff in H1. rewrite H1.
  destruct (firstIncluded valid _); [|done].
  apply negb_true_iff, bool_decide_eq_false in H2. destruct H2. eauto.
Qed.

Lemma pickType_valid typeMap resp :
  Forall (λ kv, kv.2 ∈ validTypes) typeMap → pickType typeMap resp ∈ validTypes.
Proof.
  intros Hmap. unfold pickType.
  destruct (oneOf validTypes _) eqn:E; [by apply oneOf_elem|].
  unfold firstIncluded.
  destruct (List.find _ validTypes) eqn:F; [by apply find_elem in F|].
  unfold firstMapped.
  destruct (List.find _ typeMap) as [kv|] eqn:G; cbn.
  - apply find_elem in G. rewrite Forall_forall in Hmap. by apply Hmap.
  - in_list.
Qed.

Lemma pickType_fallback typeMap resp :
  namesNoType typeMap resp = true → pickType typeMap resp = "TOP".
Proof.
  unfold namesNoType, pickType.
  intros [[H1 H2]%andb_true_iff H3]%andb_true_iff.
  apply negb_true_iff in H1. rewrite H1.
  apply negb_true_iff, bool_decide_eq_false in H2.
  apply negb_true_iff, bool_decide_eq_false in H3.
  destruct (firstIncluded validTypes _); [destruct H2; eauto|].
  destruct (firstMapped typeMap _); [destruct H3; eauto|done].
Qed.

Lemma typeMap_backend_valid : Forall (λ kv, kv.2 ∈ validTypes) GeminiBackend.typeMap.
Proof. apply (bool_decide_unpack _). vm_compute. exact I. Qed.

Lemma typeMap_openai_valid : Forall (λ kv, kv.2 ∈ validTypes) OpenAI.typeMap.
Proof. apply (bool_decide_unpack _). vm_compute. exact I. Qed.

(** When every attempt fails, the Gemini client raises. *)
Lemma gemini_raises_when_failing (net : Net.Network JValue) :
  (∀ i, (i ≤ 5)%nat → Net.failing (net i) = true) →
  ∃ e, Gemini.analyzeImage net = Throw e.
Proof.
  intros Hall. unfold Gemini.analyzeImage, Net.geminiFetch.
  rewrite NetFacts.fetchWithBackoff_run. cbn [fst Nat.add].
  pose proof (NetFacts.retriesUsed_le net 5 0) as Hk.
  specialize (Hall _ Hk).
  destruct (net (Net.retriesUsed net 0 5)) as [msg|r] eqn:E; cbn.
  - eauto.
  - cbn in Hall. rewrite Hall. cbn. destruct (Net.retryStatus r); cbn; [eauto|].
    rewrite Hall. eauto.
Qed.

Lemma openai_raises_when_failing apiKey (net : Net.Network JValue) :
  (∀ i, (i ≤ 3)%nat → Net.failing (net i) = true) →
  ∃ e, OpenAI.analyzeImage apiKey net = Throw e.
Proof.
  intros Hall. unfold OpenAI.analyzeImage, OpenAI.analyzeImageContent, Net.openaiFetch.
  destruct (JsStr.isEmpty apiKey); [cbn; eauto|].
  rewrite NetFacts.fetchWithRetry_run. cbn [fst Nat.add].
  pose proof (NetFacts.retriesUsed_le net 3 0) as Hk.
  specialize (Hall _ Hk).
  destruct (net (Net.retriesUsed net 0 3)) as [msg|r] eqn:E; cbn.
  - eauto.
  - cbn in Hall. rewrite Hall. cbn. eauto.
Qed.

(** A first answer that is 2xx is what the wrappers hand over. *)
Lemma geminiFetch_ok (net : Net.Network JValue) r :
  net O = Net.Resolves r → Net.ok r = true → (Net.geminiFetch net).1 = Ok r.
Proof. intros E Hok. unfold Net.geminiFetch. cbn. by rewrite E, Hok. Qed.

Lemma openaiFetch_ok (net : Net.Network JValue) r :
  net O = Net.Resolves r → Net.ok r = true → (Net.openaiFetch net).1 = Ok r.
Proof. intros E Hok. unfold Net.openaiFetch. cbn. by rewrite E, Hok. Qed.

Lemma parseResponseText_empty data :
  Gemini.hasCandidates data = false → Gemini.parseResponseText data = Ok EmptyString.
Proof.
  unfold Gemini.hasCandidates, Gemini.parseResponseText.
  destruct (negb (truthy data)); [done|].
  destruct (member data "candidates") as [[]|]; done.
Qed.

Lemma fetches_app (l1 l2 : list Net.Event) :
  Net.fetches (l1 ++ l2) = (Net.fetches l1 + Net.fetches l2)%nat.
Proof. induction l1 as [|[] l1 IH]; cbn; auto. Qed.

(** *** The HuggingFace client when the caption cannot be had *)

Lemma hf_no_key hfKey errorText (net : Net.Network JValue) fuel trace :
  JsStr.isEmpty hfKey = true →
  HuggingFace.analyzeImage hfKey errorText net fuel trace
  = (Some (Throw MissingApiKey), trace).
Proof. intros Hkey. destruct fuel; cbn; by rewrite Hkey. Qed.

Lemma hf_no_connection hfKey errorText (net : Net.Network JValue) fuel trace :
  JsStr.isEmpty hfKey = false → (∀ i, ∃ msg, net i = Net.Rejects msg) →
  ∃ msg,
    HuggingFace.analyzeImage hfKey errorText net (S fuel) trace
    = (Some (Throw (TransportError msg)), trace ++ Net.backoffTrace 1000 3).
Proof.
  intros Hkey Hall. cbn [HuggingFace.analyzeImage]. rewrite Hkey.
  rewrite NetFacts.fetchWithRetry_run.
  rewrite (NetFacts.retriesUsed_all net 3)
    by (intros i _; by destruct (Hall (Net.fetches trace + i)%nat) as (msg & ->)).
  destruct (Hall (Net.fetches trace + 3)%nat) as (msg & ->).
  exists msg. reflexivity.
Qed.

(** Two caption calls that raise: the answer is made up from the prompt. *)
Lemma hf_falls_back hfKey errorText (net : Net.Network JValue) fuel prompt e1 t1 e2 t2 :
  HuggingFace.analyzeImage hfKey errorText net fuel [] = (Some (Throw e1), t1) →
  HuggingFace.analyzeImage hfKey errorText net fuel t1 = (Some (Throw e2), t2) →
  HuggingFace.analyzeImageWithPrompt hfKey errorText net fuel prompt
  = (Some (JStr (HuggingFace.simpleTextExtraction prompt)), t2).
Proof. intros E1 E2. unfold HuggingFace.analyzeImageWithPrompt. by rewrite E1, E2. Qed.

(** A server that keeps answering 503 (with a body that does not speak of an
    unsupported endpoint): the caption call starts over after every spent
    budget and does not settle, whatever the number of calls allowed; each
    call makes four fetches. *)
Theorem hf_waits_on_503 hfKey errorText fuel : ∀ trace,
  JsStr.isEmpty hfKey = false →
  JsStr.includes (errorText (Net.mkResponse 503 None)) "no longer supported" = false →
  ∃ trace',
    HuggingFace.analyzeImage hfKey errorText (Net.answering 503) fuel trace = (None, trace')
    ∧ Net.fetches trace' = (Net.fetches trace + 4 * fuel)%nat.
Proof.
  induction fuel as [|fuel IH]; intros trace Hkey Htext; cbn [HuggingFace.analyzeImage];
    rewrite Hkey.
  - exists trace. split; [done|lia].
  - cbn -[HuggingFace.analyzeImage]. rewrite Htext.
    match goal with
    | |- context [HuggingFace.analyzeImage _ _ _ fuel ?t] =>
        destruct (IH t Hkey Htext) as (trace' & -> & Hn)
    end.
    exists trace'. split; [done|]. rewrite Hn.
    rewrite !fetches_app. cbn. lia.
Qed.

Section Defaults.
Variable JSON_parse : string → option JValue.
Variable apiKey : string.

(** C1, as the code has it.  For the OpenAI adapter and the two Gemini
    adapters: when the client's [analyzeImage] raises, each of the five
    functions returns its default value - ['Unknown'] for the colours,
    'TOP', 'CASUAL', 'ALL_SEASON', and for the name 'Clothing Item' in the
    OpenAI and backend Gemini adapters but 'Unknown Item' in the frontend
    Gemini adapter.  The call raises when every attempt of the retry budget
    ends in a rejected fetch or a non-2xx answer, when the body of a 2xx
    answer is no JSON, and when that body holds no content (no candidates
    array for Gemini, a falsy first message content for OpenAI).  It does
    not raise on a 2xx answer whose candidates array is empty: the text is
    then the JSON text of the whole body, and the name and the colours are
    read from that text.  The type, occasion and season functions return a
    value of their enum for every network, and their default when the
    returned text names no value. *)
Theorem C1_defaults_on_failure :
  (∀ net e, Gemini.analyzeImage net = Throw e →
      GeminiFrontend.extractColorsFromImage JSON_parse net = ["Unknown"]
      ∧ GeminiFrontend.identifyClothingType net = "TOP"
      ∧ GeminiFrontend.suggestOccasion net = "CASUAL"
      ∧ GeminiFrontend.suggestSeason net = "ALL_SEASON"
      ∧ GeminiFrontend.generateItemName net = "Unknown Item"
      ∧ GeminiBackend.extractColorsFromImage JSON_parse net = ["Unknown"]
      ∧ GeminiBackend.identifyClothingType net = "TOP"
      ∧ GeminiBackend.suggestOccasion net = "CASUAL"
      ∧ GeminiBackend.suggestSeason net = "ALL_SEASON"
      ∧ GeminiBackend.generateItemName net = "Clothing Item")
  ∧ (∀ net e, OpenAI.analyzeImage apiKey net = Throw e →
      OpenAI.extractColorsFromImage JSON_parse apiKey net = ["Unknown"]
      ∧ OpenAI.identifyClothingType apiKey net = "TOP"
      ∧ OpenAI.suggestOccasion apiKey net = "CASUAL"
      ∧ OpenAI.suggestSeason apiKey net = "ALL_SEASON"
      ∧ OpenAI.generateItemName apiKey net = "Clothing Item")
  ∧ (∀ net, (∀ i, (i ≤ 5)%nat → Net.failing (net i) = true) →
      ∃ e, Gemini.analyzeImage net = Throw e)
  ∧ (∀ net, (∀ i, (i ≤ 3)%nat → Net.failing (net i) = true) →
      ∃ e, OpenAI.analyzeImage apiKey net = Throw e)
  ∧ (∀ net r, net O = Net.Resolves r → Net.ok r = true → Net.json r = None →
      (∃ e, Gemini.analyzeImage net = Throw e)
      ∧ (∃ e, OpenAI.analyzeImage apiKey net = Throw e))
  ∧ (∀ net r data, net O = Net.Resolves r → Net.ok r = true → Net.json r = Some data →
      (Gemini.hasCandidates data = false → Gemini.analyzeImage net = Throw NoContent)
      ∧ (truthyOpt (OpenAI.contentOf data) = false →
         ∃ e, OpenAI.analyzeImage apiKey net = Throw e)
      ∧ (truthy data = true → member data "candidates" = Some (JArr []) →
         Gemini.analyzeImage net = Ok (stringify data)))
  ∧ (∀ net,
      GeminiFrontend.identifyClothingType net ∈ validTypes
      ∧ GeminiFrontend.suggestOccasion net ∈ validOccasions
      ∧ GeminiFrontend.suggestSeason net ∈ validSeasons
      ∧ GeminiBackend.identifyClothingType net ∈ validTypes
      ∧ GeminiBackend.suggestOccasion net ∈ validOccasions
      ∧ GeminiBackend.suggestSeason net ∈ validSeasons
      ∧ OpenAI.identifyClothingType apiKey net ∈ validTypes
      ∧ OpenAI.suggestOccasion apiKey net ∈ validOccasions
      ∧ OpenAI.suggestSeason apiKey net ∈ validSeasons)
  ∧ (∀ net resp, Gemini.analyzeImage net = Ok resp →
      (namesNone validTypes resp = true → GeminiFrontend.identifyClothingType net = "TOP")
      ∧ (namesNoType GeminiBackend.typeMap resp = true →
         GeminiBackend.identifyClothingType net = "TOP")
      ∧ (namesNone validOccasions resp = true →
         GeminiFrontend.suggestOccasion net = "CASUAL"
         ∧ GeminiBackend.suggestOccasion net = "CASUAL")
      ∧ (namesNone validSeasons resp = true →
         GeminiFrontend.suggestSeason net = "ALL_SEASON"
         ∧ GeminiBackend.suggestSeason net = "ALL_SEASON"))
  ∧ (∀ net resp, OpenAI.analyzeImage apiKey net = Ok resp →
      (namesNoType OpenAI.typeMap resp = true → OpenAI.identifyClothingType apiKey net = "TOP")
      ∧ (namesNone validOccasions resp = true → OpenAI.suggestOccasion apiKey net = "CASUAL")
      ∧ (namesNone validSeasons resp = true → OpenAI.suggestSeason apiKey net = "ALL_SEASON")).
Proof.
  repeat apply conj.
  - intros net e E.
    unfold GeminiFrontend.extractColorsFromImage, GeminiFrontend.identifyClothingType,
      GeminiFrontend.suggestOccasion, GeminiFrontend.suggestSeason,
      GeminiFrontend.generateItemName, GeminiBackend.extractColorsFromImage,
      GeminiBackend.identifyClothingType, GeminiBackend.suggestOccasion,
      GeminiBackend.suggestSeason, GeminiBackend.generateItemName.
    rewrite E. repeat split.
  - intros net e E.
    unfold OpenAI.extractColorsFromImage, OpenAI.identifyClothingType,
      OpenAI.suggestOccasion, OpenAI.suggestSeason, OpenAI.generateItemName.
    rewrite E. repeat split.
  - apply gemini_raises_when_failing.
  - apply openai_raises_when_failing.
  - intros net r E Hok Hjson. split.
    + unfold Gemini.analyzeImage. rewrite (geminiFetch_ok net r E Hok). cbn.
      rewrite Hok, Hjson. cbn. eauto.
    + unfold OpenAI.analyzeImage, OpenAI.analyzeImageContent.
      destruct (JsStr.isEmpty apiKey); [cbn; eauto|].
      rewrite (openaiFetch_ok net r E Hok). cbn. rewrite Hok, Hjson. cbn. eauto.
  - intros net r data E Hok Hjson. split; [|split].
    + intros Hc. unfold Gemini.analyzeImage. rewrite (geminiFetch_ok net r E Hok). cbn.
      rewrite Hok, Hjson. cbn. by rewrite (parseResponseText_empty data Hc).
    + intros Hc. unfold OpenAI.analyzeImage, OpenAI.analyzeImageContent.
      destruct (JsStr.isEmpty apiKey); [cbn; eauto|].
      rewrite (openaiFetch_ok net r E Hok). cbn. rewrite Hok, Hjson. cbn.
      assert (∀ d, truthyOpt (OpenAI.contentOf d) = false →
                match OpenAI.contentOf d with
                | Some content => if truthy content then Ok content else Throw NoContent
                | None => Throw NoContent
                end = Throw NoContent) as Hcontent.
      { intros d Hd. destruct (OpenAI.contentOf d) as [v|]; [|done].
        cbn in Hd. by rewrite Hd. }
      destruct data; [cbn; eauto|..];
        (destruct (truthyOpt (member _ "error")); [cbn; eauto|];
         rewrite Hcontent by done; cbn; eauto).
    + intros Htruthy Hcands. unfold Gemini.analyzeImage.
      rewrite (geminiFetch_ok net r E Hok). cbn. rewrite Hok, Hjson. cbn.
      unfold Gemini.parseResponseText. rewrite Htruthy, Hcands. cbn.
      destruct data; try discriminate Hcands. reflexivity.
  - intros net.
    unfold GeminiFrontend.identifyClothingType, GeminiFrontend.suggestOccasion,
      GeminiFrontend.suggestSeason, GeminiBackend.identifyClothingType,
      GeminiBackend.suggestOccasion, GeminiBackend.suggestSeason,
      OpenAI.identifyClothingType, OpenAI.suggestOccasion, OpenAI.suggestSeason.
    assert ("TOP" ∈ validTypes) by in_list.
    assert ("CASUAL" ∈ validOccasions) by in_list.
    assert ("ALL_SEASON" ∈ validSeasons) by in_list.
    destruct (Gemini.analyzeImage net), (OpenAI.analyzeImage apiKey net);
      repeat split;
      auto using pickEnum_valid, pickType_valid, typeMap_backend_valid, typeMap_openai_valid.
  - intros net resp E.
    unfold GeminiFrontend.identifyClothingType, GeminiFrontend.suggestOccasion,
      GeminiFrontend.suggestSeason, GeminiBackend.identifyClothingType,
      GeminiBackend.suggestOccasion, GeminiBackend.suggestSeason.
    rewrite E.
    repeat split; intros; auto using pickEnum_fallback, pickType_fallback.
  - intros net resp E.
    unfold OpenAI.identifyClothingType, OpenAI.suggestOccasion, OpenAI.suggestSeason.
    rewrite E.
    repeat split; intros; auto using pickEnum_fallback, pickType_fallback.
Qed.

(** The HuggingFace adapter when the caption cannot be had.  A caption call
    that raises - it does when there is no key, and when no fetch connects -
    does not reach the [catch] of the five functions: the client answers
    with [simpleTextExtraction] of the prompt, and with the prompts of the
    source the functions return ['TOP'] for the colours, 'ACCESSORY' for the
    type and for the name, 'CASUAL' and 'ALL_SEASON'. *)
Theorem huggingface_answers_from_prompt hfKey errorText (net : Net.Network JValue) fuel :
  (∀ e1 t1 e2 t2,
     HuggingFace.analyzeImage hfKey errorText net fuel [] = (Some (Throw e1), t1) →
     HuggingFace.analyzeImage hfKey errorText net fuel t1 = (Some (Throw e2), t2) →
     JSON_parse "TOP" = None →
     HuggingFace.extractColorsFromImage hfKey errorText net JSON_parse fuel = Some ["TOP"]
     ∧ HuggingFace.identifyClothingType hfKey errorText net fuel = Some "ACCESSORY"
     ∧ HuggingFace.suggestOccasion hfKey errorText net fuel = Some "CASUAL"
     ∧ HuggingFace.suggestSeason hfKey errorText net fuel = Some "ALL_SEASON"
     ∧ HuggingFace.generateItemName hfKey errorText net fuel = Some "ACCESSORY")
  ∧ (∀ trace,
       (JsStr.isEmpty hfKey = true →
        HuggingFace.analyzeImage hfKey errorText net fuel trace
        = (Some (Throw MissingApiKey), trace))
       ∧ (JsStr.isEmpty hfKey = false → (∀ i, ∃ msg, net i = Net.Rejects msg) →
          ∃ msg,
            HuggingFace.analyzeImage hfKey errorText net (S fuel) trace
            = (Some (Throw (TransportError msg)), trace ++ Net.backoffTrace 1000 3))).
Proof.
  split.
  - intros e1 t1 e2 t2 E1 E2 Hparse.
    unfold HuggingFace.extractColorsFromImage, HuggingFace.identifyClothingType,
      HuggingFace.suggestOccasion, HuggingFace.suggestSeason, HuggingFace.generateItemName.
    rewrite !(hf_falls_back hfKey errorText net fuel _ e1 t1 e2 t2 E1 E2).
    cbn [fst]. repeat split; try (vm_compute; reflexivity).
    replace (HuggingFace.simpleTextExtraction HuggingFace.colorsPrompt) with "TOP"
      by (vm_compute; reflexivity).
    replace (matchBracketed "TOP") with (@None string) by (vm_compute; reflexivity).
    unfold OpenAI.colorsFromWhole. rewrite Hparse. vm_compute. reflexivity.
  - intros trace. split.
    + apply hf_no_key.
    + apply hf_no_connection.
Qed.

End Defaults.

(** A network that never connects.  The frontend Gemini adapter raises after
    its retries and the name falls back to 'Unknown Item', not to 'Clothing
    Item'.  The HuggingFace adapter, with a key, raises in both caption calls
    and the type and the name come out as 'ACCESSORY', the colours as
    ['TOP']. *)
Lemma C1_frontend_name_counterexample :
  Gemini.analyzeImage Net.unreachable = Throw (TransportError "connect ECONNREFUSED")
  ∧ GeminiFrontend.generateItemName Net.unreachable = "Unknown Item"
  ∧ (HuggingFace.analyzeImage "hf_test" (λ _, "Unknown error") Net.unreachable 1 []).1
    = Some (Throw (TransportError "connect ECONNREFUSED"))
  ∧ HuggingFace.identifyClothingType "hf_test" (λ _, "Unknown error") Net.unreachable 1
    = Some "ACCESSORY"
  ∧ HuggingFace.generateItemName "hf_test" (λ _, "Unknown error") Net.unreachable 1
    = Some "ACCESSORY"
  ∧ HuggingFace.extractColorsFromImage "hf_test" (λ _, "Unknown error") Net.unreachable
      (λ _, None) 1
    = Some ["TOP"].
Proof. vm_compute. repeat split. Qed.

(** The defaults on a network that never connects, with a key configured
    for the OpenAI client. *)
Lemma C1_defaults_witness :
  GeminiBackend.generateItemName Net.unreachable = "Clothing Item"
  ∧ OpenAI.extractColorsFromImage (λ _, None) "sk-test" Net.unreachable = ["Unknown"]
  ∧ OpenAI.identifyClothingType "sk-test" Net.unreachable = "TOP"
  ∧ OpenAI.generateItemName "sk-test" Net.unreachable = "Clothing Item".
Proof.
  destruct (C1_defaults_on_failure (λ _, None) "sk-test") as (Hg & Ho & _).
  destruct (Hg Net.unreachable (TransportError "connect ECONNREFUSED"))
    as (_ & _ & _ & _ & _ & _ & _ & _ & _ & Hname); [reflexivity|].
  destruct (Ho Net.unreachable (TransportError "connect ECONNREFUSED"))
    as (Hc & Ht & _ & _ & Hn); [reflexivity|].
  repeat split; assumption.
Defined.

(** An answer 200 whose candidates array is empty is no failure of the
    Gemini call: the text is the JSON text of the body, and the name
    functions of both copies return that text, not their default. *)
Lemma empty_candidates_are_no_failure :
  let body := JObj [("candidates", JArr [])] in
  let net : Net.Network JValue := λ _, Net.Resolves (Net.mkResponse 200 (Some body)) in
  Gemini.analyzeImage net = Ok (stringify body)
  ∧ GeminiFrontend.generateItemName net = stringify body
  ∧ GeminiBackend.generateItemName net = stringify body.
Proof. vm_compute. repeat split. Qed.

(** The HuggingFace client without a key, asked for the type and the name. *)
Lemma huggingface_answers_from_prompt_witness :
  HuggingFace.identifyClothingType EmptyString (λ _, "Unknown error") Net.unreachable 1
  = Some "ACCESSORY"
  ∧ HuggingFace.generateItemName EmptyString (λ _, "Unknown error") Net.unreachable 1
    = Some "ACCESSORY".
Proof.
  destruct (huggingface_answers_from_prompt (λ _, None) EmptyString (λ _, "Unknown error")
              Net.unreachable 1%nat) as (Hhf & _).
  destruct (Hhf MissingApiKey [] MissingApiKey []) as (_ & Hty & _ & _ & Hname);
    [reflexivity..|].
  split; assumption.
Defined.

(** A HuggingFace server that is loading its model for good: two calls
    allowed, eight fetches made, nothing returned. *)
Lemma huggingface_waits_witness :
  ∃ trace,
    HuggingFace.analyzeImage "hf_test" (λ _, "Unknown error") (Net.answering 503) 2 []
    = (None, trace)
    ∧ Net.fetches trace = 8%nat.
Proof.
  apply (hf_waits_on_503 "hf_test" (λ _, "Unknown error") 2 []); reflexivity.
Defined.

End ClassifyFacts.

(* ===================================================================== *)
(** ** The item handlers *)
(* ===================================================================== *)

Module StoreFacts.
Import Js Store Http LaundryAction.

Section Facts.
Context `{!Coercions}.
Implicit Types (db : Db) (it : Item) (request : Request) (a : Action).

Lemma parseStatus_name st : parseStatus (statusName st) = Some st.
Proof. by destruct st. Qed.

Lemma whichCase_name a : whichCase (Some (JStr (actionName a))) = Some a.
Proof. by destruct a. Qed.

Lemma whichCase_Some action a :
  whichCase action = Some a → action = Some (JStr (actionName a)).
Proof.
  destruct action as [[]|]; cbn; try done.
  repeat case_decide; subst; intros [= <-]; done.
Qed.

Lemma setField_laundryStatus st it :
  setField "laundryStatus" (JStr (statusName st)) it = Some (set_laundryStatus st it).
Proof. unfold setField. cbn. by rewrite parseStatus_name. Qed.

Lemma findByIdAndUpdate_found id u now db it it' :
  items db !! id = Some it → applyUpdate u it = Some it' →
  findByIdAndUpdate id u now db =
  (Ok (Some (set_updatedAt now it')), set_items (<[id := set_updatedAt now it']> (items db)) db).
Proof. intros E1 E2. unfold findByIdAndUpdate. by rewrite E1, E2. Qed.

(** Both handlers, step by step, for the owner of a stored item. *)
Lemma LaundryRoute_POST_owner db id it request caller body a now :
  items db !! id = Some it → userId it = caller →
  authenticated request = Some caller →
  json_body request = Some body → body ≠ JNull →
  whichCase (member body "action") = Some a →
  ∃ notes payload,
    LaundryRoute.POST request id now db =
    (mkResponse 200 (JsonItem (Some (afterAction (LaundryRoute.countsAsWear a) a now it))),
     mkDb (<[id := afterAction (LaundryRoute.countsAsWear a) a now it]> (items db)) (users db)
       (itemHistory db ++ [mkHistory id (historyAction a) caller notes now])
       (auditLog db ++ [mkAudit caller ("LAUNDRY_" +:+ JsStr.toUpperCase (actionName a))
                          payload (ipAddress request) now])).
Proof.
  intros Hit Hown Hauth Hbody Hnull Hcase.
  unfold LaundryRoute.POST, handle. rewrite Hauth.
  unfold requestJson. rewrite Hbody.
  unfold mbind at 1. unfold ret at 1.
  assert (destructure body = ret (member body)) as -> by (by destruct body).
  unfold mbind at 1. unfold ret at 1.
  unfold mbind at 1. unfold findById at 1. rewrite Hit.
  rewrite Hown, bool_decide_eq_true_2 by done. cbn [negb]. rewrite Hcase.
  unfold mbind at 1.
  rewrite (findByIdAndUpdate_found id _ now db it
             (if LaundryRoute.countsAsWear a
              then set_usageCount (usageCount it + 1) (set_laundryStatus (newStatus a) it)
              else set_laundryStatus (newStatus a) it)); [|done|].
  2:{ unfold applyUpdate, LaundryRoute.updateData. cbn [upd_set upd_inc applySets].
      rewrite setField_laundryStatus.
      destruct (LaundryRoute.countsAsWear a); reflexivity. }
  eexists _, _. reflexivity.
Qed.

Lemma LaundryRouteOld_POST_owner db id it request caller body a now :
  items db !! id = Some it → userId it = caller →
  authenticated request = Some caller →
  json_body request = Some body → body ≠ JNull →
  whichCase (member body "action") = Some a →
  ∃ notes payload,
    LaundryRouteOld.POST request id now db =
    (mkResponse 200 (JsonItem (Some (afterAction (bool_decide (a = mark_worn)) a now it))),
     mkDb (<[id := afterAction (bool_decide (a = mark_worn)) a now it]> (items db)) (users db)
       (itemHistory db ++ [mkHistory id (historyAction a) caller notes now])
       (auditLog db ++ [mkAudit caller ("LAUNDRY_" +:+ JsStr.toUpperCase (actionName a))
                          payload (ipAddress request) now])).
Proof.
  intros Hit Hown Hauth Hbody Hnull Hcase.
  unfold LaundryRouteOld.POST, handle. rewrite Hauth.
  unfold requestJson. rewrite Hbody.
  unfold mbind at 1. unfold ret at 1.
  assert (destructure body = ret (member body)) as -> by (by destruct body).
  unfold mbind at 1. unfold ret at 1.
  unfold mbind at 1. unfold findById at 1. rewrite Hit.
  rewrite Hown, bool_decide_eq_true_2 by done. cbn [negb]. rewrite Hcase.
  destruct (decide (a = mark_worn)) as [->|Hne].
  - unfold LaundryRouteOld.caseEffect. unfold mbind at 1 2.
    rewrite (findByIdAndUpdate_found id _ now db it
               (set_usageCount (usageCount it + 1) it)) by done.
    unfold ret at 1. unfold mbind at 1.
    rewrite (findByIdAndUpdate_found id _ now _
               (set_updatedAt now (set_usageCount (usageCount it + 1) it))
               (set_laundryStatus IN_WARDROBE
                  (set_updatedAt now (set_usageCount (usageCount it + 1) it)))).
    2:{ cbn [items set_items]. apply lookup_insert_eq. }
    2:{ unfold applyUpdate. cbn [upd_set upd_inc applySets newStatus].
        by rewrite (setField_laundryStatus IN_WARDROBE). }
    eexists _, _. cbn [set_items items users itemHistory auditLog].
    rewrite insert_insert_eq. reflexivity.
  - assert (LaundryRouteOld.caseEffect a id now = ret ()) as ->
      by (by destruct a).
    unfold mbind at 1. unfold ret at 1. unfold mbind at 1.
    rewrite (findByIdAndUpdate_found id _ now db it
               (set_laundryStatus (newStatus a) it)); [|done|].
    2:{ unfold applyUpdate. cbn [upd_set upd_inc applySets].
        by rewrite setField_laundryStatus. }
    rewrite bool_decide_eq_false_2 by done.
    eexists _, _. reflexivity.
Qed.

(** Anything but one of the four action strings. *)
Lemma laundry_invalid_action db id it request caller body now :
  items db !! id = Some it → userId it = caller →
  authenticated request = Some caller →
  json_body request = Some body → body ≠ JNull →
  whichCase (member body "action") = None →
  LaundryRoute.POST request id now db = (mkResponse 400 (JsonError "Invalid action"), db)
  ∧ LaundryRouteOld.POST request id now db = (mkResponse 400 (JsonError "Invalid action"), db).
Proof.
  intros Hit Hown Hauth Hbody Hnull Hcase.
  assert (destructure body = ret (member body)) as Hd by (by destruct body).
  split.
  - unfold LaundryRoute.POST, handle. rewrite Hauth.
    unfold requestJson. rewrite Hbody.
    unfold mbind at 1. unfold ret at 1. rewrite Hd.
    unfold mbind, ret, findById, respond. rewrite Hit.
    rewrite Hown, bool_decide_eq_true_2 by done. cbn [negb]. by rewrite Hcase.
  - unfold LaundryRouteOld.POST, handle. rewrite Hauth.
    unfold requestJson. rewrite Hbody.
    unfold mbind at 1. unfold ret at 1. rewrite Hd.
    unfold mbind, ret, findById, respond. rewrite Hit.
    rewrite Hown, bool_decide_eq_true_2 by done. cbn [negb]. by rewrite Hcase.
Qed.

(** *** What an update can write *)

Lemma pick_keys fields keys k : k ∈ (fst <$> ItemRoute.pick fields keys) → k ∈ keys.
Proof.
  unfold ItemRoute.pick. induction keys as [|k' keys IH]; cbn; [done|].
  destruct (fields k'); cbn.
  - intros [->|Hin]%elem_of_cons; [left|right; auto].
  - intros Hin. right. auto.
Qed.

Lemma setField_usageCount k v it it' :
  k ≠ "usageCount" → setField k v it = Some it' → usageCount it' = usageCount it.
Proof.
  intros Hk. unfold setField.
  repeat case_decide; try done; intros Hs;
    first [ by injection Hs as <-
          | apply fmap_Some in Hs as (x & _ & ->); reflexivity ].
Qed.

Lemma applySets_usageCount l it it' :
  "usageCount" ∉ (fst <$> l) → applySets l it = Some it' → usageCount it' = usageCount it.
Proof.
  revert it. induction l as [|[k v] l IH]; intros it Hl; cbn.
  - by intros [= <-].
  - intros Hs. apply bind_Some in Hs as (it1 & H1 & H2).
    cbn in Hl. apply not_elem_of_cons in Hl as [Hk Hl].
    rewrite (IH it1 Hl H2). by apply (setField_usageCount k v).
Qed.

Lemma updateData_no_usageCount fields :
  ("usageCount" ∉ (fst <$> ItemRoute.updateData fields))
  ∧ ("usageCount" ∉ (fst <$> ItemRouteNext.updateData fields)).
Proof.
  split; intros Hin; apply pick_keys in Hin; revert Hin;
    apply (bool_decide_unpack _); vm_compute; exact I.
Qed.

(** *** Ownership *)

(** What every mutation handler does up to the ownership test, for a
    caller who is not the owner. *)
Lemma forbidden_laundry db id it request caller body now :
  items db !! id = Some it → userId it ≠ caller →
  authenticated request = Some caller →
  json_body request = Some body → body ≠ JNull →
  LaundryRoute.POST request id now db = (mkResponse 403 (JsonError "Forbidden"), db)
  ∧ LaundryRouteOld.POST request id now db = (mkResponse 403 (JsonError "Forbidden"), db).
Proof.
  intros Hit Hown Hauth Hbody Hnull.
  assert (destructure body = ret (member body)) as Hd by (by destruct body).
  split.
  - unfold LaundryRoute.POST, handle. rewrite Hauth.
    unfold requestJson. rewrite Hbody.
    unfold mbind at 1. unfold ret at 1. rewrite Hd.
    unfold mbind, ret, findById, respond. rewrite Hit.
    by rewrite bool_decide_eq_false_2 by done.
  - unfold LaundryRouteOld.POST, handle. rewrite Hauth.
    unfold requestJson. rewrite Hbody.
    unfold mbind at 1. unfold ret at 1. rewrite Hd.
    unfold mbind, ret, findById, respond. rewrite Hit.
    by rewrite bool_decide_eq_false_2 by done.
Qed.

Lemma forbidden_put db id it request caller body now :
  items db !! id = Some it → userId it ≠ caller →
  authenticated request = Some caller →
  json_body request = Some body → body ≠ JNull →
  ItemRoute.PUT request id now db = (mkResponse 403 (JsonError "Forbidden"), db)
  ∧ ItemRouteNext.PUT request id now db = (mkResponse 403 (JsonError "Forbidden"), db).
Proof.
  intros Hit Hown Hauth Hbody Hnull.
  assert (destructure body = ret (member body)) as Hd by (by destruct body).
  split.
  - unfold ItemRoute.PUT, handle. rewrite Hauth.
    unfold requestJson. rewrite Hbody.
    unfold mbind at 1. unfold ret at 1. rewrite Hd.
    unfold mbind, ret, findById, respond. rewrite Hit.
    by rewrite bool_decide_eq_false_2 by done.
  - unfold ItemRouteNext.PUT, handle. rewrite Hauth.
    unfold requestJson. rewrite Hbody.
    unfold mbind at 1. unfold ret at 1. rewrite Hd.
    unfold mbind, ret, findById, respond. rewrite Hit.
    by rewrite bool_decide_eq_false_2 by done.
Qed.

Lemma forbidden_delete db id it request caller now :
  items db !! id = Some it → userId it ≠ caller →
  authenticated request = Some caller →
  ItemRoute.DELETE request id now db = (mkResponse 403 (JsonError "Forbidden"), db)
  ∧ ItemRouteNext.DELETE request id now db = (mkResponse 403 (JsonError "Forbidden"), db).
Proof.
  intros Hit Hown Hauth.
  unfold ItemRoute.DELETE, ItemRouteNext.DELETE, handle. rewrite Hauth.
  unfold mbind, ret, findById, respond. rewrite Hit.
  by rewrite bool_decide_eq_false_2 by done.
Qed.

(** The same handlers on an id under which nothing is stored. *)
Lemma not_found db id request caller body now :
  items db !! id = None →
  authenticated request = Some caller →
  json_body request = Some body → body ≠ JNull →
  LaundryRoute.POST request id now db = (mkResponse 404 (JsonError "Item not found"), db)
  ∧ LaundryRouteOld.POST request id now db = (mkResponse 404 (JsonError "Item not found"), db)
  ∧ ItemRoute.PUT request id now db = (mkResponse 404 (JsonError "Item not found"), db)
  ∧ ItemRouteNext.PUT request id now db = (mkResponse 404 (JsonError "Item not found"), db)
  ∧ ItemRoute.DELETE request id now db = (mkResponse 404 (JsonError "Item not found"), db)
  ∧ ItemRouteNext.DELETE request id now db
    = (mkResponse 404 (JsonError "Item not found"), db).
Proof.
  intros Hit Hauth Hbody Hnull.
  assert (destructure body = ret (member body)) as Hd by (by destruct body).
  repeat split.
  - unfold LaundryRoute.POST, handle. rewrite Hauth.
    unfold requestJson. rewrite Hbody.
    unfold mbind at 1. unfold ret at 1. rewrite Hd.
    unfold mbind, ret, findById, respond. by rewrite Hit.
  - unfold LaundryRouteOld.POST, handle. rewrite Hauth.
    unfold requestJson. rewrite Hbody.
    unfold mbind at 1. unfold ret at 1. rewrite Hd.
    unfold mbind, ret, findById, respond. by rewrite Hit.
  - unfold ItemRoute.PUT, handle. rewrite Hauth.
    unfold requestJson. rewrite Hbody.
    unfold mbind at 1. unfold ret at 1. rewrite Hd.
    unfold mbind, ret, findById, respond. by rewrite Hit.
  - unfold ItemRouteNext.PUT, handle. rewrite Hauth.
    unfold requestJson. rewrite Hbody.
    unfold mbind at 1. unfold ret at 1. rewrite Hd.
    unfold mbind, ret, findById, respond. by rewrite Hit.
  - unfold ItemRoute.DELETE, handle. rewrite Hauth.
    unfold mbind, ret, findById, respond. by rewrite Hit.
  - unfold ItemRouteNext.DELETE, handle. rewrite Hauth.
    unfold mbind, ret, findById, respond. by rewrite Hit.
Qed.

(** A body that is no JSON, or the JSON value [null], stops the update and
    laundry handlers before they look at the store. *)
Lemma malformed_body db id request caller now :
  authenticated request = Some caller →
  json_body request = None ∨ json_body request = Some JNull →
  (LaundryRoute.POST request id now db).2 = db
  ∧ (LaundryRoute.POST request id now db).1.(status) = 500
  ∧ (LaundryRouteOld.POST request id now db).2 = db
  ∧ (LaundryRouteOld.POST request id now db).1.(status) = 500
  ∧ (ItemRoute.PUT request id now db).2 = db
  ∧ (ItemRoute.PUT request id now db).1.(status) = 500
  ∧ (ItemRouteNext.PUT request id now db).2 = db
  ∧ (ItemRouteNext.PUT request id now db).1.(status) = 500.
Proof.
  intros Hauth Hbody.
  unfold LaundryRoute.POST, LaundryRouteOld.POST, ItemRoute.PUT, ItemRouteNext.PUT, handle.
  rewrite Hauth. unfold requestJson.
  destruct Hbody as [-> | ->]; repeat split.
Qed.


(** *** The owner's update and delete, and calls without a user id *)

Lemma PUT_owner db id it request caller body now :
  items db !! id = Some it → userId it = caller →
  authenticated request = Some caller →
  json_body request = Some body → body ≠ JNull →
  match applySets (ItemRoute.updateData (member body)) it with
  | Some it' =>
      ∃ h au,
        ItemRoute.PUT request id now db =
        (mkResponse 200 (JsonItem (Some (set_updatedAt now it'))),
         mkDb (<[id := set_updatedAt now it']> (items db)) (users db)
           (itemHistory db ++ [h]) (auditLog db ++ [au]))
  | None =>
      ItemRoute.PUT request id now db
      = (mkResponse 500 (JsonError "Failed to update item"), db)
  end.
Proof.
  intros Hit Hown Hauth Hbody Hnull.
  assert (destructure body = ret (member body)) as Hd by (by destruct body).
  assert (∀ k : _ → M Response,
            handle "Failed to update item"
              (mbind (requestJson request) (λ b, mbind (destructure b) k)) db
            = handle "Failed to update item" (k (member body)) db) as Hstart.
  { intros k. unfold requestJson. rewrite Hbody. unfold handle, mbind at 1 2.
    unfold ret at 1. rewrite Hd. reflexivity. }
  unfold ItemRoute.PUT. rewrite Hauth, Hstart.
  unfold handle, mbind, findById. rewrite Hit.
  rewrite Hown, bool_decide_eq_true_2 by done. cbn [negb].
  unfold findByIdAndUpdate. rewrite Hit.
  unfold applyUpdate. cbn [upd_set upd_inc].
  destruct (applySets _ it) as [it'|];
    cbn [base.mbind option_bind applyIncs]; [|reflexivity].
  eexists _, _. reflexivity.
Qed.

Lemma PUT_next_owner db id it request caller body now :
  items db !! id = Some it → userId it = caller →
  authenticated request = Some caller →
  json_body request = Some body → body ≠ JNull →
  match applySets (ItemRouteNext.updateData (member body)) it with
  | Some it' =>
      ∃ h au,
        ItemRouteNext.PUT request id now db =
        (mkResponse 200 (JsonItem (Some (set_updatedAt now it'))),
         mkDb (<[id := set_updatedAt now it']> (items db)) (users db)
           (itemHistory db ++ [h]) (auditLog db ++ [au]))
  | None =>
      ItemRouteNext.PUT request id now db
      = (mkResponse 500 (JsonError "Failed to update item"), db)
  end.
Proof.
  intros Hit Hown Hauth Hbody Hnull.
  assert (destructure body = ret (member body)) as Hd by (by destruct body).
  assert (∀ k : _ → M Response,
            handle "Failed to update item"
              (mbind (requestJson request) (λ b, mbind (destructure b) k)) db
            = handle "Failed to update item" (k (member body)) db) as Hstart.
  { intros k. unfold requestJson. rewrite Hbody. unfold handle, mbind at 1 2.
    unfold ret at 1. rewrite Hd. reflexivity. }
  unfold ItemRouteNext.PUT. rewrite Hauth, Hstart.
  unfold handle, mbind, findById. rewrite Hit.
  rewrite Hown, bool_decide_eq_true_2 by done. cbn [negb].
  unfold findByIdAndUpdate. rewrite Hit.
  unfold applyUpdate. cbn [upd_set upd_inc].
  destruct (applySets _ it) as [it'|];
    cbn [base.mbind option_bind applyIncs]; [|reflexivity].
  eexists _, _. reflexivity.
Qed.

Lemma DELETE_owner db id it request caller now :
  items db !! id = Some it → userId it = caller →
  authenticated request = Some caller →
  (∃ h au,
     ItemRoute.DELETE request id now db =
     (mkResponse 200 (JsonMessage "Item deleted successfully"),
      mkDb (delete id (items db)) (users db) (itemHistory db ++ [h]) (auditLog db ++ [au])))
  ∧ (∃ au,
     ItemRouteNext.DELETE request id now db =
     (mkResponse 200 (JsonMessage "Item deleted successfully"),
      mkDb (delete id (items db)) (users db)
        (filter (λ h, h_itemId h ≠ id) (itemHistory db)) (auditLog db ++ [au]))).
Proof.
  intros Hit Hown Hauth.
  unfold ItemRoute.DELETE, ItemRouteNext.DELETE, handle. rewrite Hauth.
  unfold mbind, findById. rewrite Hit.
  rewrite Hown, bool_decide_eq_true_2 by done. cbn [negb].
  split; [eexists _, _|eexists _]; reflexivity.
Qed.

Lemma unauthenticated db id request now :
  authenticated request = None →
  LaundryRoute.POST request id now db = (mkResponse 401 (JsonError "Unauthorized"), db)
  ∧ LaundryRouteOld.POST request id now db = (mkResponse 401 (JsonError "Unauthorized"), db)
  ∧ ItemRoute.PUT request id now db = (mkResponse 401 (JsonError "Unauthorized"), db)
  ∧ ItemRouteNext.PUT request id now db = (mkResponse 401 (JsonError "Unauthorized"), db)
  ∧ ItemRoute.DELETE request id now db = (mkResponse 401 (JsonError "Unauthorized"), db)
  ∧ ItemRouteNext.DELETE request id now db = (mkResponse 401 (JsonError "Unauthorized"), db).
Proof.
  intros Hauth.
  unfold LaundryRoute.POST, LaundryRouteOld.POST, ItemRoute.PUT, ItemRouteNext.PUT,
    ItemRoute.DELETE, ItemRouteNext.DELETE, handle.
  rewrite Hauth. repeat split.
Qed.

(** *** Usage counters along a sequence of calls *)

Lemma countersGrow_refl db : Api.countersGrow db db.
Proof. intros id it' Hit. exists it'. split; [done|lia]. Qed.

Lemma countersGrow_trans db1 db2 db3 :
  Api.countersGrow db1 db2 → Api.countersGrow db2 db3 → Api.countersGrow db1 db3.
Proof.
  intros H12 H23 id it3 H3.
  destruct (H23 id it3 H3) as (it2 & H2 & Hle2).
  destruct (H12 id it2 H2) as (it1 & H1 & Hle1).
  exists it1. split; [done|lia].
Qed.

Lemma countersKept_grow db db' : Api.countersKept db db' → Api.countersGrow db db'.
Proof.
  intros HK id it' Hit. destruct (HK id it' Hit) as (it & ? & ?).
  exists it. split; [done|lia].
Qed.

Lemma countersKept_refl db : Api.countersKept db db.
Proof. intros id it' Hit. by exists it'. Qed.

(** The store shapes a call can leave. *)
Lemma countersGrow_insert db db' id it it' :
  items db !! id = Some it → usageCount it ≤ usageCount it' →
  items db' = <[id := it']> (items db) → Api.countersGrow db db'.
Proof.
  intros Hit Hle Hdb id' it'' Hl. rewrite Hdb in Hl.
  destruct (decide (id = id')) as [<-|Hne].
  - rewrite lookup_insert_eq in Hl. injection Hl as <-. by exists it.
  - rewrite lookup_insert_ne in Hl by done. exists it''. split; [done|lia].
Qed.

Lemma countersKept_insert db db' id it it' :
  items db !! id = Some it → usageCount it' = usageCount it →
  items db' = <[id := it']> (items db) → Api.countersKept db db'.
Proof.
  intros Hit Hle Hdb id' it'' Hl. rewrite Hdb in Hl.
  destruct (decide (id = id')) as [<-|Hne].
  - rewrite lookup_insert_eq in Hl. injection Hl as <-. by exists it.
  - rewrite lookup_insert_ne in Hl by done. by exists it''.
Qed.

Lemma countersKept_delete db db' id :
  items db' = delete id (items db) → Api.countersKept db db'.
Proof.
  intros Hdb id' it'' Hl. rewrite Hdb in Hl.
  destruct (decide (id = id')) as [<-|Hne].
  - by rewrite lookup_delete_eq in Hl.
  - rewrite lookup_delete_ne in Hl by done. by exists it''.
Qed.

(** The case analysis every handler starts with. *)
Lemma request_cases request db id :
  authenticated request = None
  ∨ (∃ caller, authenticated request = Some caller
       ∧ (json_body request = None ∨ json_body request = Some JNull))
  ∨ (∃ caller body, authenticated request = Some caller
       ∧ json_body request = Some body ∧ body ≠ JNull
       ∧ (items db !! id = None
          ∨ (∃ it, items db !! id = Some it ∧ userId it ≠ caller)
          ∨ (∃ it, items db !! id = Some it ∧ userId it = caller))).
Proof.
  destruct (authenticated request) as [caller|]; [right|by left].
  destruct (json_body request) as [body|]; [|left; eauto].
  assert (body = JNull ∨ body ≠ JNull) as [->|Hnull]
    by (destruct body; [left|right..]; done).
  { left; eauto. }
  right.
  exists caller, body. do 3 (split; [done|]).
  destruct (items db !! id) as [it|]; [|by left]. right.
  destruct (decide (userId it = caller)); eauto.
Qed.

Lemma laundry_grows request id now db :
  Api.countersGrow db (LaundryRoute.POST request id now db).2
  ∧ Api.countersGrow db (LaundryRouteOld.POST request id now db).2.
Proof.
  destruct (request_cases request db id)
    as [Hauth|[(caller & Hauth & Hbody)|(caller & body & Hauth & Hbody & Hnull & Hitem)]].
  - destruct (unauthenticated db id request now Hauth) as (-> & -> & _).
    split; apply countersGrow_refl.
  - destruct (malformed_body db id request caller now Hauth Hbody) as (-> & _ & -> & _).
    split; apply countersGrow_refl.
  - destruct Hitem as [Hnone|[(it & Hit & Hown)|(it & Hit & Hown)]].
    + destruct (not_found db id request caller body now Hnone Hauth Hbody Hnull)
        as (-> & -> & _).
      split; apply countersGrow_refl.
    + destruct (forbidden_laundry db id it request caller body now Hit Hown Hauth Hbody Hnull)
        as (-> & ->).
      split; apply countersGrow_refl.
    + destruct (whichCase (member body "action")) as [a|] eqn:Hcase.
      * destruct (LaundryRoute_POST_owner db id it request caller body a now)
          as (n1 & p1 & ->); try done.
        destruct (LaundryRouteOld_POST_owner db id it request caller body a now)
          as (n2 & p2 & ->); try done.
        split; (eapply countersGrow_insert; [exact Hit| |reflexivity]);
          unfold afterAction;
          match goal with |- context [if ?b then _ else _] => destruct b end; cbn; lia.
      * destruct (laundry_invalid_action db id it request caller body now) as (-> & ->);
          try done.
        split; apply countersGrow_refl.
Qed.

Lemma update_keeps request id now db :
  Api.countersKept db (ItemRoute.PUT request id now db).2
  ∧ Api.countersKept db (ItemRouteNext.PUT request id now db).2.
Proof.
  destruct (request_cases request db id)
    as [Hauth|[(caller & Hauth & Hbody)|(caller & body & Hauth & Hbody & Hnull & Hitem)]].
  - destruct (unauthenticated db id request now Hauth) as (_ & _ & -> & -> & _).
    split; apply countersKept_refl.
  - destruct (malformed_body db id request caller now Hauth Hbody)
      as (_ & _ & _ & _ & -> & _ & -> & _).
    split; apply countersKept_refl.
  - destruct Hitem as [Hnone|[(it & Hit & Hown)|(it & Hit & Hown)]].
    + destruct (not_found db id request caller body now Hnone Hauth Hbody Hnull)
        as (_ & _ & -> & -> & _).
      split; apply countersKept_refl.
    + destruct (forbidden_put db id it request caller body now Hit Hown Hauth Hbody Hnull)
        as (-> & ->).
      split; apply countersKept_refl.
    + pose proof (PUT_owner db id it request caller body now Hit Hown Hauth Hbody Hnull) as H1.
      pose proof (PUT_next_owner db id it request caller body now Hit Hown Hauth Hbody Hnull)
        as H2.
      destruct (updateData_no_usageCount (member body)) as [Hk1 Hk2].
      split.
      * destruct (applySets (ItemRoute.updateData _) it) as [it'|] eqn:E.
        -- destruct H1 as (h & a & ->).
           eapply countersKept_insert; [exact Hit| |reflexivity].
           cbn. by apply (applySets_usageCount _ _ _ Hk1).
        -- rewrite H1. apply countersKept_refl.
      * destruct (applySets (ItemRouteNext.updateData _) it) as [it'|] eqn:E.
        -- destruct H2 as (h & a & ->).
           eapply countersKept_insert; [exact Hit| |reflexivity].
           cbn. by apply (applySets_usageCount _ _ _ Hk2).
        -- rewrite H2. apply countersKept_refl.
Qed.

Lemma delete_keeps request id now db :
  Api.countersKept db (ItemRoute.DELETE request id now db).2
  ∧ Api.countersKept db (ItemRouteNext.DELETE request id now db).2.
Proof.
  destruct (authenticated request) as [caller|] eqn:Hauth.
  2:{ destruct (unauthenticated db id request now Hauth) as (_ & _ & _ & _ & -> & ->).
      split; apply countersKept_refl. }
  destruct (items db !! id) as [it|] eqn:Hit.
  - destruct (decide (userId it = caller)) as [Hown|Hown].
    + destruct (DELETE_owner db id it request caller now Hit Hown Hauth)
        as [(h & a & ->) (a' & ->)].
      split; by eapply countersKept_delete.
    + destruct (forbidden_delete db id it request caller now Hit Hown Hauth) as (-> & ->).
      split; apply countersKept_refl.
  - unfold ItemRoute.DELETE, ItemRouteNext.DELETE, handle. rewrite Hauth.
    unfold mbind, findById, respond, ret. rewrite Hit.
    split; apply countersKept_refl.
Qed.

Lemma run_grows c db : Api.countersGrow db (Api.run c db).
Proof.
  destruct c as [r i n|r i n|r i n|r i n|r i n|r i n]; cbn [Api.run].
  - exact (proj1 (laundry_grows r i n db)).
  - exact (proj2 (laundry_grows r i n db)).
  - exact (countersKept_grow _ _ (proj1 (update_keeps r i n db))).
  - exact (countersKept_grow _ _ (proj2 (update_keeps r i n db))).
  - exact (countersKept_grow _ _ (proj1 (delete_keeps r i n db))).
  - exact (countersKept_grow _ _ (proj2 (delete_keeps r i n db))).
Qed.

Lemma runAll_grows calls : ∀ db, Api.countersGrow db (Api.runAll calls db).
Proof.
  induction calls as [|c calls IH]; intros db; cbn.
  - apply countersGrow_refl.
  - eapply countersGrow_trans; [apply (run_grows c)|apply IH].
Qed.

(** Both laundry handlers on a call of the owner of a stored item with a
    JSON body: each of the four actions sets [laundryStatus] to its target;
    anything else in [action] is answered with 400 'Invalid action' and the
    store stays as it was; the counter goes up by one on mark_worn in both
    handlers and on mark_laundry in the handler with awaited route parameters
    only. *)
Lemma laundry_actions db id it request caller body now :
  items db !! id = Some it → userId it = caller →
  authenticated request = Some caller →
  json_body request = Some body → body ≠ JNull →
  (∀ a, member body "action" = Some (JStr (actionName a)) →
      statusOf id (LaundryRoute.POST request id now db).2 = Some (newStatus a)
      ∧ statusOf id (LaundryRouteOld.POST request id now db).2 = Some (newStatus a)
      ∧ usageOf id (LaundryRoute.POST request id now db).2
        = Some (usageCount it + if bool_decide (a = mark_worn ∨ a = mark_laundry) then 1 else 0)
      ∧ usageOf id (LaundryRouteOld.POST request id now db).2
        = Some (usageCount it + if bool_decide (a = mark_worn) then 1 else 0))
  ∧ (whichCase (member body "action") = None →
      LaundryRoute.POST request id now db = (mkResponse 400 (JsonError "Invalid action"), db)
      ∧ LaundryRouteOld.POST request id now db
        = (mkResponse 400 (JsonError "Invalid action"), db))
  ∧ (∀ s, s ∉ ["mark_laundry"; "mark_clean"; "mark_worn"; "mark_away"] →
      whichCase (Some (JStr s)) = None)
  ∧ (newStatus <$> [mark_laundry; mark_clean; mark_worn; mark_away])
    = [IN_LAUNDRY; CLEAN; IN_WARDROBE; AWAY]
  ∧ (actionName <$> [mark_laundry; mark_clean; mark_worn; mark_away])
    = ["mark_laundry"; "mark_clean"; "mark_worn"; "mark_away"].
Proof.
  intros Hit Hown Hauth Hbody Hnull.
  split; [|split; [|split; [|split; reflexivity]]].
  - intros a Ha.
    assert (whichCase (member body "action") = Some a) as Hcase
      by (rewrite Ha; apply whichCase_name).
    destruct (LaundryRoute_POST_owner db id it request caller body a now)
      as (n1 & p1 & ->); try done.
    destruct (LaundryRouteOld_POST_owner db id it request caller body a now)
      as (n2 & p2 & ->); try done.
    unfold statusOf, usageOf. cbn [snd items]. rewrite !lookup_insert_eq. cbn [fmap option_fmap option_map].
    unfold afterAction, LaundryRoute.countsAsWear.
    destruct a; cbn; repeat split; try reflexivity;
      repeat match goal with
             | |- context [bool_decide ?P] =>
                 let b := fresh "b" in
                 set (b := bool_decide P); vm_compute in b; subst b
             end; cbn; f_equal; lia.
  - intros Hnone. by apply (laundry_invalid_action db id it request caller body now).
  - intros s Hs. cbn. repeat case_decide; try done; subst; destruct Hs; in_list.
Qed.


(** C3: along every sequence of laundry actions, item updates (a favourite
    toggle is an update) and deletes, through either copy of each route, an
    item that is in the store afterwards was there before with a usage
    counter that is not larger; an update leaves every counter exactly as it
    was, and [usageCount] is not among the keys an update hands to the
    store. *)
Theorem C3_usage_never_decreases calls db :
  Api.countersGrow db (Api.runAll calls db)
  ∧ (∀ id n m, usageOf id db = Some n → usageOf id (Api.runAll calls db) = Some m → n ≤ m)
  ∧ (∀ request id now,
       Api.countersKept db (ItemRoute.PUT request id now db).2
       ∧ Api.countersKept db (ItemRouteNext.PUT request id now db).2)
  ∧ (∀ fields,
       ("usageCount" ∉ (fst <$> ItemRoute.updateData fields))
       ∧ ("usageCount" ∉ (fst <$> ItemRouteNext.updateData fields))).
Proof.
  split; [apply runAll_grows|split; [|split]].
  - intros id n m Hn Hm. unfold usageOf in Hn, Hm.
    apply fmap_Some in Hm as (it' & Hit' & ->).
    destruct (runAll_grows calls db id it' Hit') as (it & Hit & Hle).
    rewrite Hit in Hn. cbn in Hn. injection Hn as <-. exact Hle.
  - intros request id now. apply update_keeps.
  - apply updateData_no_usageCount.
Qed.

(** C4, as the code has it.  The owner marks an item as laundry that is
    IN_LAUNDRY already: the status stays, a MARKED_LAUNDRY entry is appended
    to the history, [updatedAt] becomes the time of the call, and the handler
    with awaited route parameters adds one to [usageCount]; nothing else of
    the item, and no other item, changes.  The handler of part_003 leaves
    the counter. *)
Theorem C4_repeated_mark_laundry db id it request caller body now :
  items db !! id = Some it → userId it = caller →
  authenticated request = Some caller →
  json_body request = Some body → body ≠ JNull →
  member body "action" = Some (JStr "mark_laundry") →
  laundryStatus it = IN_LAUNDRY →
  items (LaundryRoute.POST request id now db).2
  = <[id := set_updatedAt now (set_usageCount (usageCount it + 1) it)]> (items db)
  ∧ items (LaundryRouteOld.POST request id now db).2
    = <[id := set_updatedAt now it]> (items db)
  ∧ statusOf id (LaundryRoute.POST request id now db).2 = Some IN_LAUNDRY
  ∧ statusOf id (LaundryRouteOld.POST request id now db).2 = Some IN_LAUNDRY
  ∧ (∃ notes, itemHistory (LaundryRoute.POST request id now db).2
              = itemHistory db ++ [mkHistory id MARKED_LAUNDRY caller notes now])
  ∧ (∃ notes, itemHistory (LaundryRouteOld.POST request id now db).2
              = itemHistory db ++ [mkHistory id MARKED_LAUNDRY caller notes now]).
Proof.
  intros Hit Hown Hauth Hbody Hnull Haction Hstatus.
  assert (whichCase (member body "action") = Some mark_laundry) as Hcase
    by (by rewrite Haction).
  destruct (LaundryRoute_POST_owner db id it request caller body mark_laundry now)
    as (n1 & p1 & ->); try done.
  destruct (LaundryRouteOld_POST_owner db id it request caller body mark_laundry now)
    as (n2 & p2 & ->); try done.
  assert (set_laundryStatus IN_LAUNDRY it = it) as Hsame
    by (destruct it; cbn in Hstatus; by subst).
  unfold afterAction, LaundryRoute.countsAsWear, statusOf.
  rewrite bool_decide_eq_false_2, bool_decide_eq_true_2 by done.
  cbn [snd items itemHistory newStatus historyAction orb].
  rewrite Hsame, !lookup_insert_eq.
  repeat split; try (by eexists).
  - cbn. by rewrite Hstatus.
  - cbn. by rewrite Hstatus.
Qed.


End Facts.

Section OnTheWardrobe.
Import Examples.

(** C2: the handler of src/unnamed/part_003 on mark_laundry.  Alice moves her
    jeans (worn seven times, in the wardrobe) to the laundry: both handlers
    answer 200 and store IN_LAUNDRY, the handler with awaited route
    parameters counts the wear (8), the other one leaves the counter at 7,
    where the state table asks for an increment.  On mark_worn both count. *)
Theorem C2_legacy_handler_skips_increment :
  let request := laundryRequest "alice" "mark_laundry" in
  let now := 1700000100000 in
  usageOf "item2" wardrobe = Some 7
  ∧ status (LaundryRoute.POST request "item2" now wardrobe).1 = 200
  ∧ status (LaundryRouteOld.POST request "item2" now wardrobe).1 = 200
  ∧ statusOf "item2" (LaundryRoute.POST request "item2" now wardrobe).2 = Some IN_LAUNDRY
  ∧ statusOf "item2" (LaundryRouteOld.POST request "item2" now wardrobe).2 = Some IN_LAUNDRY
  ∧ usageOf "item2" (LaundryRoute.POST request "item2" now wardrobe).2 = Some 8
  ∧ usageOf "item2" (LaundryRouteOld.POST request "item2" now wardrobe).2 = Some 7
  ∧ usageOf "item2"
      (LaundryRouteOld.POST (laundryRequest "alice" "mark_worn") "item2" now wardrobe).2
    = Some 8.
Proof. vm_compute. repeat split. Qed.


(** Alice has worn her jeans and hangs them back. *)
Lemma laundry_actions_witness :
  statusOf "item2" (LaundryRoute.POST (laundryRequest "alice" "mark_worn") "item2"
                      1700000100000 wardrobe).2 = Some IN_WARDROBE
  ∧ usageOf "item2" (LaundryRoute.POST (laundryRequest "alice" "mark_worn") "item2"
                       1700000100000 wardrobe).2 = Some 8
  ∧ usageOf "item2" (LaundryRouteOld.POST (laundryRequest "alice" "mark_worn") "item2"
                       1700000100000 wardrobe).2 = Some 8.
Proof.
  destruct (laundry_actions wardrobe "item2" jeans (laundryRequest "alice" "mark_worn")
              "alice" (JObj [("action", JStr "mark_worn")]) 1700000100000)
    as (Hall & _); [reflexivity..|discriminate|].
  destruct (Hall LaundryAction.mark_worn) as (Hs & _ & Hu & Hu'); [reflexivity|].
  split; [exact Hs|]. split; [exact Hu|exact Hu'].
Defined.

(** Alice marks her shirt, which is in the laundry and was worn three times,
    as laundry once more: the handler of part_015 stores a counter of 4. *)
Lemma C4_repeat_counts_a_wear :
  statusOf "item1" wardrobe = Some IN_LAUNDRY
  ∧ usageOf "item1" wardrobe = Some 3
  ∧ status (LaundryRoute.POST (laundryRequest "alice" "mark_laundry") "item1"
              1700000100000 wardrobe).1 = 200
  ∧ usageOf "item1"
      (LaundryRoute.POST (laundryRequest "alice" "mark_laundry") "item1"
         1700000100000 wardrobe).2 = Some 4
  ∧ updatedAt <$> items
      (LaundryRouteOld.POST (laundryRequest "alice" "mark_laundry") "item1"
         1700000100000 wardrobe).2 !! "item1" = Some 1700000100000
  ∧ updatedAt shirt = 1700000000500.
Proof. vm_compute. repeat split. Qed.

Lemma C4_repeated_mark_laundry_witness :
  items (LaundryRoute.POST (laundryRequest "alice" "mark_laundry") "item1"
           1700000100000 wardrobe).2
  = <[ "item1" := set_updatedAt 1700000100000 (set_usageCount (usageCount shirt + 1) shirt)]>
      (items wardrobe)
  ∧ items (LaundryRouteOld.POST (laundryRequest "alice" "mark_laundry") "item1"
             1700000100000 wardrobe).2
    = <[ "item1" := set_updatedAt 1700000100000 shirt]> (items wardrobe)
  ∧ statusOf "item1" (LaundryRoute.POST (laundryRequest "alice" "mark_laundry") "item1"
                        1700000100000 wardrobe).2 = Some IN_LAUNDRY
  ∧ statusOf "item1" (LaundryRouteOld.POST (laundryRequest "alice" "mark_laundry") "item1"
                        1700000100000 wardrobe).2 = Some IN_LAUNDRY
  ∧ (∃ notes, itemHistory (LaundryRoute.POST (laundryRequest "alice" "mark_laundry") "item1"
                             1700000100000 wardrobe).2
              = itemHistory wardrobe
                ++ [mkHistory "item1" MARKED_LAUNDRY "alice" notes 1700000100000])
  ∧ (∃ notes, itemHistory (LaundryRouteOld.POST (laundryRequest "alice" "mark_laundry") "item1"
                             1700000100000 wardrobe).2
              = itemHistory wardrobe
                ++ [mkHistory "item1" MARKED_LAUNDRY "alice" notes 1700000100000]).
Proof.
  apply (C4_repeated_mark_laundry wardrobe "item1" shirt
           (laundryRequest "alice" "mark_laundry") "alice"
           (JObj [("action", JStr "mark_laundry")]) 1700000100000);
    first [ reflexivity | discriminate ].
Defined.



End OnTheWardrobe.
End StoreFacts.

(* ===================================================================== *)
(** ** Outfit suggestions *)
(* ===================================================================== *)

Module SuggestFacts.
Import Js Store Suggest.

Implicit Types (items : list Doc) (o f s : Outfit) (ids : list string).

(** The comparison of the backfill loop is equality of the two id arrays,
    position by position. *)
Lemma sameIds_eq ids1 ids2 : sameIds ids1 ids2 = true ↔ ids1 = ids2.
Proof.
  unfold sameIds. rewrite andb_true_iff, bool_decide_eq_true. split.
  - intros [Hlen Hall].
    apply Is_true_true, forallb_True in Hall. rewrite Forall_forall in Hall.
    apply (list_eq_same_length _ _ (length ids2)); [done|done|].
    intros i x y _ Hx Hy.
    specialize (Hall (i, x) (elem_of_lookup_imap_2 (λ i v, (i, v)) ids1 x i Hx)).
    apply bool_decide_unpack in Hall. cbn in Hall. congruence.
  - intros ->. split; [done|].
    apply Is_true_true, forallb_True, Forall_forall. intros [i v] Hin.
    apply elem_of_lookup_imap in Hin as (i' & v' & [= -> ->] & Hl).
    by apply bool_decide_pack.
Qed.

Lemma sameIds_false ids1 ids2 : sameIds ids1 ids2 = false ↔ ids1 ≠ ids2.
Proof.
  rewrite <- sameIds_eq. destruct (sameIds ids1 ids2); split; congruence.
Qed.

(** *** The rule-based generator *)

Lemma ofType_head t items d rest : ofType t items = d :: rest → d ∈ items ∧ type d.2 = t.
Proof.
  intros E. assert (d ∈ ofType t items) as Hin by (rewrite E; left).
  unfold ofType in Hin. apply list_elem_of_filter in Hin as [? ?]. done.
Qed.

Lemma ofType_second t items d0 d1 rest :
  ofType t items = d0 :: d1 :: rest → d1 ∈ items.
Proof.
  intros E. assert (d1 ∈ ofType t items) as Hin by (rewrite E; right; left).
  unfold ofType in Hin. by apply list_elem_of_filter in Hin as [? ?].
Qed.

Lemma idOr_cases a b : idOr a b = a ∨ idOr a b = b.
Proof. unfold idOr. destruct (JsStr.nonEmpty a); auto. Qed.

Lemma generateFallbackOutfits_length items : (length (generateFallbackOutfits items) ≤ 3)%nat.
Proof. unfold generateFallbackOutfits. rewrite length_take. lia. Qed.

(** Every outfit of the generator names at least one item, and only items
    it was given. *)
Lemma generateFallbackOutfits_valid items f :
  f ∈ generateFallbackOutfits items →
  itemIds f ≠ [] ∧ ∀ id, id ∈ itemIds f → id ∈ (fst <$> items).
Proof.
  unfold generateFallbackOutfits. cbv zeta. intros Hin. apply subseteq_take in Hin.
  assert (∀ d : Doc, d ∈ items → d.1 ∈ (fst <$> items)) as Hid
    by (intros d Hd; by apply list_elem_of_fmap_2).
  apply elem_of_app in Hin as [Hin|Hin]; [|apply elem_of_app in Hin as [Hin|Hin]].
  - destruct (ofType "TOP" items) as [|t0 tops] eqn:Et; [by apply elem_of_nil in Hin|].
    destruct (ofType "BOTTOM" items) as [|b0 bottoms] eqn:Eb; [by apply elem_of_nil in Hin|].
    apply list_elem_of_singleton in Hin as ->. cbn [itemIds]. split; [done|].
    apply ofType_head in Et as [Ht _]. apply ofType_head in Eb as [Hb _].
    intros id [->|[->|Hw]%elem_of_cons]%elem_of_cons; [auto..|].
    destruct (ofType "OUTERWEAR" items) as [|w ws] eqn:Ew; [by apply elem_of_nil in Hw|].
    apply list_elem_of_singleton in Hw as ->. apply ofType_head in Ew as [Hw _]. auto.
  - destruct (ofType "DRESS" items) as [|d0 dresses] eqn:Ed; [by apply elem_of_nil in Hin|].
    apply list_elem_of_singleton in Hin as ->. cbn [itemIds]. split; [done|].
    apply ofType_head in Ed as [Hd _].
    intros id Hx%list_elem_of_singleton. subst. auto.
  - destruct (ofType "TOP" items) as [|t0 [|t1 tops]] eqn:Et;
      try (by apply elem_of_nil in Hin).
    destruct (ofType "BOTTOM" items) as [|b0 [|b1 bottoms]] eqn:Eb;
      try (by apply elem_of_nil in Hin).
    apply list_elem_of_singleton in Hin as ->. cbn [itemIds]. split; [done|].
    pose proof (ofType_second _ _ _ _ _ Et) as Ht1.
    pose proof (ofType_second _ _ _ _ _ Eb) as Hb1.
    apply ofType_head in Et as [Ht0 _]. apply ofType_head in Eb as [Hb0 _].
    intros id [->|Hx%list_elem_of_singleton]%elem_of_cons; subst.
    + destruct (idOr_cases t1.1 t0.1) as [-> | ->]; auto.
    + destruct (idOr_cases b1.1 b0.1) as [-> | ->]; auto.
Qed.

(** *** The backfill loop *)

(** The loop leaves the validated proposals in front and adds outfits of
    the generator behind them, each with an id array that no validated
    proposal has; it adds nothing to three proposals or more. *)
Lemma backfill_spec fallback : ∀ validated,
  ∃ added,
    backfill validated fallback = validated ++ added
    ∧ added ⊆ fallback
    ∧ (∀ f s, f ∈ added → s ∈ validated → itemIds s ≠ itemIds f).
Proof.
  induction fallback as [|f rest IH]; intros validated; cbn [backfill].
  - exists []. rewrite app_nil_r. repeat split; [done|by intros ?? ?%elem_of_nil].
  - destruct (existsb (λ s, sameIds (itemIds s) (itemIds f)) validated) eqn:Hex.
    + case_bool_decide as Hlen.
      * exists []. rewrite app_nil_r.
        repeat split; [by intros ? ?%elem_of_nil|by intros ?? ?%elem_of_nil].
      * destruct (IH validated) as (added & -> & Hsub & Hnew).
        exists added. repeat split; [intros x Hx; right; by apply Hsub|done].
    + assert (∀ s, s ∈ validated → itemIds s ≠ itemIds f) as Hf.
      { intros s Hs. apply sameIds_false.
        destruct (sameIds (itemIds s) (itemIds f)) eqn:E; [|done].
        assert (existsb (λ s, sameIds (itemIds s) (itemIds f)) validated = true) as Ht
          by (apply Is_true_true, existb_True, Exists_exists; exists s;
              split; [done|by apply Is_true_true]).
        congruence. }
      case_bool_decide as Hlen.
      * exists [f]. repeat split.
        -- intros x Hx%list_elem_of_singleton. subst. left.
        -- intros f' s Hx%list_elem_of_singleton. subst. auto.
      * destruct (IH (validated ++ [f])) as (added & -> & Hsub & Hnew).
        exists (f :: added). rewrite <- app_assoc. repeat split.
        -- intros x [->|Hx]%elem_of_cons; [left|right; auto].
        -- intros f' s [->|Hf']%elem_of_cons Hs; [auto|].
           apply (Hnew f' s Hf'). apply elem_of_app. by left.
Qed.

(** *** Validation, backfill and the cut *)

Lemma existsb_sameIds validated f :
  existsb (λ s, sameIds (itemIds s) (itemIds f)) validated = true ↔
  itemIds f ∈ itemIds <$> validated.
Proof.
  rewrite <- Is_true_true, existb_True, Exists_exists, list_elem_of_fmap.
  split.
  - intros (s & Hs & Heq). apply Is_true_true, sameIds_eq in Heq. eauto.
  - intros (s & Heq & Hs). exists s. split; [done|]. by apply Is_true_true, sameIds_eq.
Qed.

(** The loop goes through the outfits of the generator in their order and
    stops as soon as there are three proposals.  Every outfit it has visited
    is in the result by its id array: it was there, or it has been added.
    No id array is added twice. *)
Lemma backfill_visits fallback : ∀ validated,
  (length validated < 3)%nat →
  ∃ added n,
    backfill validated fallback = validated ++ added
    ∧ added `sublist_of` take n fallback
    ∧ NoDup (itemIds <$> added)
    ∧ (∀ f, f ∈ added → itemIds f ∉ itemIds <$> validated)
    ∧ (∀ f, f ∈ take n fallback → itemIds f ∈ itemIds <$> (validated ++ added))
    ∧ ((n < length fallback)%nat → length (validated ++ added) = 3%nat)
    ∧ (length (validated ++ added) ≤ 3)%nat.
Proof.
  induction fallback as [|f rest IH]; intros validated Hlt; cbn [backfill].
  - exists [], O. rewrite app_nil_r. cbn.
    repeat split; try done; try lia.
    + constructor.
    + by intros ? ?%elem_of_nil.
    + by intros ? ?%elem_of_nil.
  - destruct (existsb (λ s, sameIds (itemIds s) (itemIds f)) validated) eqn:Hex.
    + apply existsb_sameIds in Hex.
      rewrite bool_decide_eq_false_2 by lia.
      destruct (IH validated Hlt) as (added & n & -> & Hsub & Hnd & Hnew & Hall & Hstop & Hlen).
      exists added, (S n). cbn [take length].
      split; [done|]. split; [by apply sublist_cons|]. split; [done|]. split; [done|].
      split; [|split; [intros; apply Hstop; lia|done]].
      intros f' [->|Hf']%elem_of_cons; [|by apply Hall].
      rewrite fmap_app. apply elem_of_app. by left.
    + assert (itemIds f ∉ itemIds <$> validated) as Hf.
      { intros Hin%existsb_sameIds. congruence. }
      case_bool_decide as Hfull.
      * exists [f], 1%nat. rewrite length_app in *. cbn [take length] in *.
        split; [done|]. split; [done|]. split; [repeat constructor; by intros ?%elem_of_nil|].
        split; [by intros f' ->%list_elem_of_singleton|].
        split; [|split; lia].
        intros f' ->%list_elem_of_singleton.
        rewrite fmap_app. apply elem_of_app. right. left.
      * rewrite length_app in Hfull. cbn [length] in Hfull.
        destruct (IH (validated ++ [f])) as (added & n & -> & Hsub & Hnd & Hnew & Hall & Hstop & Hlen).
        { rewrite length_app. cbn [length]. lia. }
        exists (f :: added), (S n). cbn [take length]. rewrite <- !app_assoc in *.
        cbn [app] in *.
        split; [done|]. split; [by apply sublist_skip|].
        split.
        { cbn [fmap list_fmap]. apply NoDup_cons. split; [|done].
          intros (f' & Heq & Hf')%list_elem_of_fmap.
          apply (Hnew f' Hf'). rewrite fmap_app, <- Heq. apply elem_of_app. right. left. }
        split.
        { intros f' [->|Hf']%elem_of_cons; [done|].
          intros Hin. apply (Hnew f' Hf'). rewrite fmap_app. apply elem_of_app. by left. }
        split; [|split; [intros; apply Hstop; lia|done]].
        intros f' [->|Hf']%elem_of_cons; [|by apply Hall].
        rewrite fmap_app. apply elem_of_app. right. left.
Qed.

(** Outfits of the generator whose id arrays differ from each other and from
    those of the proposals, and that fit into the three places: all of them
    are added, in their order. *)
Lemma backfill_all fallback : ∀ validated,
  (length validated < 3)%nat →
  (length validated + length fallback ≤ 3)%nat →
  NoDup (itemIds <$> fallback) →
  (∀ f, f ∈ fallback → itemIds f ∉ itemIds <$> validated) →
  backfill validated fallback = validated ++ fallback.
Proof.
  induction fallback as [|f rest IH]; intros validated Hlt Hfit Hnd Hnew; cbn [backfill].
  - by rewrite app_nil_r.
  - cbn [length fmap list_fmap] in *. apply NoDup_cons in Hnd as [Hf Hnd].
    destruct (existsb (λ s, sameIds (itemIds s) (itemIds f)) validated) eqn:Hex.
    { apply existsb_sameIds in Hex. destruct (Hnew f); [left|done]. }
    rewrite length_app. cbn [length]. case_bool_decide as Hfull.
    + destruct rest; [done|]. cbn [length] in Hfit. lia.
    + rewrite IH, <- app_assoc; [done|rewrite length_app; cbn; lia|rewrite length_app; cbn; lia|done|].
      intros f' Hf'. rewrite fmap_app. intros [Hin|Hin%list_elem_of_singleton]%elem_of_app.
      * apply (Hnew f'); [by right|done].
      * apply Hf. rewrite <- Hin. by apply list_elem_of_fmap_2.
Qed.

Lemma keepValid_ids items o id :
  id ∈ itemIds (keepValid (fst <$> items) o) ↔ id ∈ itemIds o ∧ id ∈ (fst <$> items).
Proof. unfold keepValid. cbn [itemIds]. rewrite list_elem_of_filter. tauto. Qed.

Lemma validate_elem items outfitSuggestions o :
  o ∈ validate items outfitSuggestions ↔
  ∃ o', o' ∈ outfitSuggestions ∧ o = keepValid (fst <$> items) o' ∧ itemIds o ≠ [].
Proof.
  unfold validate. cbv zeta. rewrite list_elem_of_filter, list_elem_of_fmap.
  assert ((0 < length (itemIds o))%nat ↔ itemIds o ≠ []) as ->
    by (destruct (itemIds o); cbn; split; (lia || done)).
  split.
  - intros [Hne (o' & -> & Hin)]. eauto.
  - intros (o' & Hin & -> & Hne). eauto.
Qed.

Lemma finish_spec items outfitSuggestions :
  ∃ added,
    finish items outfitSuggestions = take 3 (validate items outfitSuggestions ++ added)
    ∧ ((3 ≤ length (validate items outfitSuggestions))%nat → added = [])
    ∧ added ⊆ generateFallbackOutfits items
    ∧ (∀ f s, f ∈ added → s ∈ validate items outfitSuggestions → itemIds s ≠ itemIds f).
Proof.
  unfold finish. cbv zeta. case_bool_decide as Hlen.
  - destruct (backfill_spec (generateFallbackOutfits items) (validate items outfitSuggestions))
      as (added & -> & Hsub & Hnew).
    exists added. repeat split; [lia|done..].
  - exists []. rewrite app_nil_r.
    repeat split; [by intros ? ?%elem_of_nil|by intros ?? ?%elem_of_nil].
Qed.

(** The same for the answer: the outfits added to fewer than three
    validated proposals are the ones the loop has met before it stopped,
    less those whose id array was there already. *)
Lemma finish_visits items outfitSuggestions :
  ∃ added n,
    finish items outfitSuggestions = take 3 (validate items outfitSuggestions ++ added)
    ∧ ((3 ≤ length (validate items outfitSuggestions))%nat → added = [])
    ∧ added ⊆ generateFallbackOutfits items
    ∧ (∀ f s, f ∈ added → s ∈ validate items outfitSuggestions → itemIds s ≠ itemIds f)
    ∧ added `sublist_of` take n (generateFallbackOutfits items)
    ∧ NoDup (itemIds <$> added)
    ∧ ((length (validate items outfitSuggestions) < 3)%nat →
         (∀ f, f ∈ take n (generateFallbackOutfits items) →
               itemIds f ∈ itemIds <$> (validate items outfitSuggestions ++ added))
         ∧ ((n < length (generateFallbackOutfits items))%nat →
              length (validate items outfitSuggestions ++ added) = 3%nat)
         ∧ (length (validate items outfitSuggestions ++ added) ≤ 3)%nat).
Proof.
  unfold finish. cbv zeta. case_bool_decide as Hlen.
  - destruct (backfill_visits (generateFallbackOutfits items)
                (validate items outfitSuggestions) Hlen)
      as (added & n & -> & Hsub & Hnd & Hnew & Hall & Hstop & Hle).
    exists added, n. split; [done|]. split; [lia|].
    split.
    { intros f Hf. apply (subseteq_take n). revert f Hf.
      apply sublist_subseteq. done. }
    split.
    { intros f s Hf Hs Heq. apply (Hnew f Hf). rewrite <- Heq. by apply list_elem_of_fmap_2. }
    done.
  - exists [], O. rewrite app_nil_r. cbn [take].
    split; [done|]. split; [done|]. split; [by intros ? ?%elem_of_nil|].
    split; [by intros ?? ?%elem_of_nil|]. split; [done|]. split; [constructor|lia].
Qed.

(** Validated proposals and outfits of the generator that have pairwise
    different id arrays and are three or fewer together: the answer is all
    of them, the proposals first. *)
Lemma finish_all items outfitSuggestions :
  (length (validate items outfitSuggestions) + length (generateFallbackOutfits items) ≤ 3)%nat →
  NoDup (itemIds <$> generateFallbackOutfits items) →
  (∀ f, f ∈ generateFallbackOutfits items →
        itemIds f ∉ itemIds <$> validate items outfitSuggestions) →
  finish items outfitSuggestions
  = validate items outfitSuggestions ++ generateFallbackOutfits items.
Proof.
  intros Hfit Hnd Hnew. unfold finish. cbv zeta. case_bool_decide as Hlen.
  - rewrite backfill_all by done. apply take_ge. by rewrite length_app.
  - destruct (generateFallbackOutfits items); [|cbn [length] in Hfit; lia].
    rewrite app_nil_r. apply take_ge. cbn [length] in Hfit. lia.
Qed.

Lemma finish_length items outfitSuggestions :
  (length (finish items outfitSuggestions) ≤ 3)%nat.
Proof. unfold finish. rewrite length_take. lia. Qed.

Lemma finish_valid items outfitSuggestions o :
  o ∈ finish items outfitSuggestions →
  itemIds o ≠ [] ∧ ∀ id, id ∈ itemIds o → id ∈ (fst <$> items).
Proof.
  destruct (finish_spec items outfitSuggestions) as (added & -> & _ & Hsub & _).
  intros [Hin|Hin]%subseteq_take%elem_of_app.
  - apply validate_elem in Hin as (o' & _ & -> & Hne). split; [done|].
    intros id Hid. by apply keepValid_ids in Hid as [_ ?].
  - by apply generateFallbackOutfits_valid, Hsub.
Qed.

(** *** The handler *)

Section Handler.
Variable JSON_parse : string → option JValue.

Lemma authenticated_nonEmpty request uid :
  Http.authenticated request = Some uid → JsStr.nonEmpty uid = true.
Proof.
  unfold Http.authenticated. destruct (Http.x_user_id request) as [u|]; [|done].
  destruct (JsStr.nonEmpty u) eqn:E; [|done]. by intros [= <-].
Qed.

(** No key, or a call of the model that raises: the answer is what the
    generator gives, flagged as fallback. *)
Lemma POST_fallback request envKey net db uid body :
  Http.authenticated request = Some uid →
  Http.json_body request = Some body →
  member body "userId" = Some (JStr uid) →
  (2 ≤ length (wardrobe uid db))%nat →
  (Upload.truthyStr envKey = false
   ∨ ∃ e, OpenAI.generateText (JsStr.trim (default EmptyString envKey)) net = Throw e) →
  POST JSON_parse request envKey net db
  = mkResponse 200 (Suggestions (generateFallbackOutfits (wardrobe uid db)) true).
Proof.
  intros Hauth Hbody Huid Hlen Hfail. unfold POST. rewrite Hauth, Hbody.
  assert (body ≠ JNull) as Hnull by (intros ->; discriminate Huid).
  rewrite Huid. cbn [truthyOpt truthy ItemsRoute.differsFrom].
  rewrite (authenticated_nonEmpty _ _ Hauth), bool_decide_eq_true_2 by done.
  cbn [negb orb]. rewrite bool_decide_eq_false_2 by lia.
  destruct body; try done;
    (destruct (Upload.truthyStr envKey) eqn:Hkey; cbn [negb]; [|done];
     destruct Hfail as [?|[e ->]]; [congruence|done]).
Qed.

Lemma POST_at_most_three request envKey net db suggestions fallback :
  payload (POST JSON_parse request envKey net db) = Suggestions suggestions fallback →
  (length suggestions ≤ 3)%nat.
Proof.
  unfold POST.
  repeat match goal with
         | |- context [match ?x with _ => _ end] => destruct x
         end;
    cbn [payload]; try done; intros [= <- _];
    first [ apply generateFallbackOutfits_length | apply finish_length ].
Qed.

End Handler.

(** C6, as the code has it.  Of every proposal the ids of [items] are kept
    and the others dropped, and a proposal left without an id is discarded.
    The answer is the first three of the validated proposals followed by
    outfits of the rule-based generator; outfits are added only to fewer
    than three validated proposals, and an added outfit has an id array that
    no validated proposal has (arrays are compared position by position, so
    the same ids in another order count as different).  To fewer than three
    validated proposals the outfits of the generator are added in their
    order until there are three suggestions: the loop goes through the
    first [n] of them, every one of these is in the answer by its id array
    (it was among the proposals, or it has been added, once), and outfits
    are left unvisited only when three suggestions are reached.  So
    when the proposals and the outfits of the generator have pairwise
    different id arrays and are three or fewer together, the answer is all
    of them.  The answer has at most three suggestions, each with at least
    one id and ids of [items] only. *)
Theorem C6_validation_and_backfill items outfitSuggestions :
  (∀ o id, id ∈ itemIds (keepValid (fst <$> items) o) ↔ id ∈ itemIds o ∧ id ∈ (fst <$> items))
  ∧ (∀ o, o ∈ validate items outfitSuggestions ↔
       ∃ o', o' ∈ outfitSuggestions ∧ o = keepValid (fst <$> items) o' ∧ itemIds o ≠ [])
  ∧ (∃ added n,
       finish items outfitSuggestions = take 3 (validate items outfitSuggestions ++ added)
       ∧ ((3 ≤ length (validate items outfitSuggestions))%nat → added = [])
       ∧ added ⊆ generateFallbackOutfits items
       ∧ (∀ f s, f ∈ added → s ∈ validate items outfitSuggestions →
            itemIds s ≠ itemIds f)
       ∧ added `sublist_of` take n (generateFallbackOutfits items)
       ∧ NoDup (itemIds <$> added)
       ∧ ((length (validate items outfitSuggestions) < 3)%nat →
            (∀ f, f ∈ take n (generateFallbackOutfits items) →
                  itemIds f ∈ itemIds <$> (validate items outfitSuggestions ++ added))
            ∧ ((n < length (generateFallbackOutfits items))%nat →
                 length (validate items outfitSuggestions ++ added) = 3%nat)
            ∧ (length (validate items outfitSuggestions ++ added) ≤ 3)%nat))
  ∧ ((length (validate items outfitSuggestions)
      + length (generateFallbackOutfits items) ≤ 3)%nat →
     NoDup (itemIds <$> generateFallbackOutfits items) →
     (∀ f, f ∈ generateFallbackOutfits items →
           itemIds f ∉ itemIds <$> validate items outfitSuggestions) →
     finish items outfitSuggestions
     = validate items outfitSuggestions ++ generateFallbackOutfits items)
  ∧ (∀ ids1 ids2, sameIds ids1 ids2 = true ↔ ids1 = ids2)
  ∧ (length (finish items outfitSuggestions) ≤ 3)%nat
  ∧ (∀ o, o ∈ finish items outfitSuggestions →
       itemIds o ≠ [] ∧ ∀ id, id ∈ itemIds o → id ∈ (fst <$> items))
  ∧ (∀ JSON_parse request envKey net db suggestions fallback,
       payload (POST JSON_parse request envKey net db) = Suggestions suggestions fallback →
       (length suggestions ≤ 3)%nat).
Proof.
  split; [intros o id; apply keepValid_ids|].
  split; [intros o; apply validate_elem|].
  split; [apply finish_visits|].
  split; [apply finish_all|].
  split; [apply sameIds_eq|].
  split; [apply finish_length|].
  split; [intros o; apply finish_valid|].
  apply POST_at_most_three.
Qed.

(** C7: the generator on a blouse a, a skirt b and a dress c, in any
    order: two outfits, the pair a, b and the dress c alone. *)
Theorem C7_fallback_scenario (ia ib ic : Item) items :
  type ia = "TOP" → type ib = "BOTTOM" → type ic = "DRESS" →
  items ≡ₚ [("a", ia); ("b", ib); ("c", ic)] →
  itemIds <$> generateFallbackOutfits items = [["a"; "b"]; ["c"]].
Proof.
  intros Ha Hb Hc Hperm.
  assert (∀ t, ofType t items
               ≡ₚ filter (λ d : Doc, type d.2 = t) [("a", ia); ("b", ib); ("c", ic)]) as Hof
    by (intros t; unfold ofType; by rewrite Hperm).
  assert (ofType "TOP" items = [("a", ia)]) as Et.
  { apply Permutation_singleton_r. rewrite Hof, !filter_cons, filter_nil.
    cbn [snd]. rewrite Ha, Hb, Hc. reflexivity. }
  assert (ofType "BOTTOM" items = [("b", ib)]) as Eb.
  { apply Permutation_singleton_r. rewrite Hof, !filter_cons, filter_nil.
    cbn [snd]. rewrite Ha, Hb, Hc. reflexivity. }
  assert (ofType "DRESS" items = [("c", ic)]) as Ed.
  { apply Permutation_singleton_r. rewrite Hof, !filter_cons, filter_nil.
    cbn [snd]. rewrite Ha, Hb, Hc. reflexivity. }
  assert (ofType "OUTERWEAR" items = []) as Ew.
  { apply Permutation_nil_r. rewrite Hof, !filter_cons, filter_nil.
    cbn [snd]. rewrite Ha, Hb, Hc. reflexivity. }
  unfold generateFallbackOutfits. cbv zeta. rewrite Et, Eb, Ed, Ew. reflexivity.
Qed.

Section OnTheCloset.
Import Examples.

(** The model proposes the skirt with the blouse, skirt first; the generator
    pairs the same two, blouse first, and that outfit is added: two of the
    three suggestions have the id set a, b. *)
Lemma C6_same_id_set_twice :
  itemIds <$> validate closetItems [proposal ["b"; "a"]] = [["b"; "a"]]
  ∧ itemIds <$> generateFallbackOutfits closetItems = [["a"; "b"]; ["c"]]
  ∧ itemIds <$> finish closetItems [proposal ["b"; "a"]] = [["b"; "a"]; ["a"; "b"]; ["c"]]
  ∧ match payload (POST parseSkirtFirst suggestRequest (Some "sk-test")
                     (completion (stringify skirtFirst)) closet) with
    | Suggestions suggestions false =>
        itemIds <$> suggestions = [["b"; "a"]; ["a"; "b"]; ["c"]]
    | _ => False
    end.
Proof. vm_compute. repeat split. Qed.

(** Nothing usable comes from the model for Carol's closet: the answer is
    the two outfits of the generator. *)
Lemma C6_validation_and_backfill_witness :
  itemIds <$> finish closetItems [] = [["a"; "b"]; ["c"]].
Proof.
  destruct (C6_validation_and_backfill closetItems []) as (_ & _ & _ & Hall & _).
  rewrite Hall.
  - vm_compute. reflexivity.
  - vm_compute. lia.
  - apply (bool_decide_unpack _). vm_compute. exact I.
  - intros f _ Hin. by apply elem_of_nil in Hin.
Defined.

Lemma C7_fallback_scenario_witness :
  itemIds <$> generateFallbackOutfits closetItems = [["a"; "b"]; ["c"]].
Proof.
  apply (C7_fallback_scenario blouse skirt sundress closetItems); reflexivity.
Defined.

(** The same scenario through the handler: the model cannot be reached, or
    there is no key. *)
Lemma fallback_scenario_through_handler :
  POST parseSkirtFirst suggestRequest (Some "sk-test") Net.unreachable closet
  = mkResponse 200 (Suggestions (generateFallbackOutfits (Suggest.wardrobe "carol" closet)) true)
  ∧ POST parseSkirtFirst suggestRequest None Net.unreachable closet
    = mkResponse 200 (Suggestions (generateFallbackOutfits (Suggest.wardrobe "carol" closet)) true)
  ∧ Suggest.wardrobe "carol" closet ≡ₚ closetItems
  ∧ itemIds <$> generateFallbackOutfits (Suggest.wardrobe "carol" closet) = [["a"; "b"]; ["c"]].
Proof.
  split; [|split; [|split]].
  - apply (POST_fallback _ _ _ _ _ "carol" (JObj [("userId", JStr "carol");
                                                  ("occasion", JStr "FORMAL")]));
      [reflexivity..| |].
    + vm_compute. lia.
    + right. eexists. vm_compute. reflexivity.
  - apply (POST_fallback _ _ _ _ _ "carol" (JObj [("userId", JStr "carol");
                                                  ("occasion", JStr "FORMAL")]));
      [reflexivity..| |].
    + vm_compute. lia.
    + by left.
  - replace (Suggest.wardrobe "carol" closet)
      with [("c", sundress); ("a", blouse); ("b", skirt)] by (vm_compute; reflexivity).
    apply (Permutation_cons_append [("a", blouse); ("b", skirt)]).
  - vm_compute. reflexivity.
Defined.

End OnTheCloset.
End SuggestFacts.

(* ===================================================================== *)
(** ** Creating items *)
(* ===================================================================== *)

Module CreateFacts.
Import Js Store.

Section Facts.
Context `{!Coercions}.

(** What the schema lets through is what the constructor was given: the
    counter, the favourite flag, the status and the owner as they are, the
    name trimmed and not empty. *)
Lemma validate_Some init now item :
  Http.validate init now = Some item →
  usageCount item = Http.i_usageCount init
  ∧ isFavorite item = Http.i_isFavorite init
  ∧ laundryStatus item = Http.i_laundryStatus init
  ∧ userId item = Http.i_userId init
  ∧ (∃ s, Http.i_name init ≫= castString = Some s ∧ name item = JsStr.trim s)
  ∧ JsStr.nonEmpty (name item) = true.
Proof.
  unfold Http.validate. intros Hv.
  apply bind_Some in Hv as (n & Hn & Hv).
  apply fmap_Some in Hn as (s & Hs & ->).
  repeat (apply bind_Some in Hv as (? & _ & Hv)).
  destruct (JsStr.nonEmpty (JsStr.trim s)) eqn:Hne; [|done].
  cbn [andb] in Hv.
  match type of Hv with (if ?b then _ else _) = _ => destruct b; [|done] end.
  injection Hv as <-. cbn. eauto 10.
Qed.

Lemma save_Ok newId init now db item db' :
  Http.save newId init now db = (Ok item, db') →
  Http.validate init now = Some item
  ∧ items db !! newId = None
  ∧ db' = set_items (<[newId := item]> (items db)) db.
Proof.
  unfold Http.save. destruct (Http.validate init now) as [i|]; [|done].
  destruct (items db !! newId); [done|]. by intros [= -> <-].
Qed.

(** The three handlers that create an item, on their success path. *)
Lemma ItemsRoute_POST_created request newId now db :
  Http.status (ItemsRoute.POST request newId now db).1 = 201 →
  ∃ init item,
    Http.validate init now = Some item
    ∧ Http.i_usageCount init = 0 ∧ Http.i_isFavorite init = false
    ∧ items db !! newId = None
    ∧ items (ItemsRoute.POST request newId now db).2 = <[newId := item]> (items db)
    ∧ Http.payload (ItemsRoute.POST request newId now db).1 = Http.JsonItem (Some item).
Proof.
  unfold ItemsRoute.POST, Http.handle, mbind, Http.requestJson, Http.destructure,
    Http.respond, ret, raise, Http.ItemHistory_create, Http.AuditLog_create.
  repeat (cbv beta; branch); cbn [fst snd Http.status Http.payload]; try discriminate.
  intros _.
  match goal with Hs : Http.save _ _ _ _ = _ |- _ => apply save_Ok in Hs as (Hv & Hnone & ->) end.
  eexists _, _. split; [exact Hv|]. by repeat split.
Qed.

Section Uploads.
Variable JSON_parse : string → option JValue.

Lemma UploadRoute_POST_created request nets newId now db :
  Upload.status (UploadRoute.POST JSON_parse request nets newId now db).1 = 200 →
  ∃ init item,
    Http.validate init now = Some item
    ∧ Http.i_usageCount init = 0 ∧ Http.i_isFavorite init = false
    ∧ items db !! newId = None
    ∧ items (UploadRoute.POST JSON_parse request nets newId now db).2
      = <[newId := item]> (items db)
    ∧ ∃ overrides aiAnalysis,
        Upload.payload (UploadRoute.POST JSON_parse request nets newId now db).1
        = Upload.UploadSuccess newId item overrides aiAnalysis.
Proof.
  unfold UploadRoute.POST, Upload.handle, mbind, Upload.requestForm,
    Upload.respond, ret, raise, Http.ItemHistory_create, Http.AuditLog_create.
  repeat (cbv beta zeta; branch); cbn [fst snd Upload.status Upload.payload];
    try discriminate.
  intros _.
  match goal with Hs : Http.save _ _ _ _ = _ |- _ => apply save_Ok in Hs as (Hv & Hnone & ->) end.
  eexists _, _. split; [exact Hv|]. repeat split; [done|]. by eexists _, _.
Qed.

End Uploads.

(** The backend upload on its success path: what is stored and what is
    answered. *)
Lemma UploadRouteBackend_POST_created request blobs envKey net newId now db :
  Upload.status (UploadRouteBackend.POST request blobs envKey net newId now db).1 = 200 →
  ∃ formData file init item,
    Upload.form request = Some formData
    ∧ Upload.fd_file formData = Some file
    ∧ Http.validate init now = Some item
    ∧ Upload.fd_userId formData = Some (Http.i_userId init)
    ∧ Http.i_usageCount init = 0 ∧ Http.i_isFavorite init = false
    ∧ Http.i_name init
      = UploadRouteBackend.detected (UploadRouteBackend.analysisOf envKey net) "name"
          (Some (JStr (UploadRouteBackend.formName formData)))
    ∧ Http.i_type init
      = UploadRouteBackend.detected (UploadRouteBackend.analysisOf envKey net) "type"
          (JStr <$> Upload.fd_type formData)
    ∧ Http.i_colors init
      = UploadRouteBackend.detected (UploadRouteBackend.analysisOf envKey net) "colors"
          (Some (Upload.strings ["Unknown"]))
    ∧ Http.i_occasion init
      = UploadRouteBackend.detected (UploadRouteBackend.analysisOf envKey net) "occasion"
          (Some (JStr (Upload.orDefault (Upload.fd_occasion formData) "CASUAL")))
    ∧ Http.i_season init
      = UploadRouteBackend.detected (UploadRouteBackend.analysisOf envKey net) "season"
          (Some (JStr (Upload.orDefault (Upload.fd_season formData) "ALL_SEASON")))
    ∧ Http.i_filename init
      = Some (JStr (pretty now +:+ "-"
                    +:+ UploadRouteBackend.dashes false (Upload.file_name file)))
    ∧ items db !! newId = None
    ∧ (UploadRouteBackend.POST request blobs envKey net newId now db).2
      = mkDb (<[newId := item]> (items db)) (users db)
          (itemHistory (UploadRouteBackend.POST request blobs envKey net newId now db).2)
          (auditLog (UploadRouteBackend.POST request blobs envKey net newId now db).2)
    ∧ ∃ overrides aiAnalysis,
        Upload.payload (UploadRouteBackend.POST request blobs envKey net newId now db).1
        = Upload.UploadSuccess newId item overrides aiAnalysis
        ∧ assoc "name" overrides = Some (JStr EmptyString)
        ∧ assoc "name" aiAnalysis = Some (JStr EmptyString).
Proof.
  unfold UploadRouteBackend.POST, Upload.handle, mbind, Upload.requestForm,
    Upload.respond, ret, raise, Http.ItemHistory_create, Http.AuditLog_create.
  repeat (cbv beta zeta; branch); cbn [fst snd Upload.status Upload.payload];
    try discriminate.
  all: intros _.
  all: match goal with
       | Hs : Http.save _ _ _ _ = _ |- _ => apply save_Ok in Hs as (Hv & Hnone & ->)
       end.
  all: eexists _, _, _, _; split; [reflexivity|]; split; [eassumption|].
  all: split; [exact Hv|].
  all: split;
    [cbn [Http.i_userId];
     match goal with
     | Hb : negb (Upload.truthyStr ?u) = false |- _ =>
         destruct u; [reflexivity|discriminate Hb]
     end|].
  all: cbn [Http.i_usageCount Http.i_isFavorite Http.i_name Http.i_type Http.i_colors
            Http.i_occasion Http.i_season Http.i_filename].
  all: do 8 (split; [reflexivity|]).
  all: split; [exact Hnone|]; split; [reflexivity|].
  all: eexists _, _; split; [reflexivity|]; split; reflexivity.
Qed.
Lemma GET_owner reader id db item owner :
  items db !! id = Some item →
  users db !! userId item = Some owner →
  Http.authenticated reader = Some (userId item) →
  ∃ history,
    ItemRouteNext.GET reader id db
    = (Http.mkResponse 200 (Http.JsonItemWithHistory item owner history), db).
Proof.
  intros Hitem Howner Hauth.
  unfold ItemRouteNext.GET, Http.handle. rewrite Hauth.
  unfold mbind, Http.findById. rewrite Hitem, Howner.
  rewrite bool_decide_eq_true_2 by done. cbn [negb].
  eexists. reflexivity.
Qed.

(** C9: whatever the request carries, an item that one of the three
    creating handlers has stored (the create handler answering 201, either
    upload handler answering 200) is new under its id and has a usage
    counter of 0 and no favourite mark; it is the item of the answer. *)
Theorem C9_created_item_defaults :
  (∀ request newId now db,
     Http.status (ItemsRoute.POST request newId now db).1 = 201 →
     ∃ item,
       items db !! newId = None
       ∧ items (ItemsRoute.POST request newId now db).2 = <[newId := item]> (items db)
       ∧ Http.payload (ItemsRoute.POST request newId now db).1 = Http.JsonItem (Some item)
       ∧ usageCount item = 0 ∧ isFavorite item = false)
  ∧ (∀ JSON_parse request nets newId now db,
       Upload.status (UploadRoute.POST JSON_parse request nets newId now db).1 = 200 →
       ∃ item,
         items db !! newId = None
         ∧ items (UploadRoute.POST JSON_parse request nets newId now db).2
           = <[newId := item]> (items db)
         ∧ (∃ overrides aiAnalysis,
              Upload.payload (UploadRoute.POST JSON_parse request nets newId now db).1
              = Upload.UploadSuccess newId item overrides aiAnalysis)
         ∧ usageCount item = 0 ∧ isFavorite item = false)
  ∧ (∀ request blobs envKey net newId now db,
       Upload.status (UploadRouteBackend.POST request blobs envKey net newId now db).1 = 200 →
       ∃ item,
         items db !! newId = None
         ∧ items (UploadRouteBackend.POST request blobs envKey net newId now db).2
           = <[newId := item]> (items db)
         ∧ (∃ overrides aiAnalysis,
              Upload.payload (UploadRouteBackend.POST request blobs envKey net newId now db).1
              = Upload.UploadSuccess newId item overrides aiAnalysis)
         ∧ usageCount item = 0 ∧ isFavorite item = false).
Proof.
  split; [|split].
  - intros request newId now db Hok.
    destruct (ItemsRoute_POST_created request newId now db Hok)
      as (init & item & Hv & Hu & Hf & Hnone & Hitems & Hpay).
    apply validate_Some in Hv as (Hu' & Hf' & _).
    exists item. repeat split; try done; congruence.
  - intros JSON_parse request nets newId now db Hok.
    destruct (UploadRoute_POST_created JSON_parse request nets newId now db Hok)
      as (init & item & Hv & Hu & Hf & Hnone & Hitems & Hpay).
    apply validate_Some in Hv as (Hu' & Hf' & _).
    exists item. repeat split; try done; congruence.
  - intros request blobs envKey net newId now db Hok.
    destruct (UploadRouteBackend_POST_created request blobs envKey net newId now db Hok)
      as (fd & file & init & item & _ & _ & Hv & _ & Hu & Hf & _ & _ & _ & _ & _ & _
          & Hnone & Hdb & ov & ai & Hpay & _).
    apply validate_Some in Hv as (Hu' & Hf' & _).
    exists item. repeat split; try done; try congruence.
    + by rewrite Hdb.
    + by exists ov, ai.
Qed.

Lemma detected_kept a k kept :
  truthyOpt (memberOpt a k) = false → UploadRouteBackend.detected a k kept = kept.
Proof.
  unfold UploadRouteBackend.detected, UploadRouteBackend.orKeep.
  destruct a as [a|]; cbn [memberOpt]; [|done].
  intros ->. by destruct (truthy a).
Qed.

Lemma detected_member a k kept v :
  memberOpt a k = Some v → truthy v = true → UploadRouteBackend.detected a k kept = Some v.
Proof.
  unfold UploadRouteBackend.detected, UploadRouteBackend.orKeep.
  destruct a as [a|]; cbn [memberOpt]; [|done].
  intros Hm Hv. destruct a; try discriminate Hm.
  cbn [truthy]. rewrite Hm. cbn [truthyOpt]. by rewrite Hv.
Qed.

(** C10: a backend upload answered with 200.  The [item] object and the
    [aiAnalysis] object of the answer both have the empty string as [name].
    The stored item has a name that is not empty, the name the handler
    detected, trimmed: the [name] member of the analysis when the content of
    the model's message has one that is a text and not empty, and the name
    of the form, or 'Untitled Item' when the form has none or a blank one,
    when the analysis has no truthy [name] member (there is no analysis
    without a key or when the call fails, and a content that is a text has
    no members).  Its owner, reading the item by id, gets that stored
    name. *)
Theorem C10_upload_hides_name request blobs envKey net newId now db :
  Upload.status (UploadRouteBackend.POST request blobs envKey net newId now db).1 = 200 →
  ∃ formData item,
    Upload.form request = Some formData
    ∧ items (UploadRouteBackend.POST request blobs envKey net newId now db).2 !! newId
      = Some item
    ∧ Upload.itemName
        (Upload.payload (UploadRouteBackend.POST request blobs envKey net newId now db).1)
      = Some (JStr EmptyString)
    ∧ Upload.analysisName
        (Upload.payload (UploadRouteBackend.POST request blobs envKey net newId now db).1)
      = Some (JStr EmptyString)
    ∧ (∃ detectedName,
         UploadRouteBackend.detected (UploadRouteBackend.analysisOf envKey net) "name"
           (Some (JStr (UploadRouteBackend.formName formData))) ≫= castString
         = Some detectedName
         ∧ name item = JsStr.trim detectedName)
    ∧ (∀ generated,
         memberOpt (UploadRouteBackend.analysisOf envKey net) "name" = Some (JStr generated) →
         JsStr.nonEmpty generated = true →
         name item = JsStr.trim generated)
    ∧ (truthyOpt (memberOpt (UploadRouteBackend.analysisOf envKey net) "name") = false →
         name item = JsStr.trim (UploadRouteBackend.formName formData))
    ∧ JsStr.nonEmpty (name item) = true
    ∧ (∀ reader owner,
         Http.authenticated reader = Some (userId item) →
         users db !! userId item = Some owner →
         ∃ history,
           ItemRouteNext.GET reader newId
             (UploadRouteBackend.POST request blobs envKey net newId now db).2
           = (Http.mkResponse 200 (Http.JsonItemWithHistory item owner history),
              (UploadRouteBackend.POST request blobs envKey net newId now db).2)).
Proof.
  intros Hok.
  destruct (UploadRouteBackend_POST_created request blobs envKey net newId now db Hok)
    as (fd & file & init & item & Hform & _ & Hv & _ & _ & _ & Hname & _ & _ & _ & _ & _
        & _ & Hdb & ov & ai & Hpay & Hov & Hai).
  apply validate_Some in Hv as (_ & _ & _ & _ & (s & Hs & Htrim) & Hne).
  rewrite Hname in Hs.
  exists fd, item. rewrite Hpay. cbn [Upload.itemName Upload.analysisName].
  rewrite Hov, Hai.
  assert (items (UploadRouteBackend.POST request blobs envKey net newId now db).2 !! newId
          = Some item) as Hitem by (rewrite Hdb; apply lookup_insert_eq).
  split; [done|]. split; [done|]. split; [done|]. split; [done|].
  split; [by exists s|]. split; [|split; [|split; [done|]]].
  - intros generated Hm Hg.
    rewrite (detected_member _ _ _ (JStr generated) Hm Hg) in Hs.
    cbn in Hs. by injection Hs as <-.
  - intros Hm. rewrite (detected_kept _ _ _ Hm) in Hs.
    cbn in Hs. by injection Hs as <-.
  - intros reader owner Hauth Howner.
    apply GET_owner; [done| |done]. by rewrite Hdb.
Qed.

End Facts.

Section OnTheWardrobe.
Import Examples.

Lemma C9_created_item_defaults_witness :
  Http.status (ItemsRoute.POST createRequest "item3" 1700000200000 wardrobe).1 = 201
  ∧ usageOf "item3" (ItemsRoute.POST createRequest "item3" 1700000200000 wardrobe).2 = Some 0
  ∧ isFavorite <$> items (ItemsRoute.POST createRequest "item3" 1700000200000 wardrobe).2
                     !! "item3" = Some false
  ∧ Upload.status (UploadRoute.POST (λ _, None) uploadRequest offline "item3"
                     1700000200000 wardrobe).1 = 200
  ∧ usageOf "item3" (UploadRoute.POST (λ _, None) uploadRequest offline "item3"
                       1700000200000 wardrobe).2 = Some 0
  ∧ Upload.status (UploadRouteBackend.POST uploadRequest UploadRouteBackend.NotConfigured
                     None Net.unreachable "item3" 1700000200000 wardrobe).1 = 200
  ∧ usageOf "item3" (UploadRouteBackend.POST uploadRequest UploadRouteBackend.NotConfigured
                       None Net.unreachable "item3" 1700000200000 wardrobe).2 = Some 0.
Proof.
  destruct C9_created_item_defaults as (Hcreate & Hupload & Hbackend).
  destruct (Hcreate createRequest "item3" 1700000200000 wardrobe)
    as (i1 & _ & E1 & _ & U1 & F1); [vm_compute; reflexivity|].
  destruct (Hupload (λ _, None) uploadRequest offline "item3" 1700000200000 wardrobe)
    as (i2 & _ & E2 & _ & U2 & _); [vm_compute; reflexivity|].
  destruct (Hbackend uploadRequest UploadRouteBackend.NotConfigured None Net.unreachable
              "item3" 1700000200000 wardrobe)
    as (i3 & _ & E3 & _ & U3 & _); [vm_compute; reflexivity|].
  unfold usageOf. rewrite E1, E2, E3, !lookup_insert_eq. cbn [fmap option_fmap option_map].
  rewrite U1, U2, U3, F1.
  repeat split; vm_compute; reflexivity.
Defined.

(** Alice uploads her picture twice.  With a key, the model answers with an
    object that names the item: that name is stored and the answer shows an
    empty one.  Without a key the name of the form is stored. *)
Lemma C10_upload_hides_name_witness :
  Upload.itemName
    (Upload.payload (UploadRouteBackend.POST uploadRequest UploadRouteBackend.NotConfigured
                       (Some "sk-test") (completionOf partyDress) "item3" 1700000200000
                       wardrobe).1)
  = Some (JStr EmptyString)
  ∧ name <$> items (UploadRouteBackend.POST uploadRequest UploadRouteBackend.NotConfigured
                      (Some "sk-test") (completionOf partyDress) "item3" 1700000200000
                      wardrobe).2 !! "item3"
    = Some "Red Party Dress"
  ∧ name <$> items (UploadRouteBackend.POST uploadRequest UploadRouteBackend.NotConfigured
                      None Net.unreachable "item3" 1700000200000 wardrobe).2 !! "item3"
    = Some "Linen Shirt".
Proof.
  destruct (C10_upload_hides_name uploadRequest UploadRouteBackend.NotConfigured
              (Some "sk-test") (completionOf partyDress) "item3" 1700000200000 wardrobe)
    as (fd & item & _ & Hitem & Hin & _ & _ & Hname & _); [vm_compute; reflexivity|].
  destruct (C10_upload_hides_name uploadRequest UploadRouteBackend.NotConfigured
              None Net.unreachable "item3" 1700000200000 wardrobe)
    as (fd' & item' & Hform' & Hitem' & _ & _ & _ & _ & Hname' & _); [vm_compute; reflexivity|].
  split; [exact Hin|]. rewrite Hitem, Hitem'. cbn [fmap option_fmap option_map].
  rewrite (Hname "Red Party Dress") by (vm_compute; reflexivity).
  rewrite Hname' by reflexivity. injection Hform' as <-.
  split; vm_compute; reflexivity.
Defined.

(** The same upload with a key and a model that answers with a name: the
    answer of the client is a text, and the stored name is still the one of
    the form. *)
Lemma upload_keeps_the_form_name :
  name <$> items (UploadRouteBackend.POST uploadRequest UploadRouteBackend.NotConfigured
                    (Some "sk-test") (completion "Striped Linen Shirt") "item3"
                    1700000200000 wardrobe).2 !! "item3"
  = Some "Linen Shirt"
  ∧ UploadRouteBackend.analyzeImageWithOpenAI "sk-test" (completion "Striped Linen Shirt")
    = Some (JStr "Striped Linen Shirt").
Proof. vm_compute. split; reflexivity. Qed.

(** The frontend upload stores the name its adapter generates, here the
    adapter's default. *)
Lemma frontend_upload_name :
  name <$> items (UploadRoute.POST (λ _, None) uploadRequest offline "item3"
                    1700000200000 wardrobe).2 !! "item3"
  = Some "Unknown Item".
Proof. vm_compute. reflexivity. Qed.

End OnTheWardrobe.
End CreateFacts.


(* ===================================================================== *)
(** ** Reading items *)
(* ===================================================================== *)

Module ReadFacts.
Import Js Store Http.

#[local] Instance newerFirst_total : Total newerFirst.
Proof. intros a b. unfold newerFirst. lia. Qed.

#[local] Instance newestFirst_total : Total ItemsList.newestFirst.
Proof. intros a b. unfold ItemsList.newestFirst. lia. Qed.

#[local] Instance newestFirst_trans : Transitive ItemsList.newestFirst.
Proof. intros a b c. unfold ItemsList.newestFirst. lia. Qed.

#[local] Instance moreWorn_total : Total Analytics.moreWorn.
Proof. intros a b. unfold Analytics.moreWorn. lia. Qed.

#[local] Instance moreWorn_trans : Transitive Analytics.moreWorn.
Proof. intros a b c. unfold Analytics.moreWorn. lia. Qed.

Section Facts.
Context `{!Coercions}.

(** One stored item read by id through both copies of the route.  Neither
    handler changes the store.  The later copy answers the owner, when the
    owner is a stored user, with the item and the history entries of that
    item, newest first, and anybody else with 403.  The frontend copy
    compares the text of the populated owner object with the caller: it
    answers 403 to every caller whose id is not that text, the owner
    included, and 500 when the owner is no stored user. *)
Theorem read_by_id request id db item caller :
  items db !! id = Some item →
  authenticated request = Some caller →
  (ItemRouteNext.GET request id db).2 = db
  ∧ (ItemRouteRead.GET request id db).2 = db
  ∧ (userId item = caller → ∀ owner, users db !! caller = Some owner →
       ∃ history,
         (ItemRouteNext.GET request id db).1
         = mkResponse 200 (JsonItemWithHistory item owner history)
         ∧ Sorted newerFirst history
         ∧ history ≡ₚ filter (λ h, h_itemId h = id) (itemHistory db))
  ∧ (userId item ≠ caller →
       (ItemRouteNext.GET request id db).1 = mkResponse 403 (JsonError "Forbidden"))
  ∧ (caller ≠ ItemRouteRead.objectToString →
       (ItemRouteRead.GET request id db).1
       = match users db !! userId item with
         | Some _ => mkResponse 403 (JsonError "Forbidden")
         | None => mkResponse 500 (JsonError "Failed to fetch item")
         end).
Proof.
  intros Hitem Hauth.
  unfold ItemRouteNext.GET, ItemRouteRead.GET, handle. rewrite Hauth.
  unfold mbind, findById, ItemRouteRead.findPopulated, ItemHistory_find, respond, ret, raise.
  rewrite Hitem. cbn [fmap option_fmap option_map].
  split; [|split; [|split; [|split]]].
  - destruct (users db !! userId item); [|done].
    by destruct (negb (bool_decide (userId item = caller))).
  - destruct (users db !! userId item); [|done].
    by destruct (negb (bool_decide (ItemRouteRead.objectToString = caller))).
  - intros Hown owner Howner. rewrite Hown, Howner.
    rewrite bool_decide_eq_true_2 by done. cbn [negb fst].
    eexists. split; [reflexivity|]. split.
    + apply (Sorted_merge_sort newerFirst).
    + apply merge_sort_Permutation.
  - intros Hown. destruct (users db !! userId item); [|done].
    by rewrite bool_decide_eq_false_2 by done.
  - intros Hcaller. destruct (users db !! userId item); [|done].
    by rewrite bool_decide_eq_false_2 by done.
Qed.


(** *** The list *)

Lemma publicName_shown name : ItemsList.publicName name ≠ "Untitled Item".
Proof. unfold ItemsList.publicName. case_bool_decide; [done|done]. Qed.

Section List.
Variable regex : string → option (string → bool).

Lemma find_selects caller q test db id item :
  (id, item) ∈ ItemsList.find caller q test db
  ↔ items db !! id = Some item ∧ ItemsList.selects caller q test item = true.
Proof.
  unfold ItemsList.find. rewrite merge_sort_Permutation, list_elem_of_filter.
  rewrite elem_of_map_to_list. cbn. tauto.
Qed.

(** The list of the caller's items.  A [userId] parameter that names
    somebody else is answered with 403.  A list that is answered holds
    exactly the stored items that the query selects, each once and under its
    id: they are the caller's, newest first, with the owner's user document,
    and the placeholder name 'Untitled Item' comes back as the empty
    string. *)
Theorem list_items request q db caller :
  authenticated request = Some caller →
  (∀ other, ItemsList.q_userId q = Some other → JsStr.nonEmpty other = true → other ≠ caller →
     ItemsList.GET regex request q db
     = ItemsList.mkResponse 403 (ItemsList.ListError "Forbidden"))
  ∧ (∀ docs,
       ItemsList.GET regex request q db = ItemsList.mkResponse 200 (ItemsList.Items docs) →
       ∃ test,
         ItemsList.nameTest regex q = Some test
         ∧ (∀ id shown owner, (id, shown, owner) ∈ docs ↔
              ∃ item, items db !! id = Some item
                      ∧ ItemsList.selects caller q test item = true
                      ∧ shown = set_name (ItemsList.publicName (name item)) item
                      ∧ owner = users db !! caller)
         ∧ Forall (λ d : ItemsList.Doc, userId d.1.2 = caller ∧ name d.1.2 ≠ "Untitled Item") docs
         ∧ Sorted (λ a b : ItemsList.Doc, createdAt b.1.2 ≤ createdAt a.1.2) docs
         ∧ NoDup (fst <$> (fst <$> docs))).
Proof.
  intros Hauth. unfold ItemsList.GET. rewrite Hauth. split.
  - intros other Hq Hne Hother. rewrite Hq. cbn [Upload.truthyStr]. rewrite Hne.
    rewrite bool_decide_eq_false_2 by congruence. reflexivity.
  - intros docs.
    destruct (Upload.truthyStr (ItemsList.q_userId q) && negb (bool_decide (ItemsList.q_userId q = Some caller)));
      [discriminate|].
    destruct (ItemsList.nameTest regex q) as [test|]; [|discriminate].
    intros [= <-]. exists test. split; [done|].
    assert (∀ d, d ∈ ItemsList.find caller q test db → userId d.2 = caller) as Hmine.
    { intros [id item] [_ Hsel]%find_selects. unfold ItemsList.selects in Hsel.
      repeat (apply andb_true_iff in Hsel as [Hsel _]).
      by apply bool_decide_eq_true in Hsel. }
    split; [|split; [|split]].
    + intros id shown owner. rewrite list_elem_of_fmap. split.
      * intros ([id' item] & [= -> -> ->] & Hin). cbn.
        pose proof (Hmine _ Hin) as Hown. cbn in Hown.
        apply find_selects in Hin as [Hitem Hsel].
        exists item. by rewrite Hown.
      * intros (item & Hitem & Hsel & -> & ->).
        exists (id, item). split; [|by apply find_selects].
        cbn. f_equal.
        unfold ItemsList.selects in Hsel.
        repeat (apply andb_true_iff in Hsel as [Hsel _]).
        apply bool_decide_eq_true in Hsel. by rewrite Hsel.
    + apply Forall_fmap, Forall_forall. intros d Hd. cbn. split.
      * by apply Hmine.
      * apply publicName_shown.
    + eapply Sorted_fmap; [|apply (Sorted_merge_sort ItemsList.newestFirst)].
      intros a b Hab. exact Hab.
    + match goal with
      | |- NoDup (fst <$> (fst <$> (?F <$> ?L))) =>
          replace (fst <$> (fst <$> (F <$> L))) with (fst <$> L)
            by (rewrite <- !list_fmap_compose; by apply list_fmap_ext)
      end.
      unfold ItemsList.find. rewrite merge_sort_Permutation.
      apply NoDup_fmap_fst.
      * intros id i1 i2 [_ H1%elem_of_map_to_list]%list_elem_of_filter
          [_ H2%elem_of_map_to_list]%list_elem_of_filter. congruence.
      * apply NoDup_filter, NoDup_map_to_list.
Qed.

End List.

(** *** The analytics *)

Section Counting.
Context {A : Type} (key : A → string).

Lemma countBy_foldl (l : list A) : ∀ (acc : gmap string nat) k,
  foldl (λ acc x, <[key x := S (default O (acc !! key x))]> acc) acc l !! k
  = if decide (length (filter (λ x, key x = k) l) = 0)%nat then acc !! k
    else Some (default O (acc !! k) + length (filter (λ x, key x = k) l))%nat.
Proof.
  induction l as [|x l IH]; intros acc k; [done|].
  cbn [foldl]. rewrite IH, filter_cons.
  destruct (decide (key x = k)) as [->|Hne].
  - rewrite lookup_insert_eq. cbn [length default].
    destruct (decide (length (filter (λ x, key x = k) l) = 0)%nat) as [->|?]; cbn.
    + f_equal. lia.
    + f_equal. lia.
  - by rewrite lookup_insert_ne.
Qed.

(** A distribution holds, under every key that occurs, the number of its
    occurrences, and nothing under a key that does not occur. *)
Lemma countBy_lookup (l : list A) k :
  Analytics.countBy key l !! k
  = if decide (length (filter (λ x, key x = k) l) = 0)%nat then None
    else Some (length (filter (λ x, key x = k) l)).
Proof. unfold Analytics.countBy. rewrite countBy_foldl. by rewrite lookup_empty. Qed.

Lemma countBy_default (l : list A) k :
  default O (Analytics.countBy key l !! k) = length (filter (λ x, key x = k) l).
Proof. rewrite countBy_lookup. by case_decide. Qed.

Lemma count_one_more (keys : list string) (x : A) (l : list A) :
  NoDup keys →
  sum_list ((λ k, length (filter (λ y, key y = k) (x :: l))) <$> keys)
  = ((if decide (key x ∈ keys) then 1 else 0)
     + sum_list ((λ k, length (filter (λ y, key y = k) l)) <$> keys))%nat.
Proof.
  induction keys as [|k keys IH]; intros Hnd.
  - rewrite decide_False by apply not_elem_of_nil. done.
  - apply NoDup_cons in Hnd as [Hk Hnd]. rewrite !fmap_cons. cbn [sum_list sum_list_with].
    unfold id at 1 3. rewrite (IH Hnd), filter_cons.
    destruct (decide (key x = k)) as [->|Hne].
    + rewrite (decide_True (P := k ∈ k :: keys)) by left.
      rewrite (decide_False (P := k ∈ keys)) by done. cbn [length]. lia.
    + destruct (decide (key x ∈ keys)) as [Hin|Hin].
      * rewrite (decide_True (P := key x ∈ k :: keys)) by (by right). lia.
      * rewrite (decide_False (P := key x ∈ k :: keys)); [lia|].
        by apply not_elem_of_cons.
Qed.

(** Over keys without repetition that cover the list, the counts add up to
    the length of the list. *)
Lemma countBy_total (keys : list string) (l : list A) :
  NoDup keys → Forall (λ x, key x ∈ keys) l →
  sum_list ((λ k, default O (Analytics.countBy key l !! k)) <$> keys) = length l.
Proof.
  intros Hnd Hall.
  erewrite list_fmap_ext; [|intros i k _; apply countBy_default].
  induction Hall as [|x l Hx Hall IH].
  - induction keys as [|k keys IHk]; [done|].
    apply NoDup_cons in Hnd as [_ Hnd]. rewrite fmap_cons. cbn [sum_list sum_list_with].
    rewrite (IHk Hnd). done.
  - rewrite (count_one_more keys x l Hnd), IH, decide_True by done. done.
Qed.

End Counting.

Lemma usage_groups (l : list Analytics.Doc) :
  Forall (λ d, 0 ≤ usageCount d.2) l →
  (length (filter (λ d, usageCount d.2 = 0)%Z l)
   + length (filter (λ d, usageCount d.2 < 3 ∧ 0 < usageCount d.2)%Z l)
   + length (filter (λ d, 3 ≤ usageCount d.2)%Z l))%nat = length l.
Proof.
  induction 1 as [|d l Hd _ IH]; [done|].
  rewrite !filter_cons.
  repeat case_decide; try lia; cbn [length]; rewrite <- IH, ?Nat.add_succ_r; reflexivity.
Qed.

Lemma statusName_listed st :
  statusName st ∈ ["IN_WARDROBE"; "IN_LAUNDRY"; "CLEAN"; "AWAY"].
Proof. destruct st; in_list. Qed.

Lemma actionName_listed a :
  Analytics.actionName a
  ∈ ["CREATED"; "WORN"; "MARKED_LAUNDRY"; "RETURNED"; "EDITED"; "FAVORITED"; "UNFAVORITED";
     "DELETED"].
Proof. destruct a; in_list. Qed.

Lemma countBy_counts {A} (key : A → string) (l l' : list A) :
  l ≡ₚ l' → Analytics.counts key l' (Analytics.countBy key l).
Proof.
  intros Hperm k. rewrite countBy_lookup.
  by rewrite (Permutation_length (filter_Permutation (λ x, key x = k) _ _ Hperm)).
Qed.

Lemma report_facts (items : list Analytics.Doc) (recent : list HistoryEntry) :
  let r := Analytics.report items recent in
  Analytics.totalItems (Analytics.summary r) = length items
  ∧ length (Analytics.mostWornItems r) = (5 `min` length items)%nat
  ∧ StronglySorted (λ a b, Analytics.w_usageCount b ≤ Analytics.w_usageCount a)
      (Analytics.mostWornItems r)
  ∧ (∀ d, d ∈ items →
       Analytics.worn d ∈ Analytics.mostWornItems r
       ∨ ∀ w, w ∈ Analytics.mostWornItems r → usageCount d.2 ≤ Analytics.w_usageCount w)
  ∧ (Forall (λ d, 0 ≤ usageCount d.2) items →
       (length (Analytics.neverWornItems r) + length (Analytics.underusedItems r)
        + length (filter (λ d, 3 ≤ usageCount d.2)%Z items))%nat = length items)
  ∧ (Forall (λ d, type d.2 ∈ Classify.validTypes) items →
       Analytics.counts (λ d, type d.2) items (Analytics.typeDistribution r))
  ∧ (Forall (λ d, season d.2 ∈ Classify.validSeasons) items →
       Analytics.counts (λ d, season d.2) items (Analytics.seasonDistribution r))
  ∧ (Forall (λ d, occasion d.2 ∈ Classify.validOccasions) items →
       Analytics.counts (λ d, occasion d.2) items (Analytics.occasionDistribution r))
  ∧ Analytics.counts (λ d, statusName (laundryStatus d.2)) items
      (Analytics.laundryDistribution r)
  ∧ Analytics.counts (λ h, Analytics.actionName (h_action h)) recent
      (Analytics.activitySummary r)
  ∧ sum_list ((λ k, default O (Analytics.laundryDistribution r !! k))
               <$> ["IN_WARDROBE"; "IN_LAUNDRY"; "CLEAN"; "AWAY"]) = length items
  ∧ (Forall (λ d, type d.2 ∈ Classify.validTypes) items →
       sum_list ((λ k, default O (Analytics.typeDistribution r !! k)) <$> Classify.validTypes)
       = length items)
  ∧ sum_list ((λ k, default O (Analytics.activitySummary r !! k))
               <$> ["CREATED"; "WORN"; "MARKED_LAUNDRY"; "RETURNED"; "EDITED"; "FAVORITED";
                    "UNFAVORITED"; "DELETED"]) = length recent
  ∧ Analytics.history r = take 10 recent.
Proof.
  cbv zeta. unfold Analytics.report. cbv zeta.
  cbn [Analytics.summary Analytics.totalItems Analytics.mostWornItems Analytics.underusedItems
       Analytics.neverWornItems Analytics.typeDistribution Analytics.seasonDistribution
       Analytics.occasionDistribution Analytics.laundryDistribution Analytics.activitySummary
       Analytics.history].
  pose proof (merge_sort_Permutation Analytics.moreWorn items) as Hperm.
  pose proof (StronglySorted_merge_sort Analytics.moreWorn items) as Hsorted.
  set (sorted := merge_sort Analytics.moreWorn items) in *.
  rewrite <- (take_drop 5 sorted) in Hsorted.
  split; [done|].
  split; [|split; [|split; [|split; [|repeat (split; [by intros; apply countBy_counts|]);
                                       split; [|split; [|split]]]]]].
  - rewrite length_fmap, length_take, (Permutation_length Hperm). done.
  - eapply StronglySorted_fmap; [|exact (StronglySorted_app_1_l _ _ _ Hsorted)].
    intros a b Hab. exact Hab.
  - intros d Hd. rewrite <- Hperm, <- (take_drop 5 sorted) in Hd.
    apply elem_of_app in Hd as [Hd|Hd].
    + left. by apply list_elem_of_fmap_2.
    + right. intros w (d' & -> & Hd')%list_elem_of_fmap.
      exact (StronglySorted_app_1_elem_of _ _ _ _ _ Hsorted Hd' Hd).
  - intros Hpos. rewrite !length_fmap.
    transitivity (length sorted); [|by apply Permutation_length].
    rewrite <- (usage_groups sorted) by (by rewrite Hperm).
    f_equal. apply Permutation_length. by rewrite Hperm.
  - rewrite countBy_total; [by apply Permutation_length| |].
    + apply (bool_decide_unpack _). vm_compute. exact I.
    + apply Forall_forall. intros d _. apply statusName_listed.
  - intros Htypes. rewrite countBy_total; [by apply Permutation_length| |].
    + apply (bool_decide_unpack _). vm_compute. exact I.
    + by rewrite Hperm.
  - apply (countBy_total (λ h, Analytics.actionName (h_action h))).
    + apply (bool_decide_unpack _). vm_compute. exact I.
    + apply Forall_forall. intros h _. apply actionName_listed.
  - done.
Qed.

(** The analytics of a user, asked for under a user id that is not empty.
    A text that the mapper cannot cast to an ObjectId is answered with 500
    'Failed to fetch analytics'.  For an ObjectId
    the answer is a report on the stored items of that user and on the
    history entries that user made since the given instant.  The five most
    worn items come in the order of their counters, and no item left out
    has a larger counter than one of them.  With counters that are not
    negative every item is in exactly one of three groups: never worn, worn
    once or twice (the underused ones), worn three times or more.  Each
    distribution (per laundry status, per action, and per type, season or
    occasion when the items have only the listed ones) holds, for every
    value, the number of items with it and no entry for a value without
    items; the counts per laundry status add up to the number of items, so
    do the counts per type when every type is one of the nine, and the
    counts per action add up to the number of recent entries, of which the
    first ten are shown.  Whose request it is plays no
    part: the handler reads no header. *)
Theorem analytics_report (isObjectId : string → bool) (userId : string)
    (thirtyDaysAgo : Z) (db : Db) :
  JsStr.nonEmpty userId = true →
  (isObjectId userId = false →
     Analytics.GET isObjectId (Some userId) thirtyDaysAgo db
     = Analytics.mkResponse 500 (Analytics.AnalyticsError "Failed to fetch analytics"))
  ∧ (isObjectId userId = true →
  ∃ r, Analytics.GET isObjectId (Some userId) thirtyDaysAgo db
       = Analytics.mkResponse 200 (Analytics.AnalyticsReport r)
  ∧ let items := filter (λ d, Store.userId d.2 = userId) (map_to_list (Store.items db)) in
    let recent := Analytics.recentHistory userId thirtyDaysAgo db in
    Analytics.totalItems (Analytics.summary r) = length items
    ∧ length (Analytics.mostWornItems r) = (5 `min` length items)%nat
    ∧ StronglySorted (λ a b, Analytics.w_usageCount b ≤ Analytics.w_usageCount a)
        (Analytics.mostWornItems r)
    ∧ (∀ d, d ∈ items →
         Analytics.worn d ∈ Analytics.mostWornItems r
         ∨ ∀ w, w ∈ Analytics.mostWornItems r → usageCount d.2 ≤ Analytics.w_usageCount w)
    ∧ (Forall (λ d, 0 ≤ usageCount d.2) items →
         (length (Analytics.neverWornItems r) + length (Analytics.underusedItems r)
          + length (filter (λ d, 3 ≤ usageCount d.2)%Z items))%nat = length items)
    ∧ (Forall (λ d, type d.2 ∈ Classify.validTypes) items →
         Analytics.counts (λ d, type d.2) items (Analytics.typeDistribution r))
    ∧ (Forall (λ d, season d.2 ∈ Classify.validSeasons) items →
         Analytics.counts (λ d, season d.2) items (Analytics.seasonDistribution r))
    ∧ (Forall (λ d, occasion d.2 ∈ Classify.validOccasions) items →
         Analytics.counts (λ d, occasion d.2) items (Analytics.occasionDistribution r))
    ∧ Analytics.counts (λ d, statusName (laundryStatus d.2)) items
        (Analytics.laundryDistribution r)
    ∧ Analytics.counts (λ h, Analytics.actionName (h_action h)) recent
        (Analytics.activitySummary r)
    ∧ sum_list ((λ k, default O (Analytics.laundryDistribution r !! k))
                 <$> ["IN_WARDROBE"; "IN_LAUNDRY"; "CLEAN"; "AWAY"]) = length items
    ∧ (Forall (λ d, type d.2 ∈ Classify.validTypes) items →
         sum_list ((λ k, default O (Analytics.typeDistribution r !! k)) <$> Classify.validTypes)
         = length items)
    ∧ sum_list ((λ k, default O (Analytics.activitySummary r !! k))
                 <$> ["CREATED"; "WORN"; "MARKED_LAUNDRY"; "RETURNED"; "EDITED"; "FAVORITED";
                      "UNFAVORITED"; "DELETED"]) = length recent
    ∧ Analytics.history r = take 10 recent).
Proof.
  intros Hid. split; intros Hcast.
  - unfold Analytics.GET, Upload.truthyStr. rewrite Hid. cbn [negb].
    change (default EmptyString (Some userId)) with userId. by rewrite Hcast.
  - eexists. split.
    + unfold Analytics.GET, Upload.truthyStr. rewrite Hid. cbn [negb].
      change (default EmptyString (Some userId)) with userId. rewrite Hcast. reflexivity.
    + exact (report_facts (Analytics.itemsOf userId db)
               (Analytics.recentHistory userId thirtyDaysAgo db)).
Qed.

End Facts.

Section OnTheWardrobe.
Import Examples.

(** Alice reads her shirt: the later copy of the route hands it over with
    its one history entry, the frontend copy refuses. *)
Lemma read_by_id_witness :
  (ItemRouteNext.GET (laundryRequest "alice" "mark_worn") "item1" wardrobe).1
  = mkResponse 200
      (JsonItemWithHistory shirt (mkUser "alice@example.com" (Some "Alice"))
         [mkHistory "item1" CREATED "alice" "Item created" 1700000000000])
  ∧ (ItemRouteRead.GET (laundryRequest "alice" "mark_worn") "item1" wardrobe).1
    = mkResponse 403 (JsonError "Forbidden").
Proof.
  destruct (read_by_id (laundryRequest "alice" "mark_worn") "item1" wardrobe shirt "alice")
    as (_ & _ & Hnext & _ & Hread); [reflexivity..|].
  split.
  - destruct (Hnext eq_refl (mkUser "alice@example.com" (Some "Alice")) eq_refl)
      as (history & _ & _ & _).
    vm_compute. reflexivity.
  - rewrite Hread by discriminate. reflexivity.
Defined.

(** Alice asks for the list: with Bob's id in the query she is refused, with
    no parameters she gets her two items, the jeans (created last) first. *)
Lemma list_items_witness :
  ItemsList.GET (λ _, None) (laundryRequest "alice" "mark_worn")
    (ItemsList.mkQuery (Some "bob") None None None None None) wardrobe
  = ItemsList.mkResponse 403 (ItemsList.ListError "Forbidden")
  ∧ match ItemsList.payload
            (ItemsList.GET (λ _, None) (laundryRequest "alice" "mark_worn")
               (ItemsList.mkQuery None None None None None None) wardrobe) with
    | ItemsList.Items docs => fst <$> (fst <$> docs) = ["item2"; "item1"]
    | ItemsList.ListError _ => False
    end.
Proof.
  split.
  - apply (proj1 (list_items (λ _, None) (laundryRequest "alice" "mark_worn")
                    (ItemsList.mkQuery (Some "bob") None None None None None) wardrobe
                    "alice" eq_refl) "bob"); [reflexivity..|discriminate].
  - vm_compute. reflexivity.
Defined.

(** The analytics of Alice over the wardrobe: two items, the jeans (worn
    seven times) before the shirt (worn three times), none never worn, one
    of them in the laundry.  Asked under a text that is no id, the handler
    answers 500. *)
Lemma analytics_report_witness :
  (∃ r, Analytics.GET isObjectId (Some "alice") 0 wardrobe
        = Analytics.mkResponse 200 (Analytics.AnalyticsReport r)
   ∧ Analytics.totalItems (Analytics.summary r) = 2%nat
   ∧ Analytics.w_usageCount <$> Analytics.mostWornItems r = [7; 3]
   ∧ Analytics.laundryDistribution r !! "IN_LAUNDRY" = Some 1%nat
   ∧ Analytics.laundryDistribution r !! "AWAY" = None)
  ∧ Analytics.GET isObjectId (Some "not-an-id") 0 wardrobe
    = Analytics.mkResponse 500 (Analytics.AnalyticsError "Failed to fetch analytics").
Proof.
  destruct (analytics_report isObjectId "alice" 0 wardrobe eq_refl) as (_ & Hreport).
  destruct (Hreport eq_refl)
    as (r & Hr & Htotal & _ & _ & _ & _ & _ & _ & _ & Hlaundry & _).
  destruct (analytics_report isObjectId "not-an-id" 0 wardrobe eq_refl) as (Hrefused & _).
  split; [|exact (Hrefused eq_refl)].
  exists r. split; [exact Hr|]. split; [rewrite Htotal; vm_compute; reflexivity|].
  split; [|rewrite !Hlaundry; vm_compute; split; reflexivity].
  injection Hr as <-. vm_compute. reflexivity.
Defined.

End OnTheWardrobe.
End ReadFacts.

(* ===================================================================== *)
(** ** What a call leaves in the store *)
(* ===================================================================== *)

Module FootprintFacts.
Import Js Store Http LaundryAction StoreFacts.

Section Facts.
Context `{!Coercions}.
Implicit Types (db : Db) (it : Item) (request : Request).

(** What is shown of one handler [h]. *)
Local Abbreviation footprint h :=
  (∀ request id now db,
     status (h request id now db).1 ∈ [200; 400; 401; 403; 404; 500]
     ∧ (status (h request id now db).1 ≠ 200 → (h request id now db).2 = db)
     ∧ users (h request id now db).2 = users db
     ∧ (∀ other, other ≠ id →
          items (h request id now db).2 !! other = items db !! other)
     ∧ (status (h request id now db).1 = 200 →
          ∃ it au,
            authenticated request = Some (userId it)
            ∧ items db !! id = Some it
            ∧ auditLog (h request id now db).2 = auditLog db ++ [au]
            ∧ a_userId au = userId it
            ∧ a_ipAddress au = ipAddress request
            ∧ a_timestamp au = now)).

(** A call that was refused. *)
Ltac refused :=
  cbn [fst snd status];
  split; [in_list|]; split; [done|]; split; [done|]; split; [done|]; intros [=].

(** A call that went through for the owner [it]. *)
Ltac served Hit Hauth :=
  cbn [fst snd status items users auditLog];
  split; [in_list|]; split; [done|]; split; [done|];
  split; [intros other Hother;
          first [by rewrite lookup_insert_ne by done | by rewrite lookup_delete_ne by done]|];
  intros _; eexists _, _; split; [first [exact Hauth|reflexivity]|]; split; [first [exact Hit|reflexivity]|];
  split; [reflexivity|]; cbn; done.

Lemma PUT_logs db id it request body now :
  items db !! id = Some it →
  authenticated request = Some (userId it) →
  json_body request = Some body → body ≠ JNull →
  (match applySets (ItemRoute.updateData (member body)) it with
   | Some it' =>
       ItemRoute.PUT request id now db =
       (mkResponse 200 (JsonItem (Some (set_updatedAt now it'))),
        mkDb (<[id := set_updatedAt now it']> (items db)) (users db)
          (itemHistory db ++ [mkHistory id EDITED (userId it) "Item updated" now])
          (auditLog db
           ++ [mkAudit (userId it) "UPDATE_ITEM"
                 (stringify (JObj [("itemId", JStr id);
                                   ("changes", JObj (ItemRoute.updateData (member body)))]))
                 (ipAddress request) now]))
   | None =>
       ItemRoute.PUT request id now db
       = (mkResponse 500 (JsonError "Failed to update item"), db)
   end)
  ∧ (match applySets (ItemRouteNext.updateData (member body)) it with
     | Some it' =>
         ItemRouteNext.PUT request id now db =
         (mkResponse 200 (JsonItem (Some (set_updatedAt now it'))),
          mkDb (<[id := set_updatedAt now it']> (items db)) (users db)
            (itemHistory db ++ [mkHistory id EDITED (userId it) "Item updated" now])
            (auditLog db
             ++ [mkAudit (userId it) "UPDATE_ITEM"
                   (stringify (JObj [("itemId", JStr id);
                                     ("changes", JObj (ItemRouteNext.updateData (member body)))]))
                   (ipAddress request) now]))
     | None =>
         ItemRouteNext.PUT request id now db
         = (mkResponse 500 (JsonError "Failed to update item"), db)
     end).
Proof.
  intros Hit Hauth Hbody Hnull.
  assert (destructure body = ret (member body)) as Hd by (by destruct body).
  assert (∀ k : _ → M Response,
            handle "Failed to update item"
              (mbind (requestJson request) (λ b, mbind (destructure b) k)) db
            = handle "Failed to update item" (k (member body)) db) as Hstart.
  { intros k. unfold requestJson. rewrite Hbody. unfold handle, mbind at 1 2.
    unfold ret at 1. rewrite Hd. reflexivity. }
  split.
  - unfold ItemRoute.PUT. rewrite Hauth, Hstart.
    unfold handle, mbind, findById. rewrite Hit.
    rewrite bool_decide_eq_true_2 by done. cbn [negb].
    unfold findByIdAndUpdate. rewrite Hit.
    unfold applyUpdate. cbn [upd_set upd_inc].
    destruct (applySets _ it) as [it'|];
      cbn [base.mbind option_bind applyIncs]; reflexivity.
  - unfold ItemRouteNext.PUT. rewrite Hauth, Hstart.
    unfold handle, mbind, findById. rewrite Hit.
    rewrite bool_decide_eq_true_2 by done. cbn [negb].
    unfold findByIdAndUpdate. rewrite Hit.
    unfold applyUpdate. cbn [upd_set upd_inc].
    destruct (applySets _ it) as [it'|];
      cbn [base.mbind option_bind applyIncs]; reflexivity.
Qed.

Lemma DELETE_logs db id it request now :
  items db !! id = Some it →
  authenticated request = Some (userId it) →
  ItemRoute.DELETE request id now db =
  (mkResponse 200 (JsonMessage "Item deleted successfully"),
   mkDb (delete id (items db)) (users db)
     (itemHistory db ++ [mkHistory id DELETED (userId it) "Item deleted" now])
     (auditLog db
      ++ [mkAudit (userId it) "DELETE_ITEM" (stringify (JObj [("itemId", JStr id)]))
            (ipAddress request) now]))
  ∧ ItemRouteNext.DELETE request id now db =
    (mkResponse 200 (JsonMessage "Item deleted successfully"),
     mkDb (delete id (items db)) (users db)
       (filter (λ h, h_itemId h ≠ id) (itemHistory db))
       (auditLog db
        ++ [mkAudit (userId it) "DELETE_ITEM"
              (stringify (JObj [("itemId", JStr id); ("filename", JStr (filename it))]))
              (ipAddress request) now])).
Proof.
  intros Hit Hauth.
  unfold ItemRoute.DELETE, ItemRouteNext.DELETE, handle. rewrite Hauth.
  unfold mbind, findById. rewrite Hit.
  rewrite bool_decide_eq_true_2 by done. cbn [negb].
  split; reflexivity.
Qed.

Lemma footprint_laundry : footprint LaundryRoute.POST ∧ footprint LaundryRouteOld.POST.
Proof.
  split; intros request id now db.
  all: destruct (request_cases request db id)
    as [Hauth|[(caller & Hauth & Hbody)|(caller & body & Hauth & Hbody & Hnull & Hitem)]].
  all: try (destruct (unauthenticated db id request now Hauth) as (E1 & E2 & _);
            first [rewrite E1|rewrite E2]; refused).
  all: try (destruct (malformed_body db id request caller now Hauth Hbody)
              as (D1 & S1 & D2 & S2 & _);
            first [rewrite D1, S1|rewrite D2, S2]; refused).
  all: destruct Hitem as [Hnone|[(it & Hit & Hown)|(it & Hit & Hown)]].
  all: try (destruct (not_found db id request caller body now Hnone Hauth Hbody Hnull)
              as (E1 & E2 & _);
            first [rewrite E1|rewrite E2]; refused).
  all: try (destruct (forbidden_laundry db id it request caller body now Hit Hown Hauth Hbody Hnull)
              as (E1 & E2);
            first [rewrite E1|rewrite E2]; refused).
  all: subst caller.
  all: destruct (whichCase (member body "action")) as [a|] eqn:Hcase.
  all: try (destruct (laundry_invalid_action db id it request _ body now Hit eq_refl Hauth
                        Hbody Hnull Hcase) as (E1 & E2);
            first [rewrite E1|rewrite E2]; refused).
  - destruct (LaundryRoute_POST_owner db id it request _ body a now Hit eq_refl Hauth Hbody
                Hnull Hcase) as (notes & payload & ->).
    served Hit Hauth.
  - destruct (LaundryRouteOld_POST_owner db id it request _ body a now Hit eq_refl Hauth Hbody
                Hnull Hcase) as (notes & payload & ->).
    served Hit Hauth.
Qed.

Lemma footprint_update : footprint ItemRoute.PUT ∧ footprint ItemRouteNext.PUT.
Proof.
  split; intros request id now db.
  all: destruct (request_cases request db id)
    as [Hauth|[(caller & Hauth & Hbody)|(caller & body & Hauth & Hbody & Hnull & Hitem)]].
  all: try (destruct (unauthenticated db id request now Hauth) as (_ & _ & E1 & E2 & _);
            first [rewrite E1|rewrite E2]; refused).
  all: try (destruct (malformed_body db id request caller now Hauth Hbody)
              as (_ & _ & _ & _ & D1 & S1 & D2 & S2);
            first [rewrite D1, S1|rewrite D2, S2]; refused).
  all: destruct Hitem as [Hnone|[(it & Hit & Hown)|(it & Hit & Hown)]].
  all: try (destruct (not_found db id request caller body now Hnone Hauth Hbody Hnull)
              as (_ & _ & E1 & E2 & _);
            first [rewrite E1|rewrite E2]; refused).
  all: try (destruct (forbidden_put db id it request caller body now Hit Hown Hauth Hbody Hnull)
              as (E1 & E2);
            first [rewrite E1|rewrite E2]; refused).
  all: subst caller.
  all: destruct (PUT_logs db id it request body now Hit Hauth Hbody Hnull) as (E1 & E2).
  - destruct (applySets (ItemRoute.updateData _) it); rewrite E1; [served Hit Hauth|refused].
  - destruct (applySets (ItemRouteNext.updateData _) it); rewrite E2; [served Hit Hauth|refused].
Qed.

Lemma footprint_delete : footprint ItemRoute.DELETE ∧ footprint ItemRouteNext.DELETE.
Proof.
  split; intros request id now db.
  all: destruct (authenticated request) as [caller|] eqn:Hauth.
  all: try (destruct (unauthenticated db id request now Hauth) as (_ & _ & _ & _ & E1 & E2);
            first [rewrite E1|rewrite E2]; refused).
  all: destruct (items db !! id) as [it|] eqn:Hit.
  2, 4: unfold ItemRoute.DELETE, ItemRouteNext.DELETE, handle; rewrite Hauth;
        unfold mbind, findById, respond, ret; rewrite Hit; refused.
  all: destruct (decide (userId it = caller)) as [Hown|Hown].
  2, 4: destruct (forbidden_delete db id it request caller now Hit Hown Hauth) as (E1 & E2);
        first [rewrite E1|rewrite E2]; refused.
  all: subst caller.
  all: destruct (DELETE_logs db id it request now Hit Hauth) as (E1 & E2).
  - rewrite E1. served Hit Hauth.
  - rewrite E2. served Hit Hauth.
Qed.

(** The six handlers that change a stored item (the laundry action, the
    update and the delete, each in both copies), on any request, id, clock
    and store.  The answer is 200, 400, 401, 403, 404 or 500.  Any answer
    but 200 leaves the whole store as it was.  No call changes the users or
    an item under another id.  An answer of 200 means that the caller gave
    a user id, that the item was stored and belonged to that user, and that
    exactly one entry was appended to the audit log, with the caller, the
    address of the request and the time of the call. *)
Theorem mutation_footprint :
  Forall (λ h : Request → string → Z → Db → Response * Db, footprint h)
    [LaundryRoute.POST; LaundryRouteOld.POST; ItemRoute.PUT; ItemRouteNext.PUT;
     ItemRoute.DELETE; ItemRouteNext.DELETE].
Proof.
  destruct footprint_laundry, footprint_update, footprint_delete.
  repeat (apply Forall_cons_2; [assumption|]). apply Forall_nil_2.
Qed.

(** *** What an update writes *)

Lemma applySets_app l1 l2 it :
  applySets (l1 ++ l2) it = applySets l1 it ≫= applySets l2.
Proof.
  revert it. induction l1 as [|[k v] l1 IH]; intros it; cbn; [done|].
  destruct (setField k v it) as [it1|]; cbn; [apply IH|done].
Qed.

Lemma pick_app fields keys1 keys2 :
  ItemRoute.pick fields (keys1 ++ keys2)
  = ItemRoute.pick fields keys1 ++ ItemRoute.pick fields keys2.
Proof. unfold ItemRoute.pick. apply omap_app. Qed.

(** A key that is no schema path changes nothing. *)
Lemma occasions_dropped fields it :
  applySets (ItemRouteNext.updateData fields) it = applySets (ItemRoute.updateData fields) it.
Proof.
  unfold ItemRouteNext.updateData, ItemRoute.updateData.
  change ItemRouteNext.updateKeys with (ItemRoute.updateKeys ++ ["occasions"]).
  rewrite pick_app, applySets_app.
  destruct (applySets (ItemRoute.pick fields ItemRoute.updateKeys) it) as [it1|]; [|done].
  cbn. destruct (fields "occasions"); reflexivity.
Qed.

(** A member of the update that is not [k] keeps what [f] reads. *)
Ltac frame :=
  intros ? ? ? ? ?; unfold setField; repeat case_decide; try done;
  let Hs := fresh "Hs" in
  intros Hs;
  first [ by injection Hs as <- | apply fmap_Some in Hs as (? & _ & ->); reflexivity ].

Section Frame.
Context {A : Type} (f : Item → A) (k : string).
Hypothesis Hframe : ∀ k' v i i', k' ≠ k → setField k' v i = Some i' → f i' = f i.

Lemma applySets_other l it it' :
  k ∉ (fst <$> l) → applySets l it = Some it' → f it' = f it.
Proof.
  revert it. induction l as [|[k' v] l IH]; intros it Hl; cbn.
  - by intros [= <-].
  - intros Hs. apply bind_Some in Hs as (it1 & H1 & H2).
    cbn in Hl. apply not_elem_of_cons in Hl as [Hk Hl].
    rewrite (IH it1 Hl H2). by apply (Hframe k' v).
Qed.

Lemma pick_other fields keys it it' :
  k ∉ keys → applySets (ItemRoute.pick fields keys) it = Some it' → f it' = f it.
Proof. intros Hk. apply applySets_other. intros Hin. by apply pick_keys in Hin. Qed.

Lemma pick_written fields pre post it it' :
  k ∉ pre → k ∉ post →
  applySets (ItemRoute.pick fields (pre ++ k :: post)) it = Some it' →
  match fields k with
  | None => f it' = f it
  | Some v => ∃ i1 i2, setField k v i1 = Some i2 ∧ f it' = f i2
  end.
Proof.
  intros Hpre Hpost. rewrite pick_app, applySets_app. intros Hs.
  apply bind_Some in Hs as (it1 & H1 & Hs).
  change (k :: post) with ([k] ++ post) in Hs. rewrite pick_app, applySets_app in Hs.
  apply bind_Some in Hs as (it2 & H2 & H3).
  apply (pick_other fields post) in H3; [|done].
  apply (pick_other fields pre) in H1; [|done].
  unfold ItemRoute.pick in H2. cbn in H2.
  destruct (fields k) as [v|]; cbn in H2.
  - apply bind_Some in H2 as (i2 & H2 & [= <-]). eauto.
  - injection H2 as <-. congruence.
Qed.

End Frame.

Lemma mapM_castString l : mapM castString (JStr <$> l) = Some l.
Proof. induction l as [|s l IH]; [done|]. cbn. rewrite IH. done. Qed.

(** Values of the JSON type of their path are stored. *)
Lemma applySets_typed fields keys it :
  keys ⊆ ItemRoute.updateKeys →
  (∀ k v, k ∈ ["name"; "type"; "occasion"; "season"] → fields k = Some v → ∃ s, v = JStr s) →
  (∀ v, fields "isFavorite" = Some v → ∃ b, v = JBool b) →
  (∀ v, fields "colors" = Some v → ∃ l, v = JArr (JStr <$> l)) →
  is_Some (applySets (ItemRoute.pick fields keys) it).
Proof.
  intros Hkeys Hstr Hbool Harr. revert it.
  induction keys as [|k keys IH]; intros it; [by eexists|].
  assert (keys ⊆ ItemRoute.updateKeys) as Hrest by (intros x Hx; apply Hkeys; by right).
  assert (k ∈ ItemRoute.updateKeys) as Hk by (apply Hkeys; by left).
  unfold ItemRoute.pick. cbn. fold (ItemRoute.pick fields keys).
  destruct (fields k) as [v|] eqn:Hv; cbn; [|by apply IH].
  assert (is_Some (setField k v it)) as [it1 ->]; [|cbn; by apply IH].
  unfold ItemRoute.updateKeys in Hk.
  repeat (apply elem_of_cons in Hk as [->|Hk]).
  - destruct (Hstr "name" v) as [s ->]; [in_list|done|]. by eexists.
  - destruct (Harr v Hv) as [l ->]. unfold setField. cbn. rewrite mapM_castString. by eexists.
  - destruct (Hstr "type" v) as [s ->]; [in_list|done|]. by eexists.
  - destruct (Hstr "occasion" v) as [s ->]; [in_list|done|]. by eexists.
  - destruct (Hstr "season" v) as [s ->]; [in_list|done|]. by eexists.
  - destruct (Hbool v Hv) as [b ->]. by eexists.
  - by apply elem_of_nil in Hk.
Qed.

(** The owner's update of a stored item, with a JSON body, through either
    copy of the route.  Members of the JSON type of their path are always
    stored (answer 200); both copies then answer with the same document and
    store it under the id.  Of that document only [name], [colors], [type],
    [occasion], [season], [isFavorite] and [updatedAt] can differ from the
    item before: a member that the body lacks leaves its field, a string
    becomes the name (trimmed), the type, the occasion or the season as it
    is, whether or not it is one of the listed values and whether or not the
    name is empty, a boolean becomes the favourite mark, strings become the
    colours (trimmed), and [updatedAt] is the time of the call. *)
Theorem update_writes db id it request body now :
  items db !! id = Some it →
  authenticated request = Some (userId it) →
  json_body request = Some body → body ≠ JNull →
  ((∀ k v, k ∈ ["name"; "type"; "occasion"; "season"] → member body k = Some v →
           ∃ s, v = JStr s) →
   (∀ v, member body "isFavorite" = Some v → ∃ b, v = JBool b) →
   (∀ v, member body "colors" = Some v → ∃ l, v = JArr (JStr <$> l)) →
   status (ItemRoute.PUT request id now db).1 = 200)
  ∧ (status (ItemRouteNext.PUT request id now db).1
     = status (ItemRoute.PUT request id now db).1)
  ∧ (status (ItemRoute.PUT request id now db).1 = 200 →
     ∃ it',
       (ItemRoute.PUT request id now db).1 = mkResponse 200 (JsonItem (Some it'))
       ∧ (ItemRouteNext.PUT request id now db).1 = mkResponse 200 (JsonItem (Some it'))
       ∧ items (ItemRoute.PUT request id now db).2 = <[id := it']> (items db)
       ∧ items (ItemRouteNext.PUT request id now db).2 = <[id := it']> (items db)
       ∧ userId it' = userId it
       ∧ filename it' = filename it
       ∧ objectUrl it' = objectUrl it
       ∧ thumbnailUrl it' = thumbnailUrl it
       ∧ processedUrl it' = processedUrl it
       ∧ laundryStatus it' = laundryStatus it
       ∧ usageCount it' = usageCount it
       ∧ moderated it' = moderated it
       ∧ moderationNotes it' = moderationNotes it
       ∧ createdAt it' = createdAt it
       ∧ updatedAt it' = now
       ∧ (member body "name" = None → name it' = name it)
       ∧ (∀ s, member body "name" = Some (JStr s) → name it' = JsStr.trim s)
       ∧ (member body "colors" = None → colors it' = colors it)
       ∧ (∀ l, member body "colors" = Some (JArr (JStr <$> l)) →
               colors it' = JsStr.trim <$> l)
       ∧ (member body "type" = None → type it' = type it)
       ∧ (∀ s, member body "type" = Some (JStr s) → type it' = s)
       ∧ (member body "occasion" = None → occasion it' = occasion it)
       ∧ (∀ s, member body "occasion" = Some (JStr s) → occasion it' = s)
       ∧ (member body "season" = None → season it' = season it)
       ∧ (∀ s, member body "season" = Some (JStr s) → season it' = s)
       ∧ (member body "isFavorite" = None → isFavorite it' = isFavorite it)
       ∧ (∀ b, member body "isFavorite" = Some (JBool b) → isFavorite it' = b)).
Proof.
  intros Hit Hauth Hbody Hnull.
  destruct (PUT_logs db id it request body now Hit Hauth Hbody Hnull) as (E1 & E2).
  rewrite occasions_dropped in E2.
  destruct (applySets (ItemRoute.updateData (member body)) it) as [it1|] eqn:Happ;
    rewrite E1, E2; cbn [fst snd status items].
  2:{ split; [|split; [done|intros [=]]].
      intros Hs Hb Ha.
      destruct (applySets_typed (member body) ItemRoute.updateKeys it) as [x Hx]; try done.
      unfold ItemRoute.updateData in Happ. congruence. }
  split; [done|]. split; [done|]. intros _.
  exists (set_updatedAt now it1).
  do 4 (split; [reflexivity|]).
  cbn [set_updatedAt userId name filename objectUrl thumbnailUrl processedUrl colors type
       occasion season laundryStatus usageCount isFavorite moderated moderationNotes
       createdAt updatedAt].
  unfold ItemRoute.updateData in Happ.
  split; [apply (pick_other userId "userId" ltac:(frame) (member body)
                   ItemRoute.updateKeys it it1 ltac:(in_list) Happ)|].
  split; [apply (pick_other filename "filename" ltac:(frame) (member body)
                   ItemRoute.updateKeys it it1 ltac:(in_list) Happ)|].
  split; [apply (pick_other objectUrl "objectUrl" ltac:(frame) (member body)
                   ItemRoute.updateKeys it it1 ltac:(in_list) Happ)|].
  split; [apply (pick_other thumbnailUrl "thumbnailUrl" ltac:(frame) (member body)
                   ItemRoute.updateKeys it it1 ltac:(in_list) Happ)|].
  split; [apply (pick_other processedUrl "processedUrl" ltac:(frame) (member body)
                   ItemRoute.updateKeys it it1 ltac:(in_list) Happ)|].
  split; [apply (pick_other laundryStatus "laundryStatus" ltac:(frame) (member body)
                   ItemRoute.updateKeys it it1 ltac:(in_list) Happ)|].
  split; [apply (pick_other usageCount "usageCount" ltac:(frame) (member body)
                   ItemRoute.updateKeys it it1 ltac:(in_list) Happ)|].
  split; [apply (pick_other moderated "moderated" ltac:(frame) (member body)
                   ItemRoute.updateKeys it it1 ltac:(in_list) Happ)|].
  split; [apply (pick_other moderationNotes "moderationNotes" ltac:(frame) (member body)
                   ItemRoute.updateKeys it it1 ltac:(in_list) Happ)|].
  split; [apply (pick_other createdAt "createdAt" ltac:(frame) (member body)
                   ItemRoute.updateKeys it it1 ltac:(in_list) Happ)|].
  split; [reflexivity|].
  pose proof (pick_written name "name" ltac:(frame) (member body) []
                ["colors"; "type"; "occasion"; "season"; "isFavorite"] it it1
                ltac:(in_list) ltac:(in_list) Happ) as Hname.
  pose proof (pick_written colors "colors" ltac:(frame) (member body) ["name"]
                ["type"; "occasion"; "season"; "isFavorite"] it it1
                ltac:(in_list) ltac:(in_list) Happ) as Hcolors.
  pose proof (pick_written type "type" ltac:(frame) (member body) ["name"; "colors"]
                ["occasion"; "season"; "isFavorite"] it it1
                ltac:(in_list) ltac:(in_list) Happ) as Htype.
  pose proof (pick_written occasion "occasion" ltac:(frame) (member body)
                ["name"; "colors"; "type"] ["season"; "isFavorite"] it it1
                ltac:(in_list) ltac:(in_list) Happ) as Hoccasion.
  pose proof (pick_written season "season" ltac:(frame) (member body)
                ["name"; "colors"; "type"; "occasion"] ["isFavorite"] it it1
                ltac:(in_list) ltac:(in_list) Happ) as Hseason.
  pose proof (pick_written isFavorite "isFavorite" ltac:(frame) (member body)
                ["name"; "colors"; "type"; "occasion"; "season"] [] it it1
                ltac:(in_list) ltac:(in_list) Happ) as Hfav.
  repeat split.
  - intros E. by rewrite E in Hname.
  - intros s E. rewrite E in Hname. destruct Hname as (i1 & i2 & Hset & ->).
    cbn in Hset. by injection Hset as <-.
  - intros E. by rewrite E in Hcolors.
  - intros l E. rewrite E in Hcolors. destruct Hcolors as (i1 & i2 & Hset & ->).
    unfold setField in Hset. cbn in Hset. rewrite mapM_castString in Hset.
    by injection Hset as <-.
  - intros E. by rewrite E in Htype.
  - intros s E. rewrite E in Htype. destruct Htype as (i1 & i2 & Hset & ->).
    cbn in Hset. by injection Hset as <-.
  - intros E. by rewrite E in Hoccasion.
  - intros s E. rewrite E in Hoccasion. destruct Hoccasion as (i1 & i2 & Hset & ->).
    cbn in Hset. by injection Hset as <-.
  - intros E. by rewrite E in Hseason.
  - intros s E. rewrite E in Hseason. destruct Hseason as (i1 & i2 & Hset & ->).
    cbn in Hset. by injection Hset as <-.
  - intros E. by rewrite E in Hfav.
  - intros b E. rewrite E in Hfav. destruct Hfav as (i1 & i2 & Hset & ->).
    cbn in Hset. by injection Hset as <-.
Qed.

(** *** After a delete *)

(** Nothing is stored under [id]: what the handlers answer to a caller with
    a user id. *)
Lemma gone db id again now caller :
  items db !! id = None →
  authenticated again = Some caller →
  ItemRoute.DELETE again id now db = (mkResponse 404 (JsonError "Item not found"), db)
  ∧ ItemRouteNext.DELETE again id now db = (mkResponse 404 (JsonError "Item not found"), db)
  ∧ ItemRouteRead.GET again id db = (mkResponse 404 (JsonError "Item not found"), db)
  ∧ ItemRouteNext.GET again id db = (mkResponse 404 (JsonError "Item not found"), db)
  ∧ (∀ body, json_body again = Some body → body ≠ JNull →
       ItemRoute.PUT again id now db = (mkResponse 404 (JsonError "Item not found"), db)
       ∧ ItemRouteNext.PUT again id now db = (mkResponse 404 (JsonError "Item not found"), db)
       ∧ LaundryRoute.POST again id now db = (mkResponse 404 (JsonError "Item not found"), db)
       ∧ LaundryRouteOld.POST again id now db
         = (mkResponse 404 (JsonError "Item not found"), db)).
Proof.
  intros Hnone Hauth.
  split; [|split; [|split; [|split]]].
  - unfold ItemRoute.DELETE, handle. rewrite Hauth.
    unfold mbind, findById, respond, ret. by rewrite Hnone.
  - unfold ItemRouteNext.DELETE, handle. rewrite Hauth.
    unfold mbind, findById, respond, ret. by rewrite Hnone.
  - unfold ItemRouteRead.GET, handle. rewrite Hauth.
    unfold mbind, ItemRouteRead.findPopulated, respond, ret. by rewrite Hnone.
  - unfold ItemRouteNext.GET, handle. rewrite Hauth.
    unfold mbind, findById, respond, ret. by rewrite Hnone.
  - intros body Hbody Hnull.
    destruct (not_found db id again caller body now Hnone Hauth Hbody Hnull)
      as (E1 & E2 & E3 & E4 & _).
    by rewrite E1, E2, E3, E4.
Qed.

(** The owner deletes a stored item, through either copy of the route: the
    answer is 200 and nothing is stored under the id any more, so that every
    later call on that id by a caller with a user id (reading, updating,
    a laundry action, deleting again) is answered with 404 and changes
    nothing.  The frontend copy keeps the history of the item and appends a
    DELETED entry to it; the later copy removes every history entry of the
    item and appends none. *)
Theorem delete_then db id it request now :
  items db !! id = Some it →
  authenticated request = Some (userId it) →
  Forall (λ DELETE : Request → string → Z → Db → Response * Db,
            (DELETE request id now db).1
            = mkResponse 200 (JsonMessage "Item deleted successfully")
            ∧ items (DELETE request id now db).2 = delete id (items db)
            ∧ ∀ again now' caller,
                authenticated again = Some caller →
                let db' := (DELETE request id now db).2 in
                ItemRoute.DELETE again id now' db'
                = (mkResponse 404 (JsonError "Item not found"), db')
                ∧ ItemRouteNext.DELETE again id now' db'
                  = (mkResponse 404 (JsonError "Item not found"), db')
                ∧ ItemRouteRead.GET again id db'
                  = (mkResponse 404 (JsonError "Item not found"), db')
                ∧ ItemRouteNext.GET again id db'
                  = (mkResponse 404 (JsonError "Item not found"), db')
                ∧ (∀ body, json_body again = Some body → body ≠ JNull →
                     ItemRoute.PUT again id now' db'
                     = (mkResponse 404 (JsonError "Item not found"), db')
                     ∧ ItemRouteNext.PUT again id now' db'
                       = (mkResponse 404 (JsonError "Item not found"), db')
                     ∧ LaundryRoute.POST again id now' db'
                       = (mkResponse 404 (JsonError "Item not found"), db')
                     ∧ LaundryRouteOld.POST again id now' db'
                       = (mkResponse 404 (JsonError "Item not found"), db')))
    [ItemRoute.DELETE; ItemRouteNext.DELETE]
  ∧ itemHistory (ItemRoute.DELETE request id now db).2
    = itemHistory db ++ [mkHistory id DELETED (userId it) "Item deleted" now]
  ∧ itemHistory (ItemRouteNext.DELETE request id now db).2
    = filter (λ h, h_itemId h ≠ id) (itemHistory db)
  ∧ Forall (λ h, h_itemId h ≠ id) (itemHistory (ItemRouteNext.DELETE request id now db).2).
Proof.
  intros Hit Hauth.
  destruct (DELETE_logs db id it request now Hit Hauth) as (E1 & E2).
  split; [|rewrite E1, E2; cbn [fst snd items itemHistory];
           split; [reflexivity|split; [reflexivity|]]].
  - repeat (apply Forall_cons_2; [|try apply Forall_nil_2]); cbn beta.
    all: first [rewrite E1|rewrite E2]; cbn [fst snd items].
    all: split; [reflexivity|]; split; [reflexivity|].
    all: intros again now' caller Hagain; apply (gone _ _ _ _ caller); [|done].
    all: apply lookup_delete_eq.
  - apply Forall_forall. intros h Hh. by apply list_elem_of_filter in Hh as [Hh _].
Qed.

(** *** Creation *)

(** What the schema lets through: the enumerations hold, both times are the
    clock, and the required strings are the ones given. *)
Lemma validate_valid init now item :
  Http.validate init now = Some item →
  type item ∈ Classify.validTypes
  ∧ occasion item ∈ Classify.validOccasions
  ∧ season item ∈ Classify.validSeasons
  ∧ createdAt item = now ∧ updatedAt item = now
  ∧ moderated item = false
  ∧ Http.required (Http.i_type init) = Some (type item)
  ∧ Http.required (Http.i_filename init) = Some (filename item)
  ∧ Http.required (Http.i_objectUrl init) = Some (objectUrl item).
Proof.
  unfold Http.validate. intros Hv.
  apply bind_Some in Hv as (n & Hn & Hv).
  apply bind_Some in Hv as (fn & Hfn & Hv).
  apply bind_Some in Hv as (ou & Hou & Hv).
  apply bind_Some in Hv as (tu & Htu & Hv).
  apply bind_Some in Hv as (pu & Hpu & Hv).
  apply bind_Some in Hv as (cs & Hcs & Hv).
  apply bind_Some in Hv as (ty & Hty & Hv).
  apply bind_Some in Hv as (oc & Hoc & Hv).
  apply bind_Some in Hv as (se & Hse & Hv).
  match type of Hv with (if ?b then _ else _) = _ => destruct b eqn:Hb; [|done] end.
  injection Hv as <-. cbn.
  apply andb_true_iff in Hb as [Hb _].
  apply andb_true_iff in Hb as [Hb Hs].
  apply andb_true_iff in Hb as [Hb Ho].
  apply andb_true_iff in Hb as [_ Ht].
  unfold Classify.oneOf in *.
  apply bool_decide_eq_true_1 in Ht, Ho, Hs.
  repeat split; done.
Qed.

Lemma save_Throw newId init now db e db' :
  Http.save newId init now db = (Throw e, db') → db' = db.
Proof.
  unfold Http.save. destruct (Http.validate init now); [|by intros [= _ <-]].
  destruct (items db !! newId); [by intros [= _ <-]|done].
Qed.

Lemma differsFrom_false v caller :
  ItemsRoute.differsFrom v caller = false → v = Some (JStr caller).
Proof.
  destruct v as [[]|]; cbn; try done.
  case_bool_decide; [by subst|done].
Qed.

(** The create handler on any request, new id, clock and store.  The answer
    is 201, 400, 401, 403 or 500, and any answer but 201 leaves the store as
    it was.  An answer of 201 means that the caller gave a user id, that the
    body names that same user, and that nothing was stored under the new id;
    the store then holds the answered item under it, one more history entry
    (CREATED, by the caller) and one more audit entry, and nothing else has
    changed.  The item belongs to the caller, hangs in the wardrobe, has the
    type of the body, and its type, occasion and season are among the
    listed values. *)
Theorem create_footprint request newId now db :
  status (ItemsRoute.POST request newId now db).1 ∈ [201; 400; 401; 403; 500]
  ∧ (status (ItemsRoute.POST request newId now db).1 ≠ 201 →
       (ItemsRoute.POST request newId now db).2 = db)
  ∧ (status (ItemsRoute.POST request newId now db).1 = 201 →
       ∃ caller body item,
         authenticated request = Some caller
         ∧ json_body request = Some body
         ∧ member body "userId" = Some (JStr caller)
         ∧ items db !! newId = None
         ∧ ItemsRoute.POST request newId now db
           = (mkResponse 201 (JsonItem (Some item)),
              mkDb (<[newId := item]> (items db)) (users db)
                (itemHistory db ++ [mkHistory newId CREATED caller "Item created" now])
                (auditLog db
                 ++ [mkAudit caller "CREATE_ITEM" (stringify (JObj [("itemId", JStr newId)]))
                       (ipAddress request) now]))
         ∧ userId item = caller
         ∧ laundryStatus item = IN_WARDROBE
         ∧ (∀ s, member body "type" = Some (JStr s) → type item = s)
         ∧ type item ∈ Classify.validTypes
         ∧ occasion item ∈ Classify.validOccasions
         ∧ season item ∈ Classify.validSeasons
         ∧ createdAt item = now ∧ updatedAt item = now).
Proof.
  unfold ItemsRoute.POST, Http.handle, mbind, Http.requestJson, Http.destructure,
    Http.respond, ret, raise, Http.ItemHistory_create, Http.AuditLog_create.
  repeat (cbv beta; branch); cbn [fst snd Http.status Http.payload].
  all: split; [in_list|]; split; [try done|try (intros [=]; fail)].
  all: try match goal with
           | Hs : Http.save _ _ _ _ = (Throw _, _) |- _ =>
               intros _; by apply save_Throw in Hs
           end.
  all: try (intros []; reflexivity).
  all: intros _.
  all: match goal with
       | Hs : Http.save _ _ _ _ = (Ok _, _) |- _ =>
           apply CreateFacts.save_Ok in Hs as (Hv & Hnone & ->)
       end.
  all: pose proof (CreateFacts.validate_Some _ _ _ Hv) as (_ & _ & Hst & Hown & _).
  all: pose proof (validate_valid _ _ _ Hv) as (Ht & Ho & Hs & Hc & Hu & _ & Hty & _).
  all: cbn [Http.i_userId Http.i_laundryStatus Http.i_type] in Hst, Hown, Hty.
  all: eexists _, _, _; split; [reflexivity|]; split; [reflexivity|].
  all: match goal with
       | Hd : _ && ItemsRoute.differsFrom _ _ = false, Hm : _ || _ = false |- _ =>
           apply orb_false_iff in Hm as [Hm _];
           apply orb_false_iff in Hm as [Hm _];
           apply orb_false_iff in Hm as [Hm _];
           apply negb_false_iff in Hm;
           rewrite Hm in Hd; cbn [andb] in Hd; apply differsFrom_false in Hd
       end.
  all: split; [done|]; split; [done|]; split; [reflexivity|].
  all: split; [done|]; split; [done|]; split; [|done].
  all: intros given Hgiven; rewrite Hgiven in Hty; cbn in Hty.
  all: destruct (JsStr.nonEmpty given); [by injection Hty as <-|done].
Qed.


(** *** Uploads *)

Lemma validate_given init now item :
  Http.validate init now = Some item →
  Http.withDefault "CASUAL" (Http.i_occasion init) = Some (occasion item)
  ∧ Http.withDefault "ALL_SEASON" (Http.i_season init) = Some (season item)
  ∧ match Http.i_colors init with
    | None => colors item = []
    | Some v => fmap (M := list) JsStr.trim <$> castStrings v = Some (colors item)
    end.
Proof.
  unfold Http.validate. intros Hv.
  apply bind_Some in Hv as (n & Hn & Hv).
  apply bind_Some in Hv as (fn & Hfn & Hv).
  apply bind_Some in Hv as (ou & Hou & Hv).
  apply bind_Some in Hv as (tu & Htu & Hv).
  apply bind_Some in Hv as (pu & Hpu & Hv).
  apply bind_Some in Hv as (cs & Hcs & Hv).
  apply bind_Some in Hv as (ty & Hty & Hv).
  apply bind_Some in Hv as (oc & Hoc & Hv).
  apply bind_Some in Hv as (se & Hse & Hv).
  match type of Hv with (if ?b then _ else _) = _ => destruct b eqn:Hb; [|done] end.
  injection Hv as <-. cbn. split; [done|]. split; [done|].
  destruct (Http.i_colors init); [done|by injection Hcs as <-].
Qed.

Lemma required_type (t : option string) s :
  Http.required (JStr <$> t) = Some s → t = Some s.
Proof.
  destruct t as [t|]; cbn; [|done]. destruct (JsStr.nonEmpty t); [|done]. by intros [= ->].
Qed.

Lemma required_str x s : Http.required (Some (JStr x)) = Some s → s = x.
Proof. cbn. destruct (JsStr.nonEmpty x); [|done]. by intros [= ->]. Qed.


(** The backend upload on any form, blob store, key, network, new id, clock
    and store.  The answer is 200, 400 or 500, and any answer but 200 leaves
    the store as it was.  For the type, the colours, the occasion and the
    season the handler takes the member of that name of the analysis when it
    is truthy, and else the value of the form (CASUAL and ALL_SEASON when
    the form has none) and the colours ['Unknown'].  A form with a file and
    a user id for which the type so taken is missing or not one of the nine
    listed ones is answered with 500, not with 400.  An upload answered with
    200 has stored a new item for the user of the form, with the type, the
    occasion, the season and the colours so taken, the colours trimmed: the
    members of the analysis that are texts (a list of texts for the
    colours), and the values of the form where the analysis has no truthy
    member, as when there is no key, when the call fails and when the
    content of the model's message is a text. *)
Theorem backend_upload (request : Upload.Request) blobs envKey net newId now db :
  Upload.status (UploadRouteBackend.POST request blobs envKey net newId now db).1
  ∈ [200; 400; 500]
  ∧ (Upload.status (UploadRouteBackend.POST request blobs envKey net newId now db).1 ≠ 200 →
       (UploadRouteBackend.POST request blobs envKey net newId now db).2 = db)
  ∧ (∀ formData file uid,
       Upload.form request = Some formData →
       Upload.fd_file formData = Some file →
       Upload.fd_userId formData = Some uid → JsStr.nonEmpty uid = true →
       (∀ t, Http.required
               (UploadRouteBackend.detected (UploadRouteBackend.analysisOf envKey net) "type"
                  (JStr <$> Upload.fd_type formData)) = Some t →
             t ∉ Classify.validTypes) →
       (UploadRouteBackend.POST request blobs envKey net newId now db).1
       = Upload.mkResponse 500 (Upload.UploadError "Failed to upload file"))
  ∧ (Upload.status (UploadRouteBackend.POST request blobs envKey net newId now db).1 = 200 →
       ∃ formData file item,
         Upload.form request = Some formData
         ∧ Upload.fd_file formData = Some file
         ∧ items db !! newId = None
         ∧ items (UploadRouteBackend.POST request blobs envKey net newId now db).2
           = <[newId := item]> (items db)
         ∧ Upload.fd_userId formData = Some (userId item)
         ∧ Http.required
             (UploadRouteBackend.detected (UploadRouteBackend.analysisOf envKey net) "type"
                (JStr <$> Upload.fd_type formData)) = Some (type item)
         ∧ type item ∈ Classify.validTypes
         ∧ Http.withDefault "CASUAL"
             (UploadRouteBackend.detected (UploadRouteBackend.analysisOf envKey net) "occasion"
                (Some (JStr (Upload.orDefault (Upload.fd_occasion formData) "CASUAL"))))
           = Some (occasion item)
         ∧ Http.withDefault "ALL_SEASON"
             (UploadRouteBackend.detected (UploadRouteBackend.analysisOf envKey net) "season"
                (Some (JStr (Upload.orDefault (Upload.fd_season formData) "ALL_SEASON"))))
           = Some (season item)
         ∧ fmap (M := list) JsStr.trim
             <$> (UploadRouteBackend.detected (UploadRouteBackend.analysisOf envKey net)
                    "colors" (Some (Upload.strings ["Unknown"])) ≫= castStrings)
           = Some (colors item)
         ∧ filename item
           = pretty now +:+ "-" +:+ UploadRouteBackend.dashes false (Upload.file_name file)
         ∧ (∀ t, memberOpt (UploadRouteBackend.analysisOf envKey net) "type" = Some (JStr t) →
                 JsStr.nonEmpty t = true → type item = t)
         ∧ (∀ o, memberOpt (UploadRouteBackend.analysisOf envKey net) "occasion"
                 = Some (JStr o) →
                 JsStr.nonEmpty o = true → occasion item = o)
         ∧ (∀ se, memberOpt (UploadRouteBackend.analysisOf envKey net) "season"
                  = Some (JStr se) →
                  JsStr.nonEmpty se = true → season item = se)
         ∧ (∀ l, memberOpt (UploadRouteBackend.analysisOf envKey net) "colors"
                 = Some (Upload.strings l) →
                 colors item = JsStr.trim <$> l)
         ∧ (truthyOpt (memberOpt (UploadRouteBackend.analysisOf envKey net) "type") = false →
              Upload.fd_type formData = Some (type item))
         ∧ (truthyOpt (memberOpt (UploadRouteBackend.analysisOf envKey net) "occasion") = false →
              occasion item = Upload.orDefault (Upload.fd_occasion formData) "CASUAL")
         ∧ (truthyOpt (memberOpt (UploadRouteBackend.analysisOf envKey net) "season") = false →
              season item = Upload.orDefault (Upload.fd_season formData) "ALL_SEASON")
         ∧ (truthyOpt (memberOpt (UploadRouteBackend.analysisOf envKey net) "colors") = false →
              colors item = ["Unknown"])).
Proof.
  split; [|split; [|split]].
  - unfold UploadRouteBackend.POST, Upload.handle, mbind, Upload.requestForm,
      Upload.respond, ret, raise, Http.ItemHistory_create, Http.AuditLog_create.
    repeat (cbv beta zeta; branch); cbn [fst snd Upload.status Upload.payload]; in_list.
  - unfold UploadRouteBackend.POST, Upload.handle, mbind, Upload.requestForm,
      Upload.respond, ret, raise, Http.ItemHistory_create, Http.AuditLog_create.
    repeat (cbv beta zeta; branch); cbn [fst snd Upload.status Upload.payload];
      try done.
    all: match goal with
         | Hs : Http.save _ _ _ _ = (Throw _, _) |- _ => intros _; by apply save_Throw in Hs
         end.
  - intros formData file uid Hform Hfile Huid Hne Htype.
    unfold UploadRouteBackend.POST, Upload.handle, mbind, Upload.requestForm.
    rewrite Hform. unfold ret at 1. rewrite Hfile, Huid. cbn [Upload.truthyStr].
    rewrite Hne. cbn [negb].
    destruct blobs; cbv zeta.
    all: match goal with
         | |- context [Http.save ?id ?init ?t ?d] =>
             destruct (Http.save id init t d) as [[item|e] db'] eqn:Hs; [|reflexivity]
         end.
    all: apply CreateFacts.save_Ok in Hs as (Hv & _ & _).
    all: pose proof (validate_valid _ _ _ Hv) as (Ht & _ & _ & _ & _ & _ & Hty & _).
    all: cbn [Http.i_type] in Hty; by destruct (Htype _ Hty).
  - intros Hok.
    destruct (CreateFacts.UploadRouteBackend_POST_created request blobs envKey net newId now db
                Hok)
      as (fd & file & init & item & Hform & Hfile & Hv & Huid & _ & _ & _ & Hity & Hico
          & Hioc & Hise & Hifn & Hnone & Hdb & _).
    pose proof (CreateFacts.validate_Some _ _ _ Hv) as (_ & _ & _ & Hown & _).
    pose proof (validate_valid _ _ _ Hv) as (Ht & _ & _ & _ & _ & _ & Hty & Hfn & _).
    pose proof (validate_given _ _ _ Hv) as (Hoc & Hse & Hco).
    rewrite Hity in Hty. rewrite Hifn in Hfn. rewrite Hioc in Hoc. rewrite Hise in Hse.
    rewrite Hico in Hco. apply required_str in Hfn.
    assert (fmap (M := list) JsStr.trim
              <$> (UploadRouteBackend.detected (UploadRouteBackend.analysisOf envKey net)
                     "colors" (Some (Upload.strings ["Unknown"])) ≫= castStrings)
            = Some (colors item)) as Hcolors.
    { destruct (UploadRouteBackend.detected _ "colors" _) as [v|] eqn:Hd; [exact Hco|].
      unfold UploadRouteBackend.detected, UploadRouteBackend.orKeep in Hd.
      repeat match type of Hd with
             | context [match ?x with _ => _ end] => destruct x eqn:?
             end; try discriminate Hd.
      all: match goal with Hm : member _ _ = None |- _ => rewrite Hm in *; done end. }
    exists fd, file, item.
    split; [done|]. split; [done|]. split; [done|]. split; [by rewrite Hdb|].
    split; [by rewrite Huid, Hown|]. split; [done|]. split; [done|].
    split; [done|]. split; [done|]. split; [done|]. split; [done|].
    split; [|split; [|split; [|split; [|split; [|split; [|split]]]]]].
    + intros t Hm Hne. rewrite (CreateFacts.detected_member _ _ _ _ Hm Hne) in Hty.
      by apply required_str in Hty.
    + intros o Hm Hne. rewrite (CreateFacts.detected_member _ _ _ _ Hm Hne) in Hoc.
      cbn in Hoc. by injection Hoc as <-.
    + intros se Hm Hne. rewrite (CreateFacts.detected_member _ _ _ _ Hm Hne) in Hse.
      cbn in Hse. by injection Hse as <-.
    + intros l Hm. rewrite (CreateFacts.detected_member _ _ _ _ Hm eq_refl) in Hcolors.
      assert (castStrings (Upload.strings l) = Some l) as Hcs by apply mapM_castString.
      change (Some (Upload.strings l) ≫= castStrings)
        with (castStrings (Upload.strings l)) in Hcolors.
      rewrite Hcs in Hcolors. by injection Hcolors as <-.
    + intros Hm. rewrite (CreateFacts.detected_kept _ _ _ Hm) in Hty.
      by apply required_type in Hty.
    + intros Hm. rewrite (CreateFacts.detected_kept _ _ _ Hm) in Hoc.
      cbn in Hoc. by injection Hoc as <-.
    + intros Hm. rewrite (CreateFacts.detected_kept _ _ _ Hm) in Hse.
      cbn in Hse. by injection Hse as <-.
    + intros Hm. rewrite (CreateFacts.detected_kept _ _ _ Hm) in Hcolors.
      assert (castStrings (Upload.strings ["Unknown"]) = Some ["Unknown"]) as Hcs
        by apply mapM_castString.
      change (Some (Upload.strings ["Unknown"]) ≫= castStrings)
        with (castStrings (Upload.strings ["Unknown"])) in Hcolors.
      rewrite Hcs in Hcolors. injection Hcolors as Hc. rewrite <- Hc. reflexivity.
Qed.

End Facts.

Section OnTheWardrobe.
Import Examples.

(** Alice renames her shirt and gives it a type that is none of the nine:
    both are stored, the name trimmed, and the counter stays at three. *)
Lemma update_writes_witness :
  let body := JObj [("type", JStr "HAT"); ("name", JStr "  Sun hat ")] in
  let db' := (ItemRoute.PUT (requestOf "alice" body) "item1" 1700000300000 wardrobe).2 in
  status (ItemRoute.PUT (requestOf "alice" body) "item1" 1700000300000 wardrobe).1 = 200
  ∧ type <$> items db' !! "item1" = Some "HAT"
  ∧ name <$> items db' !! "item1" = Some "Sun hat"
  ∧ usageOf "item1" db' = Some 3.
Proof.
  cbv zeta.
  destruct (update_writes wardrobe "item1" shirt
              (requestOf "alice" (JObj [("type", JStr "HAT"); ("name", JStr "  Sun hat ")]))
              (JObj [("type", JStr "HAT"); ("name", JStr "  Sun hat ")]) 1700000300000)
    as (Hok & _ & Hw); [vm_compute; reflexivity|reflexivity|reflexivity|discriminate|].
  assert (status (ItemRoute.PUT
                    (requestOf "alice"
                       (JObj [("type", JStr "HAT"); ("name", JStr "  Sun hat ")]))
                    "item1" 1700000300000 wardrobe).1 = 200) as Hst.
  { apply Hok.
    - intros k v Hk Hv.
      repeat (apply elem_of_cons in Hk as [->|Hk]); [..|by apply elem_of_nil in Hk];
        vm_compute in Hv; try discriminate; injection Hv as <-; eauto.
    - intros v Hv. vm_compute in Hv. discriminate.
    - intros v Hv. vm_compute in Hv. discriminate. }
  destruct (Hw Hst)
    as (it' & _ & _ & Hitems & _ & _ & _ & _ & _ & _ & _ & Husage & _ & _ & _ & _ & _
        & Hname & _ & _ & _ & Htype & _).
  split; [exact Hst|]. unfold usageOf. rewrite Hitems, lookup_insert_eq.
  cbn [fmap option_fmap option_map].
  rewrite (Htype "HAT" eq_refl), (Hname "  Sun hat " eq_refl), Husage.
  repeat split; vm_compute; reflexivity.
Defined.

(** Alice uploads a picture with a key configured, and the content of the
    model's message is an object: its type, colours, occasion and season are
    stored, not the TOP of the form or the handler's defaults. *)
Lemma backend_upload_witness :
  let db' := (UploadRouteBackend.POST uploadRequest UploadRouteBackend.NotConfigured
                (Some "sk-test") (completionOf partyDress) "item3" 1700000200000
                wardrobe).2 in
  Upload.fd_type <$> Upload.form uploadRequest = Some (Some "TOP")
  ∧ type <$> items db' !! "item3" = Some "DRESS"
  ∧ colors <$> items db' !! "item3" = Some ["Red"]
  ∧ occasion <$> items db' !! "item3" = Some "PARTY"
  ∧ season <$> items db' !! "item3" = Some "SUMMER".
Proof.
  cbv zeta.
  destruct (backend_upload uploadRequest UploadRouteBackend.NotConfigured (Some "sk-test")
              (completionOf partyDress) "item3" 1700000200000 wardrobe)
    as (_ & _ & _ & Hok).
  destruct Hok
    as (fd & file & item & _ & _ & _ & Hitems & _ & _ & _ & _ & _ & _ & _
        & Hty & Hoc & Hse & Hco & _); [vm_compute; reflexivity|].
  rewrite Hitems, lookup_insert_eq. cbn [fmap option_fmap option_map].
  rewrite (Hty "DRESS"), (Hoc "PARTY"), (Hse "SUMMER"), (Hco ["Red"])
    by (vm_compute; reflexivity).
  repeat split; vm_compute; reflexivity.
Defined.

(** Alice deletes her shirt through the frontend copy and then asks for it:
    404; its CREATED entry is still in the history, followed by the DELETED
    one, while the later copy leaves no entry of the shirt. *)
Lemma delete_then_witness :
  (ItemRouteNext.GET (laundryRequest "alice" "mark_worn") "item1"
     (ItemRoute.DELETE (laundryRequest "alice" "mark_worn") "item1" 1700000300000
        wardrobe).2).1
  = mkResponse 404 (JsonError "Item not found")
  ∧ h_action <$> itemHistory (ItemRoute.DELETE (laundryRequest "alice" "mark_worn") "item1"
                                1700000300000 wardrobe).2
    = [CREATED; DELETED]
  ∧ itemHistory (ItemRouteNext.DELETE (laundryRequest "alice" "mark_worn") "item1"
                   1700000300000 wardrobe).2
    = [].
Proof.
  destruct (delete_then wardrobe "item1" shirt (laundryRequest "alice" "mark_worn")
              1700000300000) as (Hboth & Hold & Hnext & _);
    [vm_compute; reflexivity|reflexivity|].
  apply Forall_cons in Hboth as [(_ & _ & Hgone) _].
  destruct (Hgone (laundryRequest "alice" "mark_worn") 0 "alice" eq_refl)
    as (_ & _ & _ & Hget & _).
  split; [by rewrite Hget|]. split; [by rewrite Hold|]. rewrite Hnext. vm_compute. reflexivity.
Defined.

End OnTheWardrobe.
End FootprintFacts.

(* ===================================================================== *)
(** ** What the retry wrappers cost and hand over *)
(* ===================================================================== *)

Module WrapperFacts.
Import Net NetFacts.

Section Facts.
Context {B : Type}.
Implicit Types (net : Network B) (r : Response B).

Lemma fetches_backoffTrace k : ∀ delay, fetches (backoffTrace delay k) = S k.
Proof. induction k as [|k IH]; intros delay; cbn; [done|]. by rewrite IH. Qed.

Lemma sleeps_backoffTrace k : ∀ delay, sleeps (backoffTrace delay k) = doubling delay k.
Proof. induction k as [|k IH]; intros delay; cbn; [done|]. by rewrite IH. Qed.

Lemma doubling_total k : ∀ delay, foldr Z.add 0 (doubling delay k) = delay * (2 ^ Z.of_nat k - 1).
Proof.
  induction k as [|k IH]; intros delay; cbn [doubling foldr]; [lia|].
  rewrite IH, Nat2Z.inj_succ, Z.pow_succ_r by lia. lia.
Qed.

Lemma doubling_bound k budget :
  (k ≤ budget)%nat → foldr Z.add 0 (doubling 1000 k) ≤ 1000 * (2 ^ Z.of_nat budget - 1).
Proof.
  intros Hk. rewrite doubling_total.
  assert (2 ^ Z.of_nat k ≤ 2 ^ Z.of_nat budget) by (apply Z.pow_le_mono_r; lia).
  lia.
Qed.

Lemma lastOfBackoff_Throw (o : FetchOutcome B) e :
  lastOfBackoff o = Throw e → retriable o = true.
Proof.
  destruct o as [msg|r]; cbn; [done|].
  by destruct (negb (ok r) && retryStatus r).
Qed.

Lemma lastOfBackoff_Ok (o : FetchOutcome B) r :
  lastOfBackoff o = Ok r → o = Resolves r ∧ (ok r = true ∨ retryStatus r = false).
Proof.
  destruct o as [msg|r']; cbn; [done|].
  destruct (ok r') eqn:Hok; cbn.
  - intros [= ->]. auto.
  - destruct (retryStatus r') eqn:Hrs; [done|]. intros [= ->]. auto.
Qed.

(** One call of a retry wrapper, on any network.  The Gemini wrapper makes
    at most six fetches and sleeps at most 31 seconds in all, the OpenAI and
    HuggingFace wrapper at most four fetches and 7 seconds; the fetches are
    one more than the sleeps.  An answer the Gemini wrapper hands over is
    never a 5xx or a 429, and the wrapper throws only after its sixth
    fetch.  The other wrapper hands a 5xx or 429 over, after its fourth
    fetch; it throws only when that fourth fetch was rejected, and then the
    error of that rejection.  A first answer with a 2xx status comes back
    after the one fetch, without a sleep. *)
Theorem wrapper_results net :
  (fetches (geminiFetch net).2 ≤ 6)%nat
  ∧ foldr Z.add 0 (sleeps (geminiFetch net).2) ≤ 31000
  ∧ fetches (geminiFetch net).2 = S (length (sleeps (geminiFetch net).2))
  ∧ (fetches (openaiFetch net).2 ≤ 4)%nat
  ∧ foldr Z.add 0 (sleeps (openaiFetch net).2) ≤ 7000
  ∧ fetches (openaiFetch net).2 = S (length (sleeps (openaiFetch net).2))
  ∧ (∀ r, (geminiFetch net).1 = Ok r → ok r = true ∨ retryStatus r = false)
  ∧ (∀ e, (geminiFetch net).1 = Throw e → fetches (geminiFetch net).2 = 6%nat)
  ∧ (∀ r, (openaiFetch net).1 = Ok r →
          ok r = true ∨ retryStatus r = false ∨ fetches (openaiFetch net).2 = 4%nat)
  ∧ (∀ e, (openaiFetch net).1 = Throw e →
          ∃ msg, e = TransportError msg ∧ net 3%nat = Rejects msg
                 ∧ fetches (openaiFetch net).2 = 4%nat)
  ∧ (∀ r, net O = Resolves r → ok r = true →
          geminiFetch net = (Ok r, [EvFetch]) ∧ openaiFetch net = (Ok r, [EvFetch])).
Proof.
  unfold geminiFetch, openaiFetch.
  rewrite fetchWithBackoff_run, fetchWithRetry_run. cbn [fst snd Nat.add].
  rewrite !fetches_backoffTrace, !sleeps_backoffTrace.
  pose proof (retriesUsed_le net 5 0) as H5.
  pose proof (retriesUsed_le net 3 0) as H3.
  pose proof (retriesUsed_stop net 5 0) as S5.
  pose proof (retriesUsed_stop net 3 0) as S3.
  cbn [Nat.add] in S5, S3.
  assert (∀ d k, length (doubling d k) = k) as Hlen
    by (intros d k; revert d; induction k as [|k IH]; intros d; cbn; [done|by rewrite IH]).
  rewrite !Hlen.
  split; [lia|]. split; [exact (doubling_bound _ 5 H5)|]. split; [done|].
  split; [lia|]. split; [exact (doubling_bound _ 3 H3)|]. split; [done|].
  split; [|split; [|split; [|split]]].
  - intros r Hr. by apply lastOfBackoff_Ok in Hr as [_ Hr].
  - intros e He. apply lastOfBackoff_Throw in He.
    destruct (decide (retriesUsed net 0 5 = 5%nat)) as [->|Hne]; [done|].
    rewrite S5 in He by lia. done.
  - intros r Hr.
    destruct (decide (retriesUsed net 0 3 = 3%nat)) as [->|Hne]; [auto|].
    specialize (S3 ltac:(lia)).
    destruct (net (retriesUsed net 0 3)) as [msg|r']; [done|].
    cbn in Hr, S3. injection Hr as ->.
    destruct (ok r); cbn in S3; auto.
  - intros e He.
    destruct (decide (retriesUsed net 0 3 = 3%nat)) as [E|Hne].
    + rewrite E in *. destruct (net 3%nat) as [msg|r']; [|done].
      cbn in He. injection He as <-. eauto.
    + specialize (S3 ltac:(lia)).
      destruct (net (retriesUsed net 0 3)) as [msg|r']; done.
  - intros r Hr Hok.
    assert (retriable (net O) = false) as Hnot by (rewrite Hr; cbn; by rewrite Hok).
    cbn [retriesUsed]. rewrite Hnot, Hr. cbn. by rewrite Hok.
Qed.

End Facts.
End WrapperFacts.

(* ===================================================================== *)
(** ** Whose items a suggestion names *)
(* ===================================================================== *)

Module SuggestionFacts.
Import Js Store Suggest SuggestFacts.

Section Facts.
Variable JSON_parse : string → option JValue.

Lemma wardrobe_elem caller db id :
  id ∈ (fst <$> wardrobe caller db) →
  ∃ item, items db !! id = Some item ∧ userId item = caller
          ∧ laundryStatus item = IN_WARDROBE.
Proof.
  intros ([id' item] & -> & Hin)%list_elem_of_fmap.
  unfold wardrobe in Hin. apply list_elem_of_filter in Hin as [[Hown Hst] Hin].
  apply elem_of_map_to_list in Hin. eauto.
Qed.

Lemma ofType_none t (items : list Doc) :
  Forall (λ d, type d.2 ≠ t) items → ofType t items = [].
Proof.
  unfold ofType. induction 1 as [|d l Hd _ IH]; [done|].
  rewrite filter_cons, decide_False by done. exact IH.
Qed.

(** The suggestion handler on any request, key, network and store.  The
    status is 200, 400, 401 or 500.  Suggestions are answered only with 200
    and only to a caller who gave a user id and has two or more items
    hanging in the wardrobe; there are at most three, each names at least
    one item, and every item a suggestion names is stored, belongs to the
    caller and is IN_WARDROBE, whatever the model has answered.  Without a
    key, a caller whose wardrobe holds neither a dress nor a top gets 200
    with no suggestion at all. *)
Theorem suggestions_are_the_callers request envKey net db :
  status (POST JSON_parse request envKey net db) ∈ [200; 400; 401; 500]
  ∧ (∀ suggestions fallback,
       payload (POST JSON_parse request envKey net db) = Suggestions suggestions fallback →
       status (POST JSON_parse request envKey net db) = 200
       ∧ (length suggestions ≤ 3)%nat
       ∧ ∃ caller,
           Http.authenticated request = Some caller
           ∧ (2 ≤ length (wardrobe caller db))%nat
           ∧ ∀ o, o ∈ suggestions →
               itemIds o ≠ []
               ∧ ∀ id, id ∈ itemIds o →
                   ∃ item, items db !! id = Some item ∧ userId item = caller
                           ∧ laundryStatus item = IN_WARDROBE)
  ∧ (∀ caller body,
       Http.authenticated request = Some caller →
       Http.json_body request = Some body →
       member body "userId" = Some (JStr caller) →
       (2 ≤ length (wardrobe caller db))%nat →
       Upload.truthyStr envKey = false →
       Forall (λ d : Doc, type d.2 ≠ "DRESS" ∧ type d.2 ≠ "TOP") (wardrobe caller db) →
       POST JSON_parse request envKey net db = mkResponse 200 (Suggestions [] true)).
Proof.
  split; [|split].
  - unfold POST.
    repeat match goal with
           | |- context [match ?x with _ => _ end] => destruct x
           end; cbn [status]; in_list.
  - intros suggestions fallback. unfold POST.
    destruct (Http.authenticated request) as [caller|]; [|done].
    destruct (Http.json_body request) as [body|]; [|done].
    assert (∀ l b,
              (∀ o, o ∈ l → itemIds o ≠ []
                            ∧ ∀ id, id ∈ itemIds o → id ∈ (fst <$> wardrobe caller db)) →
              (length l ≤ 3)%nat →
              (2 ≤ length (wardrobe caller db))%nat →
              payload (mkResponse 200 (Suggestions l b)) = Suggestions suggestions fallback →
              status (mkResponse 200 (Suggestions l b)) = 200
              ∧ (length suggestions ≤ 3)%nat
              ∧ ∃ caller0,
                  Some caller = Some caller0
                  ∧ (2 ≤ length (wardrobe caller0 db))%nat
                  ∧ ∀ o, o ∈ suggestions →
                      itemIds o ≠ []
                      ∧ ∀ id, id ∈ itemIds o →
                          ∃ item, items db !! id = Some item ∧ userId item = caller0
                                  ∧ laundryStatus item = IN_WARDROBE) as Hserve.
    { intros l b Hvalid Hlen Htwo [= <- <-]. split; [done|]. split; [done|].
      exists caller. split; [done|]. split; [done|].
      intros o Ho. destruct (Hvalid o Ho) as [Hne Hids]. split; [done|].
      intros id Hid. by apply wardrobe_elem, Hids. }
    destruct body; try done.
    all: destruct (negb _ || _); [done|].
    all: case_bool_decide as Htwo; [done|].
    all: assert (2 ≤ length (wardrobe caller db))%nat as Htwo' by lia.
    all: destruct (negb (Upload.truthyStr envKey));
      [apply Hserve; [apply generateFallbackOutfits_valid
                     |apply generateFallbackOutfits_length|done]|].
    all: destruct (OpenAI.generateText _ net);
      [apply Hserve; [apply finish_valid|apply finish_length|done]
      |apply Hserve; [apply generateFallbackOutfits_valid
                     |apply generateFallbackOutfits_length|done]].
  - intros caller body Hauth Hbody Huid Hlen Hkey Hnone. unfold POST. rewrite Hauth, Hbody.
    assert (body ≠ JNull) as Hnull by (intros ->; discriminate Huid).
    rewrite Huid. cbn [truthyOpt truthy ItemsRoute.differsFrom].
    rewrite (authenticated_nonEmpty _ _ Hauth), bool_decide_eq_true_2 by done.
    cbn [negb orb]. rewrite bool_decide_eq_false_2 by lia. rewrite Hkey. cbn [negb].
    assert (generateFallbackOutfits (wardrobe caller db) = []) as ->.
    { unfold generateFallbackOutfits. cbv zeta.
      rewrite (ofType_none "DRESS"), (ofType_none "TOP");
        [done|eapply Forall_impl; [exact Hnone|]; cbn; tauto..]. }
    by destruct body.
Qed.

End Facts.

End SuggestionFacts.

(* ===================================================================== *)
(** ** The frontend upload *)
(* ===================================================================== *)

Module UploadFacts.
Import Js Store Upload FootprintFacts.

Section Facts.
Context `{!Coercions}.
Variable JSON_parse : string → option JValue.




End Facts.
End UploadFacts.

(* ===================================================================== *)
(** ** The audit log along a sequence of calls *)
(* ===================================================================== *)

Module TrailFacts.
Import Js Store Http FootprintFacts.

Section Facts.
Context `{!Coercions}.

Lemma run_call c db : Api.run c db = (Trail.call c db).2.
Proof. by destruct c. Qed.

(** One call: a 200 appends one entry, anything else leaves the store. *)
Lemma call_step c db :
  users (Trail.call c db).2 = users db
  ∧ if bool_decide (status (Trail.call c db).1 = 200)
    then ∃ au, auditLog (Trail.call c db).2 = auditLog db ++ [au]
               ∧ authenticated (Trail.requestOf c) = Some (a_userId au)
               ∧ a_timestamp au = Trail.timeOf c
    else (Trail.call c db).2 = db.
Proof.
  assert (∀ (h : Request → string → Z → Db → Response * Db) request id now,
            (status (h request id now db).1 ∈ [200; 400; 401; 403; 404; 500]
             ∧ (status (h request id now db).1 ≠ 200 → (h request id now db).2 = db)
             ∧ users (h request id now db).2 = users db
             ∧ (∀ other, other ≠ id →
                  items (h request id now db).2 !! other = items db !! other)
             ∧ (status (h request id now db).1 = 200 →
                  ∃ it au,
                    authenticated request = Some (userId it)
                    ∧ items db !! id = Some it
                    ∧ auditLog (h request id now db).2 = auditLog db ++ [au]
                    ∧ a_userId au = userId it
                    ∧ a_ipAddress au = ipAddress request
                    ∧ a_timestamp au = now)) →
            users (h request id now db).2 = users db
            ∧ if bool_decide (status (h request id now db).1 = 200)
              then ∃ au, auditLog (h request id now db).2 = auditLog db ++ [au]
                         ∧ authenticated request = Some (a_userId au)
                         ∧ a_timestamp au = now
              else (h request id now db).2 = db) as Hstep.
  { intros h request id now (_ & Hfail & Husers & _ & Hok). split; [done|].
    case_bool_decide as Hst; [|by apply Hfail].
    destruct (Hok Hst) as (it & au & Hauth & _ & Hlog & Hwho & _ & Hnow).
    exists au. by rewrite Hwho. }
  destruct c as [r i n|r i n|r i n|r i n|r i n|r i n];
    cbn [Trail.call Trail.requestOf Trail.timeOf]; apply Hstep.
  - apply (proj1 footprint_laundry).
  - apply (proj2 footprint_laundry).
  - apply (proj1 footprint_update).
  - apply (proj2 footprint_update).
  - apply (proj1 footprint_delete).
  - apply (proj2 footprint_delete).
Qed.

(** Along every sequence of laundry actions, updates and deletes, through
    either copy of each route: the users stay as they are, and the audit log
    only grows at its end, by exactly one entry for each call that was
    answered with 200, in the order of the calls; the entry carries the user
    id the call was made with and the time of the call. *)
Theorem audit_trail calls : ∀ db,
  users (Api.runAll calls db) = users db
  ∧ ∃ added,
      auditLog (Api.runAll calls db) = auditLog db ++ added
      ∧ Forall2 (λ au c, authenticated (Trail.requestOf c) = Some (a_userId au)
                         ∧ a_timestamp au = Trail.timeOf c)
          added (Trail.served calls db).
Proof.
  induction calls as [|c calls IH]; intros db.
  - split; [done|]. exists []. by rewrite app_nil_r.
  - cbn [Api.runAll fold_left Trail.served]. fold (Api.runAll calls (Api.run c db)).
    rewrite run_call.
    destruct (IH (Trail.call c db).2) as (Husers & added & Hlog & Hall).
    destruct (call_step c db) as (Hu & Hstep).
    split; [by rewrite Husers|].
    destruct (bool_decide (status (Trail.call c db).1 = 200)).
    + destruct Hstep as (au & Hau & Hwho & Hnow).
      exists (au :: added). rewrite Hlog, Hau, <- app_assoc. split; [done|].
      by constructor.
    + exists added. rewrite Hlog, Hstep. split; [done|].
      by rewrite Hstep in Hall.
Qed.

End Facts.
End TrailFacts.

(* ===================================================================== *)
(** ** The usage counter counts the wears *)
(* ===================================================================== *)

Module WearFacts.
Import Js Store Http LaundryAction StoreFacts FootprintFacts TrailFacts.

Section Facts.
Context `{!Coercions}.
Implicit Types (db : Db) (it : Item) (request : Request).

(** What is shown of one handler [h], where [wear] says which requests
    count as a wear. *)
Local Abbreviation step h wear :=
  (∀ request id now db,
     (status (h request id now db).1 ≠ 200 ∧ (h request id now db).2 = db)
     ∨ (status (h request id now db).1 = 200
        ∧ ∃ it, items db !! id = Some it
          ∧ (items (h request id now db).2 = delete id (items db)
             ∨ ∃ it', items (h request id now db).2 = <[id := it']> (items db)
                      ∧ usageCount it'
                        = usageCount it + (if wear request then 1 else 0)))).

Ltac refused := left; cbn [fst snd status]; split; [discriminate|reflexivity].

Lemma actionOf_body request body :
  json_body request = Some body → Wear.actionOf request = whichCase (member body "action").
Proof. intros Hbody. unfold Wear.actionOf. by rewrite Hbody. Qed.

Lemma usageCount_afterAction (b : bool) a now it :
  usageCount (afterAction b a now it) = usageCount it + (if b then 1 else 0).
Proof. unfold afterAction. destruct b; cbn; lia. Qed.

Lemma step_laundry :
  step LaundryRoute.POST
    (λ request, match Wear.actionOf request with
                | Some a => bool_decide (a = mark_worn) || bool_decide (a = mark_laundry)
                | None => false
                end)
  ∧ step LaundryRouteOld.POST
      (λ request, match Wear.actionOf request with
                  | Some a => bool_decide (a = mark_worn)
                  | None => false
                  end).
Proof.
  split; intros request id now db.
  all: destruct (request_cases request db id)
    as [Hauth|[(caller & Hauth & Hbody)|(caller & body & Hauth & Hbody & Hnull & Hitem)]].
  all: try (destruct (unauthenticated db id request now Hauth) as (E1 & E2 & _);
            first [rewrite E1|rewrite E2]; refused).
  all: try (destruct (malformed_body db id request caller now Hauth Hbody)
              as (D1 & S1 & D2 & S2 & _);
            left; first [rewrite D1, S1|rewrite D2, S2]; done).
  all: destruct Hitem as [Hnone|[(it & Hit & Hown)|(it & Hit & Hown)]].
  all: try (destruct (not_found db id request caller body now Hnone Hauth Hbody Hnull)
              as (E1 & E2 & _);
            first [rewrite E1|rewrite E2]; refused).
  all: try (destruct (forbidden_laundry db id it request caller body now Hit Hown Hauth Hbody Hnull)
              as (E1 & E2);
            first [rewrite E1|rewrite E2]; refused).
  all: rewrite (actionOf_body request body Hbody).
  all: destruct (whichCase (member body "action")) as [a|] eqn:Hcase.
  all: try (destruct (laundry_invalid_action db id it request caller body now Hit Hown Hauth
                        Hbody Hnull Hcase) as (E1 & E2);
            first [rewrite E1|rewrite E2]; refused).
  - destruct (LaundryRoute_POST_owner db id it request caller body a now Hit Hown Hauth Hbody
                Hnull Hcase) as (notes & payload & ->).
    right. cbn [fst snd status items]. split; [done|]. exists it. split; [done|]. right.
    eexists. split; [reflexivity|]. apply usageCount_afterAction.
  - destruct (LaundryRouteOld_POST_owner db id it request caller body a now Hit Hown Hauth Hbody
                Hnull Hcase) as (notes & payload & ->).
    right. cbn [fst snd status items]. split; [done|]. exists it. split; [done|]. right.
    eexists. split; [reflexivity|]. apply usageCount_afterAction.
Qed.

Lemma step_update : step ItemRoute.PUT (λ _, false) ∧ step ItemRouteNext.PUT (λ _, false).
Proof.
  split; intros request id now db.
  all: destruct (request_cases request db id)
    as [Hauth|[(caller & Hauth & Hbody)|(caller & body & Hauth & Hbody & Hnull & Hitem)]].
  all: try (destruct (unauthenticated db id request now Hauth) as (_ & _ & E1 & E2 & _);
            first [rewrite E1|rewrite E2]; refused).
  all: try (destruct (malformed_body db id request caller now Hauth Hbody)
              as (_ & _ & _ & _ & D1 & S1 & D2 & S2);
            left; first [rewrite D1, S1|rewrite D2, S2]; done).
  all: destruct Hitem as [Hnone|[(it & Hit & Hown)|(it & Hit & Hown)]].
  all: try (destruct (not_found db id request caller body now Hnone Hauth Hbody Hnull)
              as (_ & _ & E1 & E2 & _);
            first [rewrite E1|rewrite E2]; refused).
  all: try (destruct (forbidden_put db id it request caller body now Hit Hown Hauth Hbody Hnull)
              as (E1 & E2);
            first [rewrite E1|rewrite E2]; refused).
  all: subst caller.
  all: destruct (PUT_logs db id it request body now Hit Hauth Hbody Hnull) as (E1 & E2).
  all: destruct (updateData_no_usageCount (member body)) as [Hk1 Hk2].
  - destruct (applySets (ItemRoute.updateData _) it) as [it'|] eqn:Happ; rewrite E1; [|refused].
    right. cbn [fst snd status items]. split; [done|]. exists it. split; [done|]. right.
    eexists. split; [reflexivity|]. cbn. rewrite (applySets_usageCount _ _ _ Hk1 Happ). lia.
  - destruct (applySets (ItemRouteNext.updateData _) it) as [it'|] eqn:Happ; rewrite E2;
      [|refused].
    right. cbn [fst snd status items]. split; [done|]. exists it. split; [done|]. right.
    eexists. split; [reflexivity|]. cbn. rewrite (applySets_usageCount _ _ _ Hk2 Happ). lia.
Qed.

Lemma step_delete : step ItemRoute.DELETE (λ _, false) ∧ step ItemRouteNext.DELETE (λ _, false).
Proof.
  split; intros request id now db.
  all: destruct (authenticated request) as [caller|] eqn:Hauth.
  all: try (destruct (unauthenticated db id request now Hauth) as (_ & _ & _ & _ & E1 & E2);
            first [rewrite E1|rewrite E2]; refused).
  all: destruct (items db !! id) as [it|] eqn:Hit.
  2, 4: unfold ItemRoute.DELETE, ItemRouteNext.DELETE, handle; rewrite Hauth;
        unfold mbind, findById, respond, ret; rewrite Hit; refused.
  all: destruct (decide (userId it = caller)) as [Hown|Hown].
  2, 4: destruct (forbidden_delete db id it request caller now Hit Hown Hauth) as (E1 & E2);
        first [rewrite E1|rewrite E2]; refused.
  all: subst caller.
  all: destruct (DELETE_logs db id it request now Hit Hauth) as (E1 & E2).
  all: first [rewrite E1|rewrite E2].
  all: right; cbn [fst snd status items]; split; [done|]; exists it; split; [done|by left].
Qed.

(** One call: it is refused and leaves the store, or it is served on a
    stored item, which it deletes or replaces by a document with the counter
    moved as [Wear.countsAsWear] says. *)
Lemma call_wear c db :
  (status (Trail.call c db).1 ≠ 200 ∧ (Trail.call c db).2 = db)
  ∨ (status (Trail.call c db).1 = 200
     ∧ ∃ it, items db !! Wear.targetOf c = Some it
       ∧ (items (Trail.call c db).2 = delete (Wear.targetOf c) (items db)
          ∨ ∃ it', items (Trail.call c db).2 = <[Wear.targetOf c := it']> (items db)
                   ∧ usageCount it'
                     = usageCount it + (if Wear.countsAsWear c then 1 else 0))).
Proof.
  destruct c as [r i n|r i n|r i n|r i n|r i n|r i n];
    cbn [Trail.call Wear.targetOf Wear.countsAsWear].
  - exact (proj1 step_laundry r i n db).
  - exact (proj2 step_laundry r i n db).
  - exact (proj1 step_update r i n db).
  - exact (proj2 step_update r i n db).
  - exact (proj1 step_delete r i n db).
  - exact (proj2 step_delete r i n db).
Qed.

(** What is not stored does not come back. *)
Lemma absent_stays calls db id :
  items db !! id = None → items (Api.runAll calls db) !! id = None.
Proof.
  intros Hnone. destruct (items (Api.runAll calls db) !! id) as [it'|] eqn:E; [|done].
  destruct (runAll_grows calls db id it' E) as (it & Hit & _). congruence.
Qed.

(** The usage counter of an item counts its wears.  Along every sequence of
    laundry actions, updates and deletes, through either copy of each route,
    an item that is stored before and after has a counter that went up by
    the number of calls on that item that were answered with 200 and count
    as a wear: mark_worn and mark_laundry through the handler with awaited
    route parameters, mark_worn alone through the older handler. *)
Theorem usage_counts_wears calls : ∀ db id it it',
  items db !! id = Some it →
  items (Api.runAll calls db) !! id = Some it' →
  usageCount it' = usageCount it + Z.of_nat (Wear.wears id calls db).
Proof.
  unfold Wear.wears.
  induction calls as [|c calls IH]; intros db id it it' Hit Hit'.
  - cbn in *. assert (it' = it) as -> by congruence. lia.
  - cbn [Api.runAll fold_left] in Hit'. fold (Api.runAll calls (Api.run c db)) in Hit'.
    rewrite run_call in Hit'. cbn [Trail.served].
    destruct (call_wear c db) as [[Hst Hdb]|(Hst & it0 & Hit0 & Hcase)].
    + rewrite bool_decide_eq_false_2 by done. rewrite Hdb in *. cbn [app].
      by apply (IH db).
    + rewrite bool_decide_eq_true_2 by done. cbn [app]. rewrite filter_cons.
      destruct (decide (Wear.targetOf c = id)) as [Hid|Hid].
      * rewrite Hid in *. assert (it0 = it) as -> by congruence.
        destruct Hcase as [Hdel|(it1 & Hins & Hcount)].
        -- rewrite (absent_stays calls _ id) in Hit'; [done|].
           rewrite Hdel. apply lookup_delete_eq.
        -- rewrite (IH (Trail.call c db).2 id it1 it');
             [|by rewrite Hins, lookup_insert_eq|done].
           rewrite Hcount. destruct (Wear.countsAsWear c).
           ++ rewrite decide_True by done. cbn [length]. lia.
           ++ rewrite decide_False by (intros [_ ?]; done). lia.
      * rewrite decide_False by (intros [? _]; done).
        apply (IH (Trail.call c db).2 id it it'); [|done].
        destruct Hcase as [->|(it1 & -> & _)];
          [by rewrite lookup_delete_ne|by rewrite lookup_insert_ne].
Qed.

End Facts.

Section OnTheWardrobe.
Import Examples.

(** Alice wears her shirt, sends it to the laundry through the older handler
    and again through the newer one, and Bob tries to wear it: the counter
    goes from three to five, for the two calls that count. *)
Lemma usage_counts_wears_witness :
  let calls :=
    [Api.Laundry (laundryRequest "alice" "mark_worn") "item1" 1700000300000;
     Api.LaundryOld (laundryRequest "alice" "mark_laundry") "item1" 1700000400000;
     Api.Laundry (laundryRequest "alice" "mark_laundry") "item1" 1700000500000;
     Api.Laundry (laundryRequest "bob" "mark_worn") "item1" 1700000600000] in
  usageOf "item1" (Api.runAll calls wardrobe) = Some 5
  ∧ Wear.wears "item1" calls wardrobe = 2%nat.
Proof.
  cbv zeta. split; [|vm_compute; reflexivity].
  unfold usageOf.
  match goal with
  | |- usageCount <$> items (Api.runAll ?calls wardrobe) !! "item1" = _ =>
      destruct (items (Api.runAll calls wardrobe) !! "item1") as [it'|] eqn:E;
        [pose proof (usage_counts_wears calls wardrobe "item1" shirt it'
                       ltac:(vm_compute; reflexivity) E) as Hcount
        |vm_compute in E; discriminate]
  end.
  cbn [fmap option_fmap option_map]. rewrite Hcount. vm_compute. reflexivity.
Defined.

End OnTheWardrobe.
End WearFacts.

(* ===================================================================== *)
(** ** Reading back what was written *)
(* ===================================================================== *)

Module ReadBackFacts.
Import Js Store Http LaundryAction StoreFacts FootprintFacts.

#[local] Instance newerFirst_total' : Total newerFirst.
Proof. intros a b. unfold newerFirst. lia. Qed.

Section Facts.
Context `{!Coercions}.
Implicit Types (db : Db) (it : Item) (request : Request).

(** What is shown of one handler [h] that answers with a document. *)
Local Abbreviation written code h :=
  (∀ request id now db doc,
     (h request id now db).1 = mkResponse code (JsonItem (Some doc)) →
     ∃ e au,
       authenticated request = Some (userId doc)
       ∧ (h request id now db).2
         = mkDb (<[id := doc]> (items db)) (users db) (itemHistory db ++ [e])
             (auditLog db ++ [au])
       ∧ h_itemId e = id ∧ h_performedBy e = userId doc ∧ h_timestamp e = now).

Lemma written_laundry : written 200 LaundryRoute.POST ∧ written 200 LaundryRouteOld.POST.
Proof.
  split; intros request id now db doc.
  all: destruct (request_cases request db id)
    as [Hauth|[(caller & Hauth & Hbody)|(caller & body & Hauth & Hbody & Hnull & Hitem)]].
  all: try (destruct (unauthenticated db id request now Hauth) as (E1 & E2 & _);
            first [rewrite E1|rewrite E2]; discriminate).
  all: try (destruct (malformed_body db id request caller now Hauth Hbody)
              as (D1 & S1 & D2 & S2 & _);
            intros Hdoc; first [rewrite Hdoc in S1|rewrite Hdoc in S2]; discriminate).
  all: destruct Hitem as [Hnone|[(it & Hit & Hown)|(it & Hit & Hown)]].
  all: try (destruct (not_found db id request caller body now Hnone Hauth Hbody Hnull)
              as (E1 & E2 & _);
            first [rewrite E1|rewrite E2]; discriminate).
  all: try (destruct (forbidden_laundry db id it request caller body now Hit Hown Hauth Hbody Hnull)
              as (E1 & E2);
            first [rewrite E1|rewrite E2]; discriminate).
  all: destruct (whichCase (member body "action")) as [a|] eqn:Hcase.
  all: try (destruct (laundry_invalid_action db id it request caller body now Hit Hown Hauth
                        Hbody Hnull Hcase) as (E1 & E2);
            first [rewrite E1|rewrite E2]; discriminate).
  - destruct (LaundryRoute_POST_owner db id it request caller body a now Hit Hown Hauth Hbody
                Hnull Hcase) as (notes & payload & ->).
    cbn [fst snd]. intros [= <-].
    assert (userId (afterAction (LaundryRoute.countsAsWear a) a now it) = caller) as Hu
      by (unfold afterAction; by destruct (LaundryRoute.countsAsWear a)).
    eexists _, _. rewrite Hu. split; [done|]. split; [reflexivity|done].
  - destruct (LaundryRouteOld_POST_owner db id it request caller body a now Hit Hown Hauth Hbody
                Hnull Hcase) as (notes & payload & ->).
    cbn [fst snd]. intros [= <-].
    assert (userId (afterAction (bool_decide (a = mark_worn)) a now it) = caller) as Hu
      by (unfold afterAction; by destruct (bool_decide (a = mark_worn))).
    eexists _, _. rewrite Hu. split; [done|]. split; [reflexivity|done].
Qed.

(** No member of an update changes the owner. *)
Lemma update_keeps_owner fields keys it it' :
  "userId" ∉ keys → applySets (ItemRoute.pick fields keys) it = Some it' →
  userId it' = userId it.
Proof.
  apply (pick_other userId "userId").
  intros k v i i' Hk. unfold setField. repeat case_decide; try done; intros Hs;
    first [ by injection Hs as <- | apply fmap_Some in Hs as (? & _ & ->); reflexivity ].
Qed.

Lemma written_update : written 200 ItemRoute.PUT ∧ written 200 ItemRouteNext.PUT.
Proof.
  split; intros request id now db doc.
  all: destruct (request_cases request db id)
    as [Hauth|[(caller & Hauth & Hbody)|(caller & body & Hauth & Hbody & Hnull & Hitem)]].
  all: try (destruct (unauthenticated db id request now Hauth) as (_ & _ & E1 & E2 & _);
            first [rewrite E1|rewrite E2]; discriminate).
  all: try (destruct (malformed_body db id request caller now Hauth Hbody)
              as (_ & _ & _ & _ & D1 & S1 & D2 & S2);
            intros Hdoc; first [rewrite Hdoc in S1|rewrite Hdoc in S2]; discriminate).
  all: destruct Hitem as [Hnone|[(it & Hit & Hown)|(it & Hit & Hown)]].
  all: try (destruct (not_found db id request caller body now Hnone Hauth Hbody Hnull)
              as (_ & _ & E1 & E2 & _);
            first [rewrite E1|rewrite E2]; discriminate).
  all: try (destruct (forbidden_put db id it request caller body now Hit Hown Hauth Hbody Hnull)
              as (E1 & E2);
            first [rewrite E1|rewrite E2]; discriminate).
  all: subst caller.
  all: destruct (PUT_logs db id it request body now Hit Hauth Hbody Hnull) as (E1 & E2).
  - destruct (applySets (ItemRoute.updateData _) it) as [it'|] eqn:Happ; rewrite E1;
      [|discriminate].
    cbn [fst snd]. intros [= <-].
    assert (userId it' = userId it) as Hsame.
    { apply (update_keeps_owner (member body) ItemRoute.updateKeys); [in_list|exact Happ]. }
    eexists _, _. cbn [set_updatedAt userId]. rewrite Hsame.
    split; [done|]. split; [reflexivity|done].
  - destruct (applySets (ItemRouteNext.updateData _) it) as [it'|] eqn:Happ; rewrite E2;
      [|discriminate].
    cbn [fst snd]. intros [= <-].
    assert (userId it' = userId it) as Hsame.
    { apply (update_keeps_owner (member body) ItemRouteNext.updateKeys);
        [in_list|exact Happ]. }
    eexists _, _. cbn [set_updatedAt userId]. rewrite Hsame.
    split; [done|]. split; [reflexivity|done].
Qed.

Lemma written_create : written 201 ItemsRoute.POST.
Proof.
  intros request newId now db doc.
  unfold ItemsRoute.POST, Http.handle, mbind, Http.requestJson, Http.destructure,
    Http.respond, ret, raise, Http.ItemHistory_create, Http.AuditLog_create.
  repeat (cbv beta; branch); cbn [fst snd]; try discriminate.
  all: intros [= ->].
  all: match goal with
       | Hs : Http.save _ _ _ _ = (Ok _, _) |- _ =>
           apply CreateFacts.save_Ok in Hs as (Hv & Hnone & ->)
       end.
  all: pose proof (CreateFacts.validate_Some _ _ _ Hv) as (_ & _ & _ & Hown & _).
  all: cbn [Http.i_userId] in Hown.
  all: eexists _, _; rewrite Hown; split; [reflexivity|]; split; [reflexivity|done].
Qed.

(** Reading right after a write: the later copy of the GET handler, asked by
    the caller of the write for the id of the write. *)
Lemma read_back code (h : Request → string → Z → Db → Response * Db) :
  written code h →
  ∀ request id now db doc owner,
    (h request id now db).1 = mkResponse code (JsonItem (Some doc)) →
    users db !! userId doc = Some owner →
    ∃ history e,
      ItemRouteNext.GET request id (h request id now db).2
      = (mkResponse 200 (JsonItemWithHistory doc owner history), (h request id now db).2)
      ∧ Sorted newerFirst history
      ∧ history ≡ₚ e :: filter (λ x, h_itemId x = id) (itemHistory db)
      ∧ h_performedBy e = userId doc ∧ h_timestamp e = now.
Proof.
  intros Hw request id now db doc owner Hdoc Howner.
  destruct (Hw request id now db doc Hdoc) as (e & au & Hauth & -> & He & Hby & Hnow).
  exists (merge_sort newerFirst
            (filter (λ x, h_itemId x = id) (itemHistory db ++ [e]))), e.
  split; [|split; [apply (Sorted_merge_sort newerFirst)|split; [|done]]].
  - unfold ItemRouteNext.GET, handle. rewrite Hauth.
    unfold mbind, findById, ItemHistory_find, respond, ret. cbn [items users itemHistory].
    rewrite lookup_insert_eq. cbn [users].
    rewrite Howner, bool_decide_eq_true_2 by done. reflexivity.
  - rewrite merge_sort_Permutation, filter_app, filter_cons, decide_True, filter_nil by done.
    by rewrite Permutation_app_comm.
Qed.

(** Read your writes.  A laundry action, an update (either copy of each)
    or a creation that answered with a document: when the owner of that
    document is a stored user, the caller who then reads the same id
    through the later copy of the GET handler gets 200 with exactly that
    document, and a history, newest first, that holds the entries the item
    had plus one new entry, made by the caller at the time of the write. *)
Theorem read_your_writes :
  Forall (λ ch : Z * (Request → string → Z → Db → Response * Db),
            ∀ request id now db doc owner,
              (ch.2 request id now db).1 = mkResponse ch.1 (JsonItem (Some doc)) →
              users db !! userId doc = Some owner →
              ∃ history e,
                ItemRouteNext.GET request id (ch.2 request id now db).2
                = (mkResponse 200 (JsonItemWithHistory doc owner history),
                   (ch.2 request id now db).2)
                ∧ Sorted newerFirst history
                ∧ history ≡ₚ e :: filter (λ x, h_itemId x = id) (itemHistory db)
                ∧ h_performedBy e = userId doc ∧ h_timestamp e = now)
    [(200, LaundryRoute.POST); (200, LaundryRouteOld.POST); (200, ItemRoute.PUT);
     (200, ItemRouteNext.PUT); (201, ItemsRoute.POST)].
Proof.
  destruct written_laundry, written_update.
  repeat (apply Forall_cons_2; [cbn [fst snd]; by apply read_back|]).
  apply Forall_cons_2; [cbn [fst snd]; apply read_back, written_create|]. apply Forall_nil_2.
Qed.

End Facts.
End ReadBackFacts.

(* ===================================================================== *)
(** ** What the classification functions can return *)
(* ===================================================================== *)

Module ResultFacts.
Import Js Classify ClassifyFacts.

Section Facts.
Variable JSON_parse : string → option JValue.

Lemma colorWords_nonEmpty resp : Forall (λ c, JsStr.nonEmpty c = true) (colorWords resp).
Proof.
  unfold colorWords. apply Forall_forall. intros c Hc.
  by apply list_elem_of_filter in Hc as [Hc _].
Qed.

Lemma cleanColors_nonEmpty parsed : Forall (λ c, JsStr.nonEmpty c = true) (cleanColors parsed).
Proof.
  unfold cleanColors. apply Forall_forall. intros c Hc.
  by apply list_elem_of_filter in Hc as [Hc _].
Qed.

(** The words kept of a free text: at most four, or the one word
    'Unknown'. *)
Lemma kept_words (P : string → Prop) `{!∀ s, Decision (P s)} resp :
  let kept := match filter P (colorWords resp) with
              | [] => ["Unknown"]
              | possible => take 4 possible
              end in
  Forall (λ c, JsStr.nonEmpty c = true) kept ∧ (0 < length kept ≤ 4)%nat.
Proof.
  cbv zeta. destruct (filter P (colorWords resp)) as [|c l] eqn:E.
  - split; [by repeat constructor|cbn; lia].
  - split; [|rewrite length_take; cbn [length]; lia].
    apply Forall_forall. intros x Hx. apply subseteq_take in Hx.
    rewrite <- E in Hx. apply list_elem_of_filter in Hx as [_ Hx].
    pose proof (colorWords_nonEmpty resp) as Hall. rewrite Forall_forall in Hall. auto.
Qed.

Lemma colorsFromText_nonEmpty resp :
  Forall (λ c, JsStr.nonEmpty c = true) (GeminiBackend.colorsFromText resp)
  ∧ Forall (λ c, JsStr.nonEmpty c = true) (OpenAI.colorsFromText resp).
Proof.
  split.
  - exact (proj1 (kept_words (λ s, (String.length s < 20)%nat) resp)).
  - exact (proj1 (kept_words (λ s, (String.length s < 20)%nat ∧ (2 < String.length s)%nat)
                    resp)).
Qed.

Lemma colorsFromWhole_nonEmpty resp :
  Forall (λ c, JsStr.nonEmpty c = true) (GeminiBackend.colorsFromWhole JSON_parse resp)
  ∧ Forall (λ c, JsStr.nonEmpty c = true) (OpenAI.colorsFromWhole JSON_parse resp).
Proof.
  unfold GeminiBackend.colorsFromWhole, OpenAI.colorsFromWhole.
  destruct (colorsFromText_nonEmpty resp) as [H1 H2].
  destruct (JSON_parse resp) as [[| | | |[|c l]|]|]; split;
    first [done | apply cleanColors_nonEmpty | by repeat constructor].
Qed.

(** The colours read off an answer [resp] of the model by the backend
    Gemini adapter and by the OpenAI and HuggingFace adapters. *)
Lemma colors_nonEmpty resp :
  Forall (λ c, JsStr.nonEmpty c = true)
    match matchBracketed resp with
    | Some jsonMatch =>
        match JSON_parse jsonMatch with
        | None => GeminiBackend.colorsFromText resp
        | Some (JArr (c :: parsed)) => cleanColors (c :: parsed)
        | Some _ => GeminiBackend.colorsFromWhole JSON_parse resp
        end
    | None => GeminiBackend.colorsFromWhole JSON_parse resp
    end
  ∧ Forall (λ c, JsStr.nonEmpty c = true)
      match matchBracketed resp with
      | Some jsonMatch =>
          match JSON_parse jsonMatch with
          | None => OpenAI.colorsFromText resp
          | Some (JArr (c :: parsed)) => cleanColors (c :: parsed)
          | Some _ => OpenAI.colorsFromWhole JSON_parse resp
          end
      | None => OpenAI.colorsFromWhole JSON_parse resp
      end.
Proof.
  destruct (colorsFromText_nonEmpty resp) as [T1 T2].
  destruct (colorsFromWhole_nonEmpty resp) as [W1 W2].
  destruct (matchBracketed resp) as [m|]; [|done].
  destruct (JSON_parse m) as [[| | | |[|c l]|]|]; split;
    first [done | apply cleanColors_nonEmpty].
Qed.

(** What the classification functions return, whatever the services
    answer.  A colour is never the empty string (backend Gemini, OpenAI and
    HuggingFace adapters), a name is never empty (all four adapters), and
    the HuggingFace adapter, once it returns, gives a type, an occasion and a
    season of their enumerations.  The list of colours itself can be empty:
    it is when the bracketed part of the answer parses to an array that is
    not empty but whose entries are all blank. *)
Theorem classification_results :
  (∀ net,
     Forall (λ c, JsStr.nonEmpty c = true) (GeminiBackend.extractColorsFromImage JSON_parse net)
     ∧ JsStr.nonEmpty (GeminiFrontend.generateItemName net) = true
     ∧ JsStr.nonEmpty (GeminiBackend.generateItemName net) = true)
  ∧ (∀ apiKey net,
       Forall (λ c, JsStr.nonEmpty c = true)
         (OpenAI.extractColorsFromImage JSON_parse apiKey net)
       ∧ JsStr.nonEmpty (OpenAI.generateItemName apiKey net) = true)
  ∧ (∀ apiKey errorText net fuel,
       (∀ l, HuggingFace.extractColorsFromImage apiKey errorText net JSON_parse fuel = Some l →
             Forall (λ c, JsStr.nonEmpty c = true) l)
       ∧ (∀ t, HuggingFace.identifyClothingType apiKey errorText net fuel = Some t →
               t ∈ validTypes)
       ∧ (∀ o, HuggingFace.suggestOccasion apiKey errorText net fuel = Some o →
               o ∈ validOccasions)
       ∧ (∀ s, HuggingFace.suggestSeason apiKey errorText net fuel = Some s →
               s ∈ validSeasons)
       ∧ (∀ n, HuggingFace.generateItemName apiKey errorText net fuel = Some n →
               JsStr.nonEmpty n = true))
  ∧ (∀ apiKey net resp jsonMatch c parsed,
       OpenAI.analyzeImage apiKey net = Ok resp →
       matchBracketed resp = Some jsonMatch →
       JSON_parse jsonMatch = Some (JArr (c :: parsed)) →
       Forall (λ x, JsStr.trim (toString x) = EmptyString) (c :: parsed) →
       OpenAI.extractColorsFromImage JSON_parse apiKey net = []).
Proof.
  split; [|split; [|split]].
  - intros net.
    unfold GeminiBackend.extractColorsFromImage, GeminiFrontend.generateItemName,
      GeminiBackend.generateItemName.
    destruct (Gemini.analyzeImage net) as [resp|e]; [|by repeat constructor].
    split; [exact (proj1 (colors_nonEmpty resp))|]. cbv zeta.
    split; match goal with |- context [if ?b then _ else _] => by destruct b eqn:E end.
  - intros apiKey net.
    unfold OpenAI.extractColorsFromImage, OpenAI.generateItemName.
    destruct (OpenAI.analyzeImage apiKey net) as [resp|e]; [|by repeat constructor].
    split; [exact (proj2 (colors_nonEmpty resp))|]. cbv zeta.
    match goal with |- context [if ?b then _ else _] => by destruct b eqn:E end.
  - intros apiKey errorText net fuel.
    unfold HuggingFace.extractColorsFromImage, HuggingFace.identifyClothingType,
      HuggingFace.suggestOccasion, HuggingFace.suggestSeason, HuggingFace.generateItemName.
    split; [|split; [|split; [|split]]].
    + intros l. destruct (HuggingFace.analyzeImageWithPrompt _ _ _ _ _).1 as [[]|];
        intros [= <-]; first [by repeat constructor | exact (proj2 (colors_nonEmpty _))].
    + intros t. destruct (HuggingFace.analyzeImageWithPrompt _ _ _ _ _).1 as [[]|];
        intros [= <-];
        lazymatch goal with
        | |- pickType _ _ ∈ _ => apply pickType_valid, typeMap_openai_valid
        | _ => in_list
        end.
    + intros o. destruct (HuggingFace.analyzeImageWithPrompt _ _ _ _ _).1 as [[]|];
        intros [= <-];
        lazymatch goal with
        | |- pickEnum _ _ _ ∈ _ => apply pickEnum_valid; in_list
        | _ => in_list
        end.
    + intros s. destruct (HuggingFace.analyzeImageWithPrompt _ _ _ _ _).1 as [[]|];
        intros [= <-];
        lazymatch goal with
        | |- pickEnum _ _ _ ∈ _ => apply pickEnum_valid; in_list
        | _ => in_list
        end.
    + intros n Hn.
      destruct (HuggingFace.analyzeImageWithPrompt _ _ _ _ _).1 as [[]|]; [..|discriminate Hn];
        apply (inj Some) in Hn; rewrite <- Hn; cbv zeta;
        lazymatch goal with
        | |- context [if ?b then _ else _] => by destruct b eqn:E
        | _ => reflexivity
        end.
  - intros apiKey net resp jsonMatch c parsed Hresp Hmatch Hparse Hblank.
    unfold OpenAI.extractColorsFromImage. rewrite Hresp, Hmatch, Hparse.
    unfold cleanColors. generalize (c :: parsed) Hblank. clear.
    induction 1 as [|x l Hx _ IH]; [done|].
    rewrite fmap_cons, filter_cons, Hx. cbn. exact IH.
Qed.

End Facts.
End ResultFacts.
